(** * paperless-ai: document analysis adapters and RAG orchestration

    A shallow embedding of [services/azureService.js] (the structured-output
    adapter [AzureOpenAIService] and the free-text adapter [OllamaService])
    and of [services/ragService.js] ([RagService]).

    JavaScript strings are sequences of UTF-16 code units, JSON data is an
    inductive type, [async] code with [try]/[catch] is written in a state and
    exception monad whose state records every request put on the wire. *)

From Stdlib Require Import List NArith ZArith String Ascii Bool Lia.
Import ListNotations.

Set Implicit Arguments.
#[local] Set Warnings "-register-all".

(** ** JavaScript values *)

Module Js.

(** A string is its sequence of UTF-16 code units. *)
Definition jsstring := list N.

(** An ASCII literal of the source, code unit by code unit. *)
Definition lit (s : string) : jsstring :=
  map N_of_ascii (list_ascii_of_string s).

Definition LF : jsstring := [10%N].

Fixpoint str_eqb (a b : jsstring) : bool :=
  match a, b with
  | [], [] => true
  | x :: a', y :: b' => N.eqb x y && str_eqb a' b'
  | _, _ => false
  end.

(** [s.length] *)
Definition str_length (s : jsstring) : N := N.of_nat (List.length s).

(** [s.substring(0, n)] for an end index already clamped at 0. *)
Definition substring0 (s : jsstring) (n : N) : jsstring :=
  firstn (N.to_nat n) s.

(** [parts.join(sep)] on an array of strings. *)
Fixpoint join (sep : jsstring) (parts : list jsstring) : jsstring :=
  match parts with
  | [] => []
  | [p] => p
  | p :: rest => p ++ sep ++ join sep rest
  end.

(** [arr.includes(x)] on an array of strings. *)
Definition includes (arr : list jsstring) (x : jsstring) : bool :=
  existsb (str_eqb x) arr.

Fixpoint starts_with (p s : jsstring) : bool :=
  match p, s with
  | [], _ => true
  | x :: p', y :: s' => N.eqb x y && starts_with p' s'
  | _ :: _, [] => false
  end.

(** WhiteSpace and LineTerminator code units: what [\s] matches and what
    [trim] removes. *)
Definition is_space (c : N) : bool :=
  ((9 <=? c) && (c <=? 13) || (c =? 32) || (c =? 160) || (c =? 5760)
   || ((8192 <=? c) && (c <=? 8202)) || (c =? 8232) || (c =? 8233)
   || (c =? 8239) || (c =? 8287) || (c =? 12288) || (c =? 65279))%N.

Fixpoint trim_start (s : jsstring) : jsstring :=
  match s with
  | c :: s' => if is_space c then trim_start s' else s
  | [] => []
  end.

(** [s.trim()] *)
Definition trim (s : jsstring) : jsstring :=
  rev (trim_start (rev (trim_start s))).

(** Decimal digits of a non-negative integer, most significant first. *)
Fixpoint digits_fuel (fuel : nat) (n : N) (acc : jsstring) : jsstring :=
  match fuel with
  | O => acc
  | S fuel' =>
      let acc' := (48 + n mod 10)%N :: acc in
      if (n <? 10)%N then acc' else digits_fuel fuel' (n / 10)%N acc'
  end.

(** [String(z)] for an integer [z]. *)
Definition string_of_Z (z : Z) : jsstring :=
  let n := Z.to_N (Z.abs z) in
  let ds := digits_fuel (S (N.to_nat (N.log2 n))) n [] in
  if (z <? 0)%Z then 45%N :: ds else ds.

(** A JSON number: the decimal value [mant * 10 ^ exp10] that was written,
    before it is rounded to a double. *)
Record jnum : Type := { mant : Z; exp10 : Z }.

(** The data that [JSON.parse] and the HTTP clients produce. *)
Inductive json : Type :=
| JNull
| JBool (b : bool)
| JNum (n : jnum)
| JStr (s : jsstring)
| JArr (items : list json)
| JObj (members : list (jsstring * json)).

Definition jzero : json := JNum {| mant := 0; exp10 := 0 |}.

(** A number is falsy when its double is zero: the written value is zero or
    rounds to zero, which is the case up to [2 ^ -1075] included. *)
Definition num_truthy (n : jnum) : bool :=
  negb (Z.eqb (mant n) 0) &&
  ((0 <=? exp10 n)%Z ||
   (10 ^ (- exp10 n) <? Z.abs (mant n) * 2 ^ 1075)%Z).

(** ToBoolean on JSON data. *)
Definition truthy (v : json) : bool :=
  match v with
  | JNull => false
  | JBool b => b
  | JNum n => num_truthy n
  | JStr s => negb (str_eqb s [])
  | JArr _ | JObj _ => true
  end.

(** ToBoolean on a value that may be [undefined]. *)
Definition truthy_opt (v : option json) : bool :=
  match v with
  | Some v' => truthy v'
  | None => false
  end.

(** Own property of an object built by [JSON.parse]: of duplicate names the
    last one written wins. *)
Fixpoint assoc_last (k : jsstring) (l : list (jsstring * json)) : option json :=
  match l with
  | [] => None
  | (k', v) :: l' =>
      match assoc_last k l' with
      | Some w => Some w
      | None => if str_eqb k k' then Some v else None
      end
  end.

(** [v.k] for one of the property names the services read (none of them is
    defined on a prototype); [None] is [undefined]. The base value is neither
    [null] nor [undefined]. *)
Definition prop (v : json) (k : jsstring) : option json :=
  match v with
  | JObj l => assoc_last k l
  | _ => None
  end.

(** [v[0]] *)
Definition index0 (v : json) : option json :=
  match v with
  | JArr (x :: _) => Some x
  | JStr (c :: _) => Some (JStr [c])
  | JObj l => assoc_last (lit "0") l
  | _ => None
  end.

Definition is_array (v : option json) : bool :=
  match v with
  | Some (JArr _) => true
  | _ => false
  end.

(** [typeof v === 'object'] *)
Definition typeof_object (v : json) : bool :=
  match v with
  | JNull | JArr _ | JObj _ => true
  | _ => false
  end.

Definition typeof_string (v : option json) : bool :=
  match v with
  | Some (JStr _) => true
  | _ => false
  end.

(** [v || null] *)
Definition or_null (v : option json) : json :=
  match v with
  | Some v' => if truthy v' then v' else JNull
  | None => JNull
  end.

(** An [Error] object, as thrown and as caught: its [message]. *)
Record Error : Type := { message : jsstring }.

(** String conversion of an environment variable in a concatenation. *)
Definition env_to_string (v : option jsstring) : jsstring :=
  match v with
  | Some s => s
  | None => lit "undefined"
  end.

(** A string that is there and not empty: a truthy optional string. *)
Definition nonempty (s : option jsstring) : bool :=
  match s with
  | Some (_ :: _) => true
  | _ => false
  end.

(** [s === 'yes'] and [s === 'no'] *)
Definition is_yes (s : jsstring) : bool := str_eqb s (lit "yes").
Definition is_no (s : jsstring) : bool := str_eqb s (lit "no").
Definition env_is_yes (v : option jsstring) : bool :=
  match v with
  | Some s => is_yes s
  | None => false
  end.

End Js.

(** ** [JSON.parse] and [JSON.stringify] on strings *)

Module Json.
Import Js.

Inductive token : Type :=
| TLBrace | TRBrace | TLBrack | TRBrack | TComma | TColon
| TStr (s : jsstring) | TNum (n : jnum) | TTrue | TFalse | TNull.

(** The scanner reads one code unit at a time. String contents are
    accumulated in reverse; a number keeps its digits [m], the count [k] of
    fraction digits and the exponent [e]. *)
Inductive lexstate : Type :=
| LDefault
| LStr (acc : jsstring)
| LEsc (acc : jsstring)
| LUni (acc : jsstring) (k : nat) (v : N)
| LWord (rest : jsstring) (t : token)
| LMinus
| LZero (neg : bool)
| LInt (neg : bool) (m : Z)
| LDot (neg : bool) (m : Z)
| LFrac (neg : bool) (m k : Z)
| LE (neg : bool) (m k : Z)
| LESign (neg : bool) (m k : Z) (eneg : bool)
| LExp (neg : bool) (m k : Z) (eneg : bool) (e : Z).

Definition is_digit (c : N) : bool := ((48 <=? c) && (c <=? 57))%N.
Definition digit_val (c : N) : Z := Z.of_N (c - 48).

Definition hex_val (c : N) : option N :=
  if ((48 <=? c) && (c <=? 57))%N then Some (c - 48)%N
  else if ((97 <=? c) && (c <=? 102))%N then Some (c - 87)%N
  else if ((65 <=? c) && (c <=? 70))%N then Some (c - 55)%N
  else None.

Definition num_tok (neg : bool) (m k : Z) (eneg : bool) (e : Z) : token :=
  TNum {| mant := if neg then (- m)%Z else m;
          exp10 := ((if eneg then - e else e) - k)%Z |}.

(** A code unit met between tokens. *)
Definition start (c : N) : option (lexstate * list token) :=
  if ((c =? 9) || (c =? 10) || (c =? 13) || (c =? 32))%N then Some (LDefault, [])
  else if (c =? 123)%N then Some (LDefault, [TLBrace])
  else if (c =? 125)%N then Some (LDefault, [TRBrace])
  else if (c =? 91)%N then Some (LDefault, [TLBrack])
  else if (c =? 93)%N then Some (LDefault, [TRBrack])
  else if (c =? 44)%N then Some (LDefault, [TComma])
  else if (c =? 58)%N then Some (LDefault, [TColon])
  else if (c =? 34)%N then Some (LStr [], [])
  else if (c =? 45)%N then Some (LMinus, [])
  else if (c =? 48)%N then Some (LZero false, [])
  else if is_digit c then Some (LInt false (digit_val c), [])
  else if (c =? 116)%N then Some (LWord (lit "rue") TTrue, [])
  else if (c =? 102)%N then Some (LWord (lit "alse") TFalse, [])
  else if (c =? 110)%N then Some (LWord (lit "ull") TNull, [])
  else None.

(** A number ends at the first code unit that cannot continue it. *)
Definition emit_then_start (t : token) (c : N) : option (lexstate * list token) :=
  match start c with
  | Some (st, ts) => Some (st, t :: ts)
  | None => None
  end.

Definition is_e (c : N) : bool := ((c =? 101) || (c =? 69))%N.

Definition step (st : lexstate) (c : N) : option (lexstate * list token) :=
  match st with
  | LDefault => start c
  | LStr acc =>
      if (c =? 34)%N then Some (LDefault, [TStr (rev acc)])
      else if (c =? 92)%N then Some (LEsc acc, [])
      else if (c <? 32)%N then None
      else Some (LStr (c :: acc), [])
  | LEsc acc =>
      if ((c =? 34) || (c =? 92) || (c =? 47))%N then Some (LStr (c :: acc), [])
      else if (c =? 98)%N then Some (LStr (8%N :: acc), [])
      else if (c =? 102)%N then Some (LStr (12%N :: acc), [])
      else if (c =? 110)%N then Some (LStr (10%N :: acc), [])
      else if (c =? 114)%N then Some (LStr (13%N :: acc), [])
      else if (c =? 116)%N then Some (LStr (9%N :: acc), [])
      else if (c =? 117)%N then Some (LUni acc 3 0%N, [])
      else None
  | LUni acc k v =>
      match hex_val c with
      | None => None
      | Some h =>
          match k with
          | O => Some (LStr ((v * 16 + h)%N :: acc), [])
          | S k' => Some (LUni acc k' (v * 16 + h)%N, [])
          end
      end
  | LWord rest t =>
      match rest with
      | [] => None
      | r :: rest' =>
          if (c =? r)%N
          then match rest' with
               | [] => Some (LDefault, [t])
               | _ :: _ => Some (LWord rest' t, [])
               end
          else None
      end
  | LMinus =>
      if (c =? 48)%N then Some (LZero true, [])
      else if is_digit c then Some (LInt true (digit_val c), [])
      else None
  | LZero neg =>
      if (c =? 46)%N then Some (LDot neg 0, [])
      else if is_e c then Some (LE neg 0 0, [])
      else if is_digit c then None
      else emit_then_start (num_tok neg 0 0 false 0) c
  | LInt neg m =>
      if is_digit c then Some (LInt neg (10 * m + digit_val c), [])
      else if (c =? 46)%N then Some (LDot neg m, [])
      else if is_e c then Some (LE neg m 0, [])
      else emit_then_start (num_tok neg m 0 false 0) c
  | LDot neg m =>
      if is_digit c then Some (LFrac neg (10 * m + digit_val c) 1, [])
      else None
  | LFrac neg m k =>
      if is_digit c then Some (LFrac neg (10 * m + digit_val c) (k + 1), [])
      else if is_e c then Some (LE neg m k, [])
      else emit_then_start (num_tok neg m k false 0) c
  | LE neg m k =>
      if (c =? 43)%N then Some (LESign neg m k false, [])
      else if (c =? 45)%N then Some (LESign neg m k true, [])
      else if is_digit c then Some (LExp neg m k false (digit_val c), [])
      else None
  | LESign neg m k eneg =>
      if is_digit c then Some (LExp neg m k eneg (digit_val c), [])
      else None
  | LExp neg m k eneg e =>
      if is_digit c then Some (LExp neg m k eneg (10 * e + digit_val c), [])
      else emit_then_start (num_tok neg m k eneg e) c
  end%Z.

(** The end of the text must not fall inside a token. *)
Definition lex_end (st : lexstate) : option (list token) :=
  match st with
  | LDefault => Some []
  | LZero neg => Some [num_tok neg 0 0 false 0]
  | LInt neg m => Some [num_tok neg m 0 false 0]
  | LFrac neg m k => Some [num_tok neg m k false 0]
  | LExp neg m k eneg e => Some [num_tok neg m k eneg e]
  | _ => None
  end.

Fixpoint lex (st : lexstate) (s : jsstring) : option (list token) :=
  match s with
  | [] => lex_end st
  | c :: s' =>
      match step st c with
      | None => None
      | Some (st', ts) =>
          match lex st' s' with
          | None => None
          | Some rest => Some (ts ++ rest)
          end
      end
  end.

(** The parser keeps the open arrays and objects on a stack, innermost
    first, each with what it holds so far (in reverse). *)
Inductive frame : Type :=
| FArr (acc : list json)
| FObj (acc : list (jsstring * json)) (key : jsstring).

Inductive pstate : Type :=
| SVal (stk : list frame)
| SArrStart (stk : list frame)
| SArrAfter (stk : list frame) (acc : list json)
| SObjStart (stk : list frame)
| SObjKey (stk : list frame) (acc : list (jsstring * json))
| SColon (stk : list frame) (acc : list (jsstring * json)) (key : jsstring)
| SObjAfter (stk : list frame) (acc : list (jsstring * json))
| SDone (v : json).

(** A finished value goes to the innermost open container. *)
Definition reduce (stk : list frame) (v : json) : pstate :=
  match stk with
  | [] => SDone v
  | FArr acc :: stk' => SArrAfter stk' (v :: acc)
  | FObj acc key :: stk' => SObjAfter stk' ((key, v) :: acc)
  end.

Definition value_token (stk : list frame) (t : token) : option pstate :=
  match t with
  | TStr s => Some (reduce stk (JStr s))
  | TNum n => Some (reduce stk (JNum n))
  | TTrue => Some (reduce stk (JBool true))
  | TFalse => Some (reduce stk (JBool false))
  | TNull => Some (reduce stk JNull)
  | TLBrack => Some (SArrStart stk)
  | TLBrace => Some (SObjStart stk)
  | _ => None
  end.

Definition pstep (st : pstate) (t : token) : option pstate :=
  match st, t with
  | SVal stk, _ => value_token stk t
  | SArrStart stk, TRBrack => Some (reduce stk (JArr []))
  | SArrStart stk, _ => value_token (FArr [] :: stk) t
  | SArrAfter stk acc, TComma => Some (SVal (FArr acc :: stk))
  | SArrAfter stk acc, TRBrack => Some (reduce stk (JArr (rev acc)))
  | SObjStart stk, TRBrace => Some (reduce stk (JObj []))
  | SObjStart stk, TStr k => Some (SColon stk [] k)
  | SObjKey stk acc, TStr k => Some (SColon stk acc k)
  | SColon stk acc k, TColon => Some (SVal (FObj acc k :: stk))
  | SObjAfter stk acc, TComma => Some (SObjKey stk acc)
  | SObjAfter stk acc, TRBrace => Some (reduce stk (JObj (rev acc)))
  | _, _ => None
  end.

Fixpoint run (st : pstate) (ts : list token) : option json :=
  match ts with
  | [] => match st with SDone v => Some v | _ => None end
  | t :: ts' =>
      match pstep st t with
      | None => None
      | Some st' => run st' ts'
      end
  end.

(** [JSON.parse(s)]; [None] is the [SyntaxError] it throws. *)
Definition parse (s : jsstring) : option json :=
  match lex LDefault s with
  | None => None
  | Some ts => run (SVal []) ts
  end.

Definition hex_digit (n : N) : N :=
  if (n <? 10)%N then (48 + n)%N else (87 + n)%N.

(** [\uXXXX] with lower-case digits. *)
Definition unicode_escape (c : N) : jsstring :=
  [92; 117; hex_digit (c / 4096 mod 16); hex_digit (c / 256 mod 16);
   hex_digit (c / 16 mod 16); hex_digit (c mod 16)]%N.

Definition is_high (c : N) : bool := ((55296 <=? c) && (c <=? 56319))%N.
Definition is_low (c : N) : bool := ((56320 <=? c) && (c <=? 57343))%N.

Definition quote_unit (c : N) : jsstring :=
  if (c =? 8)%N then lit "\b"
  else if (c =? 9)%N then lit "\t"
  else if (c =? 10)%N then lit "\n"
  else if (c =? 12)%N then lit "\f"
  else if (c =? 13)%N then lit "\r"
  else if (c =? 34)%N then [92; 34]%N
  else if (c =? 92)%N then [92; 92]%N
  else if (c <? 32)%N then unicode_escape c
  else if is_high c || is_low c then unicode_escape c
  else [c].

Fixpoint quote_body (s : jsstring) : jsstring :=
  match s with
  | [] => []
  | c :: s' =>
      match s' with
      | d :: s'' =>
          if is_high c && is_low d then c :: d :: quote_body s''
          else quote_unit c ++ quote_body s'
      | [] => quote_unit c
      end
  end.

(** [JSON.stringify(s)] for a string [s]. *)
Definition stringify_string (s : jsstring) : jsstring :=
  34%N :: quote_body s ++ [34%N].

End Json.

(** ** The string rewrites the services perform *)

Module Text.
Import Js.

(** A literal of the source in which the character [^] stands for the
    double quote. *)
Definition litq (s : string) : jsstring :=
  map (fun c => if (c =? 94)%N then 34%N else c) (lit s).

(** [s.replace(re, ...)] with a global pattern that matches deterministically
    and never the empty string: [m] tells, for the text that starts at a
    position, how many code units the match there spans and what replaces
    it. Matches are taken left to right and do not overlap; [skip] counts
    the code units of the current match still to pass over. *)
Fixpoint replace_all (m : jsstring -> option (nat * jsstring)) (skip : nat)
    (s : jsstring) : jsstring :=
  match s with
  | [] => []
  | c :: s' =>
      match skip with
      | S k => replace_all m k s'
      | O =>
          match m s with
          | Some (len, rep) => rep ++ replace_all m (pred len) s'
          | None => c :: replace_all m 0 s'
          end
      end
  end.

(** A fixed text followed by an optional line feed. *)
Definition match_fence (fence : jsstring) (s : jsstring) : option (nat * jsstring) :=
  if starts_with fence s
  then match skipn (List.length fence) s with
       | c :: _ => if (c =? 10)%N then Some (S (List.length fence), [])
                   else Some (List.length fence, [])
       | [] => Some (List.length fence, [])
       end
  else None.

(** [s.replace(/```json\n?/g, '').replace(/```\n?/g, '').trim()] *)
Definition strip_code_fences (s : jsstring) : jsstring :=
  trim (replace_all (match_fence (lit "```")) 0
          (replace_all (match_fence (lit "```json")) 0 s)).

Fixpoint count_spaces (s : jsstring) : nat :=
  match s with
  | c :: s' => if is_space c then S (count_spaces s') else O
  | [] => O
  end.

(** [/,\s*X/] for a closing code unit [X]. *)
Definition match_trailing_comma (closer : N) (s : jsstring) : option (nat * jsstring) :=
  match s with
  | c :: s' =>
      if (c =? 44)%N
      then let n := count_spaces s' in
           match skipn n s' with
           | d :: _ => if (d =? closer)%N then Some (S (S n), [closer]) else None
           | [] => None
           end
      else None
  | [] => None
  end.

Definition is_word (c : N) : bool :=
  (((97 <=? c) && (c <=? 122)) || ((65 <=? c) && (c <=? 90))
   || ((48 <=? c) && (c <=? 57)) || (c =? 95))%N.

Definition is_quote (c : N) : bool := ((c =? 39) || (c =? 34))%N.

Fixpoint take_word (s : jsstring) : jsstring :=
  match s with
  | c :: s' => if is_word c then c :: take_word s' else []
  | [] => []
  end.

Definition count_quote (s : jsstring) : nat :=
  match s with
  | c :: _ => if is_quote c then 1 else 0
  | [] => 0
  end.

(** [/(['"])?([a-zA-Z0-9_]+)(['"])?\s*:/] with replacement ['"$2":']. Each
    optional quote is taken when it is there and the name is the longest
    run of word characters: no shorter choice can be followed by the colon. *)
Definition match_property_name (s : jsstring) : option (nat * jsstring) :=
  let q1 := count_quote s in
  let s1 := skipn q1 s in
  let w := take_word s1 in
  match w with
  | [] => None
  | _ :: _ =>
      let s2 := skipn (List.length w) s1 in
      let q3 := count_quote s2 in
      let s3 := skipn q3 s2 in
      let n := count_spaces s3 in
      match skipn n s3 with
      | c :: _ =>
          if (c =? 58)%N
          then Some (q1 + List.length w + q3 + n + 1, [34%N] ++ w ++ [34%N; 58%N])
          else None
      | [] => None
      end
  end.

(** The text from the first [{] on, if there is one. *)
Fixpoint from_first_open (s : jsstring) : option jsstring :=
  match s with
  | [] => None
  | c :: s' => if (c =? 123)%N then Some s else from_first_open s'
  end.

(** The text up to the last [}], if there is one. *)
Fixpoint upto_last_close (s : jsstring) : option jsstring :=
  match s with
  | [] => None
  | c :: s' =>
      match upto_last_close s' with
      | Some r => Some (c :: r)
      | None => if (c =? 125)%N then Some [c] else None
      end
  end.

(** [s.match(/\{[\s\S]*\}/)]: the match starts at the first [{] and, the
    star being greedy, ends at the last [}] that follows it. *)
Definition match_braces (s : jsstring) : option jsstring :=
  match from_first_open s with
  | Some (b :: rest) =>
      match upto_last_close rest with
      | Some r => Some (b :: r)
      | None => None
      end
  | _ => None
  end.

(** The replacement text of [String.prototype.replace] for a string pattern:
    [$$], [$&], [$`] and [$'] are expanded, there are no captures. *)
Fixpoint expand (before matched after : jsstring) (skip : bool)
    (t : jsstring) : jsstring :=
  match t with
  | [] => []
  | c :: t' =>
      if skip then expand before matched after false t'
      else if (c =? 36)%N
      then match t' with
           | d :: _ =>
               if (d =? 36)%N then 36%N :: expand before matched after true t'
               else if (d =? 38)%N then matched ++ expand before matched after true t'
               else if (d =? 96)%N then before ++ expand before matched after true t'
               else if (d =? 39)%N then after ++ expand before matched after true t'
               else c :: expand before matched after false t'
           | [] => [c]
           end
      else c :: expand before matched after false t'
  end.

Fixpoint replace_first_from (seen pat rep s : jsstring) : option jsstring :=
  if starts_with pat s
  then let after := skipn (List.length pat) s in
       Some (rev seen ++ expand (rev seen) pat after false rep ++ after)
  else match s with
       | [] => None
       | c :: s' => replace_first_from (c :: seen) pat rep s'
       end.

(** [s.replace(pat, rep)] for a string [pat]: the first occurrence only. *)
Definition replace_first (pat rep s : jsstring) : jsstring :=
  match replace_first_from [] pat rep s with
  | Some r => r
  | None => s
  end.

(** The section that both adapters append for external data. *)
Definition external_context (validated : jsstring) : jsstring :=
  LF ++ LF ++ lit "Additional context from external API:" ++ LF ++ validated.

Definition CUSTOMFIELDS : jsstring := lit "%CUSTOMFIELDS%".

End Text.

(** ** Asynchronous code with exceptions *)

Module Eff.
Import Js.

(** What a call comes to: a value, or a thrown error (a rejected promise). *)
Inductive Outcome (A : Type) : Type :=
| Ok (a : A)
| Throw (e : Error).
Arguments Ok {A} a.
Arguments Throw {A} e.

(** A computation over a state [S]; what was done before a throw stays done. *)
Definition M (S A : Type) : Type := S -> Outcome A * S.

Definition ret {S A} (a : A) : M S A := fun s => (Ok a, s).

Definition bind {S A B} (m : M S A) (k : A -> M S B) : M S B :=
  fun s =>
    match m s with
    | (Ok a, s') => k a s'
    | (Throw e, s') => (Throw e, s')
    end.

(** [throw new Error(msg)] *)
Definition throw {S A} (msg : jsstring) : M S A :=
  fun s => (Throw {| message := msg |}, s).

(** [try { m } catch (error) { h error }] *)
Definition try_catch {S A} (m : M S A) (h : Error -> M S A) : M S A :=
  fun s =>
    match m s with
    | (Ok a, s') => (Ok a, s')
    | (Throw e, s') => h e s'
    end.

(** [await] of a call whose outcome the world decides. *)
Definition await {S A} (o : Outcome A) : M S A := fun s => (o, s).

Definition get {S} : M S S := fun s => (Ok s, s).
Definition modify {S} (f : S -> S) : M S unit := fun s => (Ok tt, f s).

Definition when {S} (b : bool) (m : M S unit) : M S unit :=
  if b then m else ret tt.

Module Notations.
Notation "x <- m ;; k" := (bind m (fun x => k))
  (at level 61, m at next level, right associativity).
Notation "m ;;; k" := (bind m (fun _ => k))
  (at level 61, right associativity).
End Notations.

End Eff.

(** ** The result of an analysis *)

Module Analysis.
Import Js.

Record Metrics : Type := {
  promptTokens : option json;
  completionTokens : option json;
  totalTokens : option json
}.

(** A key that a result object does not have is [None]. *)
Record AnalysisResult : Type := {
  document : json;
  metrics : option Metrics;
  truncated : option bool;
  error : option jsstring
}.

(** [{ tags: [], correspondent: null }] *)
Definition empty_document : json :=
  JObj [(lit "tags", JArr []); (lit "correspondent", JNull)].

(** What the [catch] block of every analysis returns. *)
Definition failure (e : Error) : AnalysisResult :=
  {| document := empty_document; metrics := None; truncated := None;
     error := Some (message e) |}.

(** A status record of [checkStatus]; [status_ok] is [status: 'ok'], the
    other status is ['error']. *)
Record Status : Type := {
  status_ok : bool;
  status_model : option json;
  status_error : option jsstring
}.

(** Reading a property of [undefined] or [null] throws a [TypeError]. *)
Definition type_error_reading (base : option json) (k : jsstring) : Error :=
  {| message := lit "Cannot read properties of "
       ++ match base with None => lit "undefined" | Some _ => lit "null" end
       ++ lit " (reading '" ++ k ++ lit "')" |}.

(** [base?.k] *)
Definition opt_prop (base : option json) (k : jsstring) : option json :=
  match base with
  | None | Some JNull => None
  | Some v => prop v k
  end.

(** [base?.[0]] *)
Definition opt_index0 (base : option json) : option json :=
  match base with
  | None | Some JNull => None
  | Some v => index0 v
  end.

End Analysis.

(** ** The structured-output adapter: [AzureOpenAIService] *)

Module Azure.
Import Js Text Eff Eff.Notations Analysis.

Record Message : Type := { role : jsstring; content : jsstring }.

(** The argument of [client.chat.completions.create]. *)
Record Request : Type := {
  model : option jsstring;
  messages : list Message;
  temperature : jnum;
  max_tokens : option Z
}.

(** Configuration, environment and collaborators. [customFieldsStr] is the
    text that lines 81-103 derive from [process.env.CUSTOM_FIELDS] (a
    [TypeError] when the parsed value holds no [custom_fields] array).
    [tokenLimit] and [responseTokens] are [Number(config.tokenLimit)] and
    [Number(config.responseTokens)], configured as integers. The functions
    of [serviceUtils], [restrictionPromptService], [paperlessService], [fs]
    and the client library are collaborators: the world gives the outcome of
    each call. An argument left out, or [undefined], is [None]. *)
Record World : Type := {
  aiProvider : jsstring;
  useExistingData : jsstring;
  restrictToExistingTags : jsstring;
  restrictToExistingCorrespondents : jsstring;
  specialPromptPreDefinedTags : jsstring;
  tokenLimit : Z;
  responseTokens : Z;
  SYSTEM_PROMPT : option jsstring;
  USE_PROMPT_TAGS : option jsstring;
  PROMPT_TAGS : option jsstring;
  AZURE_DEPLOYMENT_NAME : option jsstring;
  customFieldsStr : Outcome jsstring;
  new_AzureOpenAI : Outcome unit;
  fs_access : option json -> Outcome unit;
  getThumbnailImage : option json -> Outcome (option jsstring);
  fs_mkdir : Outcome unit;
  fs_writeFile : option json -> option jsstring -> Outcome unit;
  calculateTokens : jsstring -> option jsstring -> Outcome Z;
  calculateTotalPromptTokens :
    jsstring -> option (list (option jsstring)) -> option jsstring -> Outcome Z;
  truncateToTokenLimit : jsstring -> Z -> option jsstring -> Outcome jsstring;
  writePromptToFile : jsstring -> jsstring -> Outcome unit;
  processRestrictionsInPrompt :
    jsstring -> list jsstring -> list jsstring -> Outcome jsstring;
  chat_completions_create : Request -> Outcome (option json)
}.

(** [this.client] (set or [null]), the mutable [config.mustHavePrompt], and
    the requests sent to the backend so far, oldest first. *)
Record State : Type := {
  client : bool;
  mustHavePrompt : jsstring;
  sent : list Request
}.

Definition set_client (s : State) : State :=
  {| client := true; mustHavePrompt := mustHavePrompt s; sent := sent s |}.

Definition set_mustHavePrompt (p : jsstring) (s : State) : State :=
  {| client := client s; mustHavePrompt := p; sent := sent s |}.

Definition log_request (r : Request) (s : State) : State :=
  {| client := client s; mustHavePrompt := mustHavePrompt s;
     sent := sent s ++ [r] |}.

Definition initialize (w : World) : M State unit :=
  s <- get ;;
  if negb (client s) && str_eqb (aiProvider w) (lit "azure")
  then await (new_AzureOpenAI w) ;;; modify set_client
  else ret tt.

(** [await this.client.chat.completions.create(r)] *)
Definition create (w : World) (r : Request) : M State (option json) :=
  modify (log_request r) ;;; await (chat_completions_create w r).

(** Lines 42-57. *)
Definition cache_thumbnail (w : World) (id : option json) : M State unit :=
  try_catch (await (fs_access w id))
    (fun _ =>
       thumbnailData <- await (getThumbnailImage w id) ;;
       await (fs_mkdir w) ;;;
       await (fs_writeFile w id thumbnailData)).

(** [_validateAndTruncateExternalApiData(apiData, maxTokens)]: [apiData] is
    given by the text [dataString] it serializes to, [None] when it is
    falsy. *)
Definition _validateAndTruncateExternalApiData (w : World)
    (apiData : option jsstring) (maxTokens : Z) : M State (option jsstring) :=
  match apiData with
  | None => ret None
  | Some dataString =>
      dataTokens <- await (calculateTokens w dataString (AZURE_DEPLOYMENT_NAME w)) ;;
      if (maxTokens <? dataTokens)%Z
      then t <- await (truncateToTokenLimit w dataString maxTokens
                         (AZURE_DEPLOYMENT_NAME w)) ;;
           ret (Some t)
      else ret (Some dataString)
  end.

Definition existing_data_block (existingTagsList existingCorrespondentList existingDocumentTypesList : jsstring) : jsstring :=
  LF
  ++ lit "        Pre-existing tags: "
  ++ existingTagsList ++ LF
  ++ LF
  ++ LF
  ++ lit "        Pre-existing correspondents: "
  ++ existingCorrespondentList ++ LF
  ++ LF
  ++ LF
  ++ lit "        Pre-existing document types: "
  ++ existingDocumentTypesList ++ LF
  ++ LF
  ++ LF
  ++ lit "        ".

Definition prompt_tags_block : jsstring :=
  LF
  ++ lit "        Take these tags and try to match one or more to the document content." ++ LF
  ++ LF
  ++ LF
  ++ lit "        ".

Definition musthavePrompt : jsstring :=
  LF
  ++ lit "    Return the result EXCLUSIVELY as a JSON object. The Tags and Title MUST be in the language that is used in the document.:  " ++ LF
  ++ lit "        {" ++ LF
  ++ litq "          ^title^: ^xxxxx^," ++ LF
  ++ litq "          ^correspondent^: ^xxxxxxxx^," ++ LF
  ++ litq "          ^tags^: [^Tag1^, ^Tag2^, ^Tag3^, ^Tag4^]," ++ LF
  ++ litq "          ^document_date^: ^YYYY-MM-DD^," ++ LF
  ++ litq "          ^language^: ^en/de/es/...^" ++ LF
  ++ lit "        }".


(** Lines 59-142: the system prompt and the prompt tags. *)
Definition build_system_prompt (w : World) (existingTags
    existingCorrespondentList existingDocumentTypesList : list jsstring)
    (customPrompt : option jsstring) (externalApiData : option jsstring)
    : M State (jsstring * option jsstring) :=
  let existingTagsList := join (lit ", ") existingTags in
  validatedExternalApiData <-
    match externalApiData with
    | Some _ =>
        try_catch (_validateAndTruncateExternalApiData w externalApiData 500)
          (fun _ => ret None)
    | None => ret None
    end ;;
  customFields <- await (customFieldsStr w) ;;
  s <- get ;;
  systemPrompt <-
    (if is_yes (useExistingData w) && is_no (restrictToExistingTags w)
        && is_no (restrictToExistingCorrespondents w)
     then ret (existing_data_block existingTagsList
                 (join (lit ",") existingCorrespondentList)
                 (join (lit ", ") existingDocumentTypesList)
               ++ env_to_string (SYSTEM_PROMPT w) ++ LF ++ LF
               ++ replace_first CUSTOMFIELDS customFields (mustHavePrompt s))
     else
       let p := replace_first CUSTOMFIELDS customFields (mustHavePrompt s) in
       modify (set_mustHavePrompt p) ;;;
       ret (env_to_string (SYSTEM_PROMPT w) ++ LF ++ LF ++ p)) ;;
  systemPrompt <- await (processRestrictionsInPrompt w systemPrompt
                           existingTags existingCorrespondentList) ;;
  let systemPrompt :=
    if nonempty validatedExternalApiData
    then systemPrompt ++ external_context (env_to_string validatedExternalApiData)
    else systemPrompt in
  let promptTags :=
    if env_is_yes (USE_PROMPT_TAGS w) then PROMPT_TAGS w else Some [] in
  let systemPrompt :=
    if env_is_yes (USE_PROMPT_TAGS w)
    then prompt_tags_block ++ specialPromptPreDefinedTags w
    else systemPrompt in
  s <- get ;;
  let systemPrompt :=
    if nonempty customPrompt
    then env_to_string customPrompt ++ LF ++ LF ++ mustHavePrompt s
    else systemPrompt in
  ret (systemPrompt, promptTags).

Definition system_message (c : jsstring) : Message :=
  {| role := lit "system"; content := c |}.
Definition user_message (c : jsstring) : Message :=
  {| role := lit "user"; content := c |}.

Definition json_string (v : option json) : option jsstring :=
  match v with
  | Some (JStr s) => Some s
  | _ => None
  end.

(** Lines 184-221 and 308-344: from the response to the result. The
    append to [logs/response.txt] of line 205 is started and not awaited;
    it has no part in the result. *)
Definition read_response (response : option json) (truncatedContent
    original : jsstring) : M State AnalysisResult :=
  let content :=
    opt_prop (opt_prop (opt_index0 (opt_prop response (lit "choices")))
                (lit "message")) (lit "content") in
  if negb (truthy_opt content)
  then throw (lit "Invalid API response structure")
  else
    match opt_prop response (lit "usage") with
    | None => await (Throw (type_error_reading None (lit "total_tokens")))
    | Some JNull =>
        await (Throw (type_error_reading (Some JNull) (lit "total_tokens")))
    | Some usage =>
        let mappedUsage :=
          {| promptTokens := prop usage (lit "prompt_tokens");
             completionTokens := prop usage (lit "completion_tokens");
             totalTokens := prop usage (lit "total_tokens") |} in
        match json_string content with
        | None => throw (lit "jsonContent.replace is not a function")
        | Some jsonContent =>
            let jsonContent := strip_code_fences jsonContent in
            parsedResponse <-
              try_catch
                (match Json.parse jsonContent with
                 | Some v => ret v
                 | None => throw (lit "Unexpected token in JSON")
                 end)
                (fun _ => throw (lit "Invalid JSON response from API")) ;;
            if negb (truthy parsedResponse)
               || negb (is_array (prop parsedResponse (lit "tags")))
               || negb (typeof_string (prop parsedResponse (lit "correspondent")))
            then throw (lit "Invalid response structure: missing tags array or correspondent string")
            else ret {| document := parsedResponse;
                        metrics := Some mappedUsage;
                        truncated := Some (str_length truncatedContent
                                           <? str_length original)%N;
                        error := None |}
        end
    end.

Definition temperature_03 : jnum := {| mant := 3; exp10 := -1 |}.
Definition temperature_07 : jnum := {| mant := 7; exp10 := -1 |}.

(** The [try] block of [analyzeDocument]. *)
Definition analyzeDocument_try (w : World) (content : jsstring)
    (existingTags existingCorrespondentList existingDocumentTypesList : list jsstring)
    (id : option json) (customPrompt : option jsstring)
    (externalApiData : option jsstring) : M State AnalysisResult :=
  initialize w ;;;
  s <- get ;;
  if negb (client s) then throw (lit "AzureOpenAI client not initialized")
  else
    cache_thumbnail w id ;;;
    sp <- build_system_prompt w existingTags existingCorrespondentList
            existingDocumentTypesList customPrompt externalApiData ;;
    let systemPrompt := fst sp in
    let promptTags := snd sp in
    let model := AZURE_DEPLOYMENT_NAME w in
    totalPromptTokens <-
      await (calculateTotalPromptTokens w systemPrompt
               (Some (if env_is_yes (USE_PROMPT_TAGS w) then [promptTags] else []))
               model) ;;
    let maxTokens := tokenLimit w in
    let reservedTokens := (totalPromptTokens + responseTokens w)%Z in
    let availableTokens := (maxTokens - reservedTokens)%Z in
    if (availableTokens <=? 0)%Z
    then throw (lit "Token limit exceeded: prompt too large for available token limit")
    else
      truncatedContent <- await (truncateToTokenLimit w content availableTokens model) ;;
      await (writePromptToFile w systemPrompt truncatedContent) ;;;
      response <- create w {| model := model;
                              messages := [system_message systemPrompt;
                                           user_message truncatedContent];
                              temperature := temperature_03;
                              max_tokens := None |} ;;
      read_response response truncatedContent content.

(** [analyzeDocument(content, existingTags, existingCorrespondentList,
    existingDocumentTypesList, id, customPrompt, options)] *)
Definition analyzeDocument (w : World) (content : jsstring)
    (existingTags existingCorrespondentList existingDocumentTypesList : list jsstring)
    (id : option json) (customPrompt : option jsstring)
    (externalApiData : option jsstring) : M State AnalysisResult :=
  try_catch
    (analyzeDocument_try w content existingTags existingCorrespondentList
       existingDocumentTypesList id customPrompt externalApiData)
    (fun e => ret (failure e)).

Definition analyzePlayground_try (w : World) (content prompt : jsstring)
    : M State AnalysisResult :=
  initialize w ;;;
  s <- get ;;
  if negb (client s)
  then throw (lit "AzureOpenAI client not initialized - missing API key")
  else
    totalPromptTokens <-
      await (calculateTotalPromptTokens w (prompt ++ musthavePrompt) None None) ;;
    let maxTokens := tokenLimit w in
    let reservedTokens := (totalPromptTokens + responseTokens w)%Z in
    let availableTokens := (maxTokens - reservedTokens)%Z in
    truncatedContent <- await (truncateToTokenLimit w content availableTokens None) ;;
    response <- create w {| model := AZURE_DEPLOYMENT_NAME w;
                            messages := [system_message (prompt ++ musthavePrompt);
                                         user_message truncatedContent];
                            temperature := temperature_03;
                            max_tokens := None |} ;;
    read_response response truncatedContent content.

(** [analyzePlayground(content, prompt)] *)
Definition analyzePlayground (w : World) (content prompt : jsstring)
    : M State AnalysisResult :=
  try_catch (analyzePlayground_try w content prompt)
    (fun e => ret (failure e)).

Definition probe (w : World) (text : jsstring) (limit : Z) : Request :=
  {| model := AZURE_DEPLOYMENT_NAME w;
     messages := [user_message text];
     temperature := temperature_07;
     max_tokens := Some limit |}.

Definition probe_content (response : option json) : option json :=
  opt_prop (opt_prop (opt_index0 (opt_prop response (lit "choices")))
              (lit "message")) (lit "content").

Definition status_of_model (m : option jsstring) : Status :=
  {| status_ok := true;
     status_model := match m with Some s => Some (JStr s) | None => None end;
     status_error := None |}.

(** The first of the two [checkStatus] methods of the class (lines 394-425);
    the second one replaces it. *)
Definition checkStatus_first (w : World) : M State Status :=
  try_catch
    (initialize w ;;;
     s <- get ;;
     if negb (client s)
     then throw (lit "AzureOpenAI client not initialized - missing API key")
     else
       response <- create w (probe w (lit "Test") 10) ;;
       if negb (truthy_opt (probe_content response))
       then throw (lit "Invalid API response structure")
       else ret (status_of_model (AZURE_DEPLOYMENT_NAME w)))
    (fun e => ret {| status_ok := false; status_model := None;
                     status_error := Some (message e) |}).

(** [checkStatus()], the method in force (lines 427-458). *)
Definition checkStatus (w : World) : M State Status :=
  try_catch
    (initialize w ;;;
     s <- get ;;
     if negb (client s)
     then throw (lit "Azure OpenAI client not initialized - missing API key")
     else
       response <- create w (probe w (lit "Ping") 1000) ;;
       if negb (truthy_opt (probe_content response))
       then ret {| status_ok := false; status_model := None;
                   status_error := None |}
       else ret (status_of_model (AZURE_DEPLOYMENT_NAME w)))
    (fun _ => ret {| status_ok := false; status_model := None;
                     status_error := None |}).

End Azure.

(** ** The free-text adapter: [OllamaService] *)

Module Ollama.
Import Js Text Eff Eff.Notations Analysis.

Inductive Schema : Type := documentAnalysisSchema | playgroundSchema.

(** The body posted to [/api/generate]. *)
Record Request : Type := {
  model : option jsstring;
  prompt : jsstring;
  system : jsstring;
  stream : bool;
  format : Schema;
  temperature : jnum;
  top_p : jnum;
  repeat_penalty : jnum;
  top_k : Z;
  num_predict : Z;
  num_ctx : Z
}.

(** An entry of the correspondent or document type list: a string, an
    object with a [name], or [null]. *)
Inductive Entry : Type :=
| EntryNull
| EntryString (s : jsstring)
| EntryObject (name : option jsstring).

(** Configuration, environment and collaborators, as for the other adapter.
    [CONTENT_MAX_LENGTH] is [None] when the variable is unset or empty;
    otherwise it is the end index that [substring] makes of its text (zero
    for a text that is not a number or is negative, any index past the end
    of the content for an infinite one). [writePromptToFile] is given the
    prompt and the document of the transcript it appends. *)
Record World : Type := {
  ollama_model : option jsstring;
  useExistingData : jsstring;
  restrictToExistingTags : jsstring;
  restrictToExistingCorrespondents : jsstring;
  specialPromptPreDefinedTags : jsstring;
  tokenLimit : Z;
  SYSTEM_PROMPT : option jsstring;
  USE_PROMPT_TAGS : option jsstring;
  PROMPT_TAGS : option jsstring;
  CONTENT_MAX_LENGTH : option N;
  customFieldsStr : Outcome jsstring;
  fs_access : option json -> Outcome unit;
  getThumbnailImage : option json -> Outcome (option jsstring);
  fs_mkdir : Outcome unit;
  fs_writeFile : option json -> option jsstring -> Outcome unit;
  calculateTokens : jsstring -> Outcome Z;
  writePromptToFile : jsstring -> json -> Outcome unit;
  processRestrictionsInPrompt :
    jsstring -> list jsstring -> list Entry -> list Entry -> Outcome jsstring;
  client_post : Request -> Outcome (option json);
  client_get_ps : Outcome (Z * option json)
}.

(** The mutable [config.mustHavePrompt] and the requests posted so far. *)
Record State : Type := {
  mustHavePrompt : jsstring;
  sent : list Request
}.

Definition set_mustHavePrompt (p : jsstring) (s : State) : State :=
  {| mustHavePrompt := p; sent := sent s |}.

Definition log_request (r : Request) (s : State) : State :=
  {| mustHavePrompt := mustHavePrompt s; sent := sent s ++ [r] |}.

(** What the call of an [async] function returns: a promise of the value
    the function comes to. It is an object, so it is truthy, and in a
    template literal it reads [[object Promise]]. *)
Inductive Promise (A : Type) : Type := promise (settled : A).
Arguments promise {A} settled.

Definition awaited {A} (p : Promise A) : A :=
  match p with promise a => a end.

Definition promise_to_string {A} (p : Promise A) : jsstring :=
  lit "[object Promise]".

(** [Math.ceil(s.length / 4)] *)
Definition estimate_tokens (s : jsstring) : N := ((str_length s + 3) / 4)%N.

(** [_truncateContent(content)] *)
Definition _truncateContent (w : World) (content : jsstring) : jsstring :=
  match CONTENT_MAX_LENGTH w with
  | Some n => substring0 content n
  | None => content
  end.

(** Lines 840-850: the text [dataString] against the limit [maxTokens]. *)
Definition truncate_data (dataString : jsstring) (maxTokens : N) : jsstring :=
  let dataTokens := estimate_tokens dataString in
  if (maxTokens <? dataTokens)%N
  then let maxChars := (maxTokens * 4)%N in substring0 dataString maxChars
  else dataString.

(** [_validateAndTruncateExternalApiData(apiData, maxTokens)], an [async]
    method; [apiData] is given by the text it serializes to, [None] when it
    is falsy. *)
Definition _validateAndTruncateExternalApiData (apiData : option jsstring)
    (maxTokens : N) : Promise (option jsstring) :=
  promise match apiData with
          | None => None
          | Some dataString => Some (truncate_data dataString maxTokens)
          end.

(** [.filter(Boolean).map(e => typeof e === 'string' ? e : e?.name || '')
     .filter(name => name.length > 0).join(', ')] *)
Definition entry_name (e : Entry) : jsstring :=
  match e with
  | EntryString s => s
  | EntryObject (Some n) => n
  | _ => []
  end.

Definition entry_truthy (e : Entry) : bool :=
  match e with
  | EntryNull => false
  | EntryString s => negb (str_eqb s [])
  | EntryObject _ => true
  end.

Definition entry_names (l : list Entry) : jsstring :=
  join (lit ", ")
    (filter (fun n => negb (str_eqb n []))
       (map entry_name (filter entry_truthy l))).

Definition existing_data_block (existingTagsList existingCorrespondentList existingDocumentTypesList : jsstring) : jsstring :=
  LF
  ++ lit "            Pre-existing tags: "
  ++ existingTagsList ++ LF
  ++ LF
  ++ LF
  ++ lit "            Pre-existing correspondents: "
  ++ existingCorrespondentList ++ LF
  ++ LF
  ++ LF
  ++ lit "            Pre-existing document types: "
  ++ existingDocumentTypesList ++ LF
  ++ LF
  ++ LF
  ++ lit "            ".

Definition prompt_tags_block : jsstring :=
  LF
  ++ lit "            Take these tags and try to match one or more to the document content." ++ LF
  ++ LF
  ++ LF
  ++ lit "            ".

Definition prompt_with_content (systemPrompt content_json : jsstring) : jsstring :=
  systemPrompt ++ LF
  ++ lit "        "
  ++ content_json ++ LF
  ++ lit "        ".

Definition systemPromptTemplate : jsstring :=
  LF
  ++ lit "            You are a document analyzer. Your task is to analyze documents and extract relevant information. You do not ask back questions. " ++ LF
  ++ lit "            YOU MUSTNOT: Ask for additional information or clarification, or ask questions about the document, or ask for additional context." ++ LF
  ++ lit "            YOU MUSTNOT: Return a response without the desired JSON format." ++ LF
  ++ lit "            YOU MUST: Return the result EXCLUSIVELY as a JSON object. The Tags, Title and Document_Type MUST be in the language that is used in the document.:" ++ LF
  ++ lit "            IMPORTANT: The custom_fields are optional and can be left out if not needed, only try to fill out the values if you find a matching information in the document." ++ LF
  ++ lit "            Do not change the value of field_name, only fill out the values. If the field is about money only add the number without currency and always use a . for decimal places." ++ LF
  ++ lit "            {" ++ LF
  ++ litq "                ^title^: ^xxxxx^," ++ LF
  ++ litq "                ^correspondent^: ^xxxxxxxx^," ++ LF
  ++ litq "                ^tags^: [^Tag1^, ^Tag2^, ^Tag3^, ^Tag4^]," ++ LF
  ++ litq "                ^document_type^: ^Invoice/Contract/...^," ++ LF
  ++ litq "                ^document_date^: ^YYYY-MM-DD^," ++ LF
  ++ litq "                ^language^: ^en/de/es/...^," ++ LF
  ++ lit "                %CUSTOMFIELDS%" ++ LF
  ++ lit "            }" ++ LF
  ++ lit "            ALWAYS USE THE INFORMATION TO FILL OUT THE JSON OBJECT. DO NOT ASK BACK QUESTIONS." ++ LF
  ++ lit "        ".

Definition playgroundSystemPrompt : jsstring :=
  LF
  ++ lit "            You are a document analyzer. Your task is to analyze documents and extract relevant information. You do not ask back questions. " ++ LF
  ++ lit "            YOU MUSTNOT: Ask for additional information or clarification, or ask questions about the document, or ask for additional context." ++ LF
  ++ lit "            YOU MUSTNOT: Return a response without the desired JSON format." ++ LF
  ++ lit "            YOU MUST: Analyze the document content and extract the following information into this structured JSON format and only this format!:         {" ++ LF
  ++ litq "            ^title^: ^xxxxx^," ++ LF
  ++ litq "            ^correspondent^: ^xxxxxxxx^," ++ LF
  ++ litq "            ^tags^: [^Tag1^, ^Tag2^, ^Tag3^, ^Tag4^]," ++ LF
  ++ litq "            ^document_type^: ^Invoice/Contract/...^," ++ LF
  ++ litq "            ^document_date^: ^YYYY-MM-DD^," ++ LF
  ++ litq "            ^language^: ^en/de/es/...^" ++ LF
  ++ lit "            }" ++ LF
  ++ lit "            ALWAYS USE THE INFORMATION TO FILL OUT THE JSON OBJECT. DO NOT ASK BACK QUESTIONS." ++ LF
  ++ lit "        ".


(** [_buildPrompt(content, existingTags, existingCorrespondent,
    existingDocumentTypes, options)]. It is not an [async] function: the
    validation of the external data is called and not awaited. *)
Definition _buildPrompt (w : World) (content : jsstring)
    (existingTags : list jsstring) (existingCorrespondent
    existingDocumentTypes : list Entry) (externalApiData : option jsstring)
    : M State jsstring :=
  let correspondentList := existingCorrespondent in
  customFields <- await (customFieldsStr w) ;;
  s <- get ;;
  systemPrompt <-
    (if is_yes (useExistingData w) && is_no (restrictToExistingTags w)
        && is_no (restrictToExistingCorrespondents w)
     then ret (existing_data_block (join (lit ", ") existingTags)
                 (entry_names correspondentList)
                 (entry_names existingDocumentTypes)
               ++ env_to_string (SYSTEM_PROMPT w) ++ LF ++ LF
               ++ replace_first CUSTOMFIELDS customFields (mustHavePrompt s))
     else
       let p := replace_first CUSTOMFIELDS customFields (mustHavePrompt s) in
       modify (set_mustHavePrompt p) ;;;
       ret (env_to_string (SYSTEM_PROMPT w) ++ LF ++ LF ++ p)) ;;
  let validatedExternalApiData :=
    match externalApiData with
    | Some _ => Some (_validateAndTruncateExternalApiData externalApiData 500)
    | None => None
    end in
  systemPrompt <- await (processRestrictionsInPrompt w systemPrompt
                           existingTags correspondentList existingDocumentTypes) ;;
  let systemPrompt :=
    match validatedExternalApiData with
    | Some p => systemPrompt ++ external_context (promise_to_string p)
    | None => systemPrompt
    end in
  let systemPrompt :=
    if env_is_yes (USE_PROMPT_TAGS w)
    then prompt_tags_block ++ specialPromptPreDefinedTags w
    else systemPrompt in
  ret (prompt_with_content systemPrompt (Json.stringify_string content)).

(** [_generateCustomFieldsTemplate()] *)
Definition _generateCustomFieldsTemplate (w : World) : M State jsstring :=
  await (customFieldsStr w).

(** [_generateSystemPrompt(customFieldsStr)] *)
Definition _generateSystemPrompt (customFields : jsstring) : jsstring :=
  replace_first CUSTOMFIELDS customFields systemPromptTemplate.

(** [_calculatePromptTokenCount(prompt)] *)
Definition _calculatePromptTokenCount (p : jsstring) : Z :=
  Z.of_N (estimate_tokens p).

(** [_calculateNumCtx(promptTokenCount, expectedResponseTokens)] *)
Definition _calculateNumCtx (w : World) (promptTokenCount
    expectedResponseTokens : Z) : Z :=
  let totalTokenUsage := (promptTokenCount + expectedResponseTokens)%Z in
  let maxCtxLimit := tokenLimit w in
  Z.min totalTokenUsage maxCtxLimit.

(** [_handleThumbnailCaching(id)] *)
Definition _handleThumbnailCaching (w : World) (id : option json) : M State unit :=
  if negb (truthy_opt id) then ret tt
  else
    try_catch (await (fs_access w id))
      (fun _ =>
         thumbnailData <- await (getThumbnailImage w id) ;;
         match thumbnailData with
         | None => ret tt
         | Some _ =>
             await (fs_mkdir w) ;;;
             await (fs_writeFile w id thumbnailData)
         end).

(** The body that [_callOllamaAPI] posts (lines 1004-1018). *)
Definition generate_request (w : World) (p systemPrompt : jsstring) (numCtx : Z)
    (schema : Schema) : Request :=
  {| model := ollama_model w; prompt := p; system := systemPrompt;
     stream := false; format := schema;
     temperature := {| mant := 7; exp10 := -1 |};
     top_p := {| mant := 9; exp10 := -1 |};
     repeat_penalty := {| mant := 11; exp10 := -1 |};
     top_k := 7; num_predict := 256; num_ctx := numCtx |}.

(** [_callOllamaAPI(prompt, systemPrompt, numCtx, schema)] *)
Definition _callOllamaAPI (w : World) (p systemPrompt : jsstring) (numCtx : Z)
    (schema : Schema) : M State json :=
  let r := generate_request w p systemPrompt numCtx schema in
  modify (log_request r) ;;;
  data <- await (client_post w r) ;;
  match data with
  | Some d => if truthy d then ret d
              else throw (lit "Invalid response from Ollama API")
  | None => throw (lit "Invalid response from Ollama API")
  end.

(** [_sanitizeJsonString(jsonStr)] *)
Definition _sanitizeJsonString (jsonStr : jsstring) : jsstring :=
  replace_all match_property_name 0
    (replace_all (match_trailing_comma 93) 0
       (replace_all (match_trailing_comma 125) 0 jsonStr)).

Definition array_or_empty (v : option json) : json :=
  match v with
  | Some (JArr l) => JArr l
  | _ => JArr []
  end.

(** The seven fields read off a parsed object. *)
Definition full_fields (r : json) : json :=
  JObj [(lit "tags", array_or_empty (prop r (lit "tags")));
        (lit "correspondent", or_null (prop r (lit "correspondent")));
        (lit "title", or_null (prop r (lit "title")));
        (lit "document_date", or_null (prop r (lit "document_date")));
        (lit "document_type", or_null (prop r (lit "document_type")));
        (lit "language", or_null (prop r (lit "language")));
        (lit "custom_fields", or_null (prop r (lit "custom_fields")))].

(** The five fields read off an object parsed after the repair. *)
Definition sanitized_fields (r : json) : json :=
  JObj [(lit "tags", array_or_empty (prop r (lit "tags")));
        (lit "correspondent", or_null (prop r (lit "correspondent")));
        (lit "title", or_null (prop r (lit "title")));
        (lit "document_date", or_null (prop r (lit "document_date")));
        (lit "language", or_null (prop r (lit "language")))].

(** Reading [.tags] of what [JSON.parse] returned throws when that is
    [null]; the enclosing [try] then takes over. *)
Definition fields_of (fields : json -> json) (r : json) : option json :=
  match r with
  | JNull => None
  | _ => Some (fields r)
  end.

(** [_parseResponse(response)] for a text [response]. The parse of the
    extracted text and the reading of its fields share one [try]: a failure
    of either leads to the repair, to one more parse and to the reading of
    the five fields, and a failure there to the empty document. *)
Definition parse_text (response : jsstring) : json :=
  match match_braces response with
  | None => empty_document
  | Some jsonStr =>
      match match Json.parse jsonStr with
            | Some result => fields_of full_fields result
            | None => None
            end with
      | Some doc => doc
      | None =>
          match match Json.parse (_sanitizeJsonString jsonStr) with
                | Some sanitizedResult => fields_of sanitized_fields sanitizedResult
                | None => None
                end with
          | Some doc => doc
          | None => empty_document
          end
      end
  end.

(** [_parseResponse(response)]: a value without a [match] method throws
    inside the outer [try]. *)
Definition _parseResponse (response : json) : json :=
  match response with
  | JStr s => parse_text s
  | _ => empty_document
  end.

(** [_processOllamaResponse(responseData)] *)
Definition _processOllamaResponse (responseData : json) : M State json :=
  match prop responseData (lit "response") with
  | Some r =>
      if truthy r && typeof_object r then ret (full_fields r)
      else if truthy r then ret (_parseResponse r)
      else throw (lit "No response data from Ollama API")
  | None => throw (lit "No response data from Ollama API")
  end.

Definition zero_metrics : Metrics :=
  {| promptTokens := Some jzero; completionTokens := Some jzero;
     totalTokens := Some jzero |}.

Definition success (doc : json) : AnalysisResult :=
  {| document := doc; metrics := Some zero_metrics; truncated := Some false;
     error := None |}.

(** The [try] block of [analyzeDocument]. *)
Definition analyzeDocument_try (w : World) (content : jsstring)
    (existingTags : list jsstring) (existingCorrespondentList
    existingDocumentTypesList : list Entry) (id : option json)
    (customPrompt : option jsstring) (externalApiData : option jsstring)
    : M State AnalysisResult :=
  let content := _truncateContent w content in
  _handleThumbnailCaching w id ;;;
  let validatedExternalApiData :=
    match externalApiData with
    | Some _ => awaited (_validateAndTruncateExternalApiData externalApiData 500)
    | None => None
    end in
  p <- (if negb (nonempty customPrompt)
        then _buildPrompt w content existingTags existingCorrespondentList
               existingDocumentTypesList externalApiData
        else
          customFields <- await (customFieldsStr w) ;;
          s <- get ;;
          ret (env_to_string customPrompt ++ LF ++ LF
               ++ replace_first CUSTOMFIELDS customFields (mustHavePrompt s)
               ++ LF ++ LF ++ Json.stringify_string content)) ;;
  customFields <- _generateCustomFieldsTemplate w ;;
  let systemPrompt := _generateSystemPrompt customFields in
  let promptTokenCount := _calculatePromptTokenCount p in
  let numCtx := _calculateNumCtx w promptTokenCount 1024 in
  response <- _callOllamaAPI w p systemPrompt numCtx documentAnalysisSchema ;;
  parsedResponse <- _processOllamaResponse response ;;
  await (writePromptToFile w p parsedResponse) ;;;
  ret (success parsedResponse).

(** [analyzeDocument(content, existingTags, existingCorrespondentList,
    existingDocumentTypesList, id, customPrompt, options)] *)
Definition analyzeDocument (w : World) (content : jsstring)
    (existingTags : list jsstring) (existingCorrespondentList
    existingDocumentTypesList : list Entry) (id : option json)
    (customPrompt : option jsstring) (externalApiData : option jsstring)
    : M State AnalysisResult :=
  try_catch
    (analyzeDocument_try w content existingTags existingCorrespondentList
       existingDocumentTypesList id customPrompt externalApiData)
    (fun e => ret (failure e)).

Definition analyzePlayground_try (w : World) (content p : jsstring)
    : M State AnalysisResult :=
  promptTokenCount <- await (calculateTokens w p) ;;
  let numCtx := _calculateNumCtx w promptTokenCount 1024 in
  let systemPrompt := playgroundSystemPrompt in
  response <- _callOllamaAPI w (p ++ LF ++ LF ++ Json.stringify_string content)
                systemPrompt numCtx playgroundSchema ;;
  parsedResponse <- _processOllamaResponse response ;;
  ret (success parsedResponse).

(** [analyzePlayground(content, prompt)] *)
Definition analyzePlayground (w : World) (content p : jsstring)
    : M State AnalysisResult :=
  try_catch (analyzePlayground_try w content p) (fun e => ret (failure e)).

Definition status_error_record : Status :=
  {| status_ok := false; status_model := None; status_error := None |}.

(** The name of the first running model: [null] when the list is missing
    or empty; reading the name of a [null] entry throws. *)
Definition first_model_name (data : json) : Outcome (option json) :=
  match prop data (lit "models") with
  | Some (JArr (JNull :: _)) =>
      Throw (type_error_reading (Some JNull) (lit "name"))
  | Some (JArr (m :: _)) => Ok (prop m (lit "name"))
  | _ => Ok (Some JNull)
  end.

(** [checkStatus()] *)
Definition checkStatus (w : World) : M State Status :=
  r <- try_catch
         (response <- await (client_get_ps w) ;;
          if (fst response =? 200)%Z
          then match snd response with
               | None => await (Throw (type_error_reading None (lit "models")))
               | Some JNull =>
                   await (Throw (type_error_reading (Some JNull) (lit "models")))
               | Some data =>
                   modelName <- await (first_model_name data) ;;
                   ret (Some {| status_ok := true; status_model := modelName;
                                status_error := None |})
               end
          else ret None)
         (fun _ => ret None) ;;
  match r with
  | Some st => ret st
  | None => ret status_error_record
  end.

End Ollama.

(** ** Question answering: [RagService] *)

Module Rag.
Import Js Text Eff Eff.Notations.

(** The values met in the records of the retrieval service and of the
    document repository: absent, [null], an integer or a string. *)
Inductive value : Type :=
| VUndefined
| VNull
| VNum (z : Z)
| VStr (s : jsstring).

Definition v_truthy (v : value) : bool :=
  match v with
  | VNum z => negb (z =? 0)%Z
  | VStr s => negb (str_eqb s [])
  | _ => false
  end.

(** [a || b] *)
Definition v_or (a b : value) : value := if v_truthy a then a else b.

(** String conversion in a template literal or a concatenation. *)
Definition to_string (v : value) : jsstring :=
  match v with
  | VUndefined => lit "undefined"
  | VNull => lit "null"
  | VNum z => string_of_Z z
  | VStr s => s
  end.

Record Source : Type := { doc_id : value; title : value }.

(** A document of the repository; [tags] holds tag ids when it is an array,
    [content] is the text of the document when it has one. *)
Record Document : Type := {
  d_title : value;
  created_date : value;
  created : value;
  correspondent_name : value;
  correspondent : value;
  tags : option (list Z);
  content : option jsstring
}.

Record Tag : Type := { tag_id : Z; tag_name : jsstring }.

Record ReferenceDocument : Type := {
  r_id : value;
  r_title : value;
  r_created : value;
  r_correspondent : value;
  r_tags : list jsstring;
  r_content : jsstring
}.

(** [response.data] of the [/context] call; [sources], when it is there,
    is an array of source records. *)
Record ContextData : Type := {
  context : value;
  sources : option (list Source)
}.

Record RagAnswer : Type := {
  answer : jsstring;
  answer_sources : option (list Source)
}.

(** The retrieval service, the document repository with its tag cache (the
    values of the map, in insertion order), the service factory and the
    active adapter. A [/context] response without data counts as a failed
    call, a missing document as a failed fetch. *)
Record World : Type := {
  post_context : jsstring -> Outcome ContextData;
  ensureTagCache : Outcome unit;
  tagCache : list Tag;
  getDocument : value -> Outcome Document;
  getDocumentContent : value -> Outcome jsstring;
  getService : Outcome unit;
  generateText : jsstring -> Outcome jsstring
}.

(** The prompts handed to [generateText], oldest first. *)
Definition State : Type := list jsstring.

(** The literal tag of line 80. *)
Definition Referencia : jsstring := lit "Refer" ++ [234%N] ++ lit "ncia".

Definition citation_block : jsstring :=
  litq "- Since some documents have the ^Refer"
  ++ [234%N]
  ++ litq "ncia^ tag, include citations to the sources in your answer using the format <citation>AUTHORS. Title. Journal/Publication. v.Volume, p.Pages, Year.</citation>" ++ LF
  ++ lit "        Example: <citation>MADUREIRA, F., COLLEGA, D. G., RODRIGUES, H. F., OLIVEIRA, T. A. C., FREUDENHEIM, A. M. Valida"
  ++ [231%N]
  ++ [227%N]
  ++ lit "o de um Instrumento para Avalia"
  ++ [231%N]
  ++ [227%N]
  ++ litq "o Qualitativa do Nado ^Crawl^. Revista Brasileira de Educa"
  ++ [231%N]
  ++ [227%N]
  ++ lit "o F"
  ++ [237%N]
  ++ lit "sica e Esporte. v.22, p.273-284, 2008.</citation>" ++ LF
  ++ lit "        Use the document title and available metadata to format the citation appropriately.".

Definition reference_entry (id title created correspondent tags content : jsstring) : jsstring :=
  lit "ID: "
  ++ id ++ LF
  ++ lit "Title: "
  ++ title ++ LF
  ++ lit "Created: "
  ++ created ++ LF
  ++ lit "Correspondent: "
  ++ correspondent ++ LF
  ++ lit "Tags: "
  ++ tags ++ LF
  ++ lit "Excerpt: "
  ++ content.

Definition source_info_line (title tags : jsstring) : jsstring :=
  lit "Document: "
  ++ title
  ++ lit ", Tags: "
  ++ tags ++ LF.

Definition full_content_entry (title fullContent : jsstring) : jsstring :=
  lit "Full document content for "
  ++ title
  ++ lit ":" ++ LF
  ++ fullContent.

Definition compose_prompt (question enhancedContext sourceInfo referenceInfo citationInstruction : jsstring) : jsstring :=
  LF
  ++ lit "        You are a helpful assistant that answers questions about documents." ++ LF
  ++ LF
  ++ lit "        Answer the following question precisely, based on the provided documents:" ++ LF
  ++ LF
  ++ lit "        Question: "
  ++ question ++ LF
  ++ LF
  ++ lit "        Context from relevant documents:" ++ LF
  ++ lit "        "
  ++ enhancedContext ++ LF
  ++ LF
  ++ lit "        Source information:" ++ LF
  ++ lit "        "
  ++ sourceInfo
  ++ referenceInfo ++ LF
  ++ LF
  ++ lit "        Important instructions:" ++ LF
  ++ lit "        - Use ONLY information from the provided documents" ++ LF
  ++ litq "        - If the answer is not contained in the documents, respond: ^This information is not contained in the documents.^ (in the same language as the question)" ++ LF
  ++ lit "        - Avoid assumptions or speculation beyond the given context" ++ LF
  ++ lit "        - Answer in the same language as the question was asked" ++ LF
  ++ lit "        - Before providing your final answer, double-check that all information comes directly from the documents and is accurate" ++ LF
  ++ lit "        - If you're unsure about any part of the answer, either omit it or clearly state the uncertainty" ++ LF
  ++ lit "        "
  ++ citationInstruction ++ LF
  ++ lit "        ".


Definition forbid_block : jsstring :=
  lit "- Do not mention document numbers or source references, answer as if it were a natural conversation".

Definition apology : jsstring :=
  lit "An error occurred while generating an answer. Please try again later.".

Definition generic_error : jsstring :=
  lit "An error occurred while processing your question. Please try again later.".

(** [document.tags.map(tagId => ...).filter(name => name)] *)
Definition resolve_tag (w : World) (tagId : Z) : option jsstring :=
  match find (fun t => (tag_id t =? tagId)%Z) (tagCache w) with
  | Some t => Some (tag_name t)
  | None => None
  end.

Definition resolve_tags (w : World) (ids : list Z) : list jsstring :=
  flat_map (fun tagId =>
              match resolve_tag w tagId with
              | Some (c :: n) => [c :: n]
              | _ => []
              end) ids.

(** [source.title || 'Document ' + source.doc_id] *)
Definition source_label (source : Source) : jsstring :=
  if v_truthy (title source) then to_string (title source)
  else lit "Document " ++ to_string (doc_id source).

Definition excerpt (d : Document) : jsstring :=
  match content d with
  | Some (c :: t) => substring0 (c :: t) 500 ++ lit "..."
  | _ => []
  end.

Definition reference_of (source : Source) (d : Document)
    (tagNames : list jsstring) : ReferenceDocument :=
  {| r_id := doc_id source;
     r_title := v_or (v_or (d_title d) (title source)) (VStr (lit "Unknown Title"));
     r_created := v_or (created_date d) (created d);
     r_correspondent := v_or (correspondent_name d) (correspondent d);
     r_tags := tagNames;
     r_content := excerpt d |}.

(** The variables that the loop of step 2 updates. *)
Record Enriched : Type := {
  hasReferenceTag : bool;
  sourceInfo : jsstring;
  referenceDocuments : list ReferenceDocument
}.

Definition enriched0 : Enriched :=
  {| hasReferenceTag := false; sourceInfo := []; referenceDocuments := [] |}.

(** The body of the loop for one source (lines 70-99). *)
Definition enrich_source (w : World) (acc : Enriched) (source : Source)
    : M State Enriched :=
  if v_truthy (doc_id source)
  then
    try_catch
      (document <- await (getDocument w (doc_id source)) ;;
       match tags document with
       | Some ids =>
           let tagNames := resolve_tags w ids in
           let acc1 :=
             if includes tagNames Referencia
             then {| hasReferenceTag := true;
                     sourceInfo := sourceInfo acc;
                     referenceDocuments :=
                       referenceDocuments acc
                       ++ [reference_of source document tagNames] |}
             else acc in
           ret {| hasReferenceTag := hasReferenceTag acc1;
                  sourceInfo :=
                    sourceInfo acc1
                    ++ source_info_line (source_label source)
                         (join (lit ", ") tagNames);
                  referenceDocuments := referenceDocuments acc1 |}
       | None => ret acc
       end)
      (fun _ => ret acc)
  else ret acc.

Fixpoint enrich_loop (w : World) (acc : Enriched) (l : list Source)
    : M State Enriched :=
  match l with
  | [] => ret acc
  | source :: l' =>
      acc' <- enrich_source w acc source ;;
      enrich_loop w acc' l'
  end.

(** Step 2 (lines 61-101). *)
Definition enrich (w : World) (srcs : option (list Source)) : M State Enriched :=
  match srcs with
  | Some (x :: l) =>
      await (ensureTagCache w) ;;;
      enrich_loop w enriched0 (x :: l)
  | _ => ret enriched0
  end.

(** What one source adds to the context (lines 109-120). *)
Definition full_content (w : World) (source : Source) : jsstring :=
  if v_truthy (doc_id source)
  then match getDocumentContent w (doc_id source) with
       | Ok fullContent => full_content_entry (source_label source) fullContent
       | Throw _ => []
       end
  else [].

(** Step 3 (lines 103-125). *)
Definition enhance (w : World) (ctx : value) (srcs : option (list Source))
    : jsstring :=
  match srcs with
  | Some (x :: l) =>
      to_string ctx ++ LF ++ LF
      ++ join (LF ++ LF)
           (filter (fun c => negb (str_eqb c []))
              (map (full_content w) (x :: l)))
  | _ => to_string ctx
  end.

Definition reference_text (doc : ReferenceDocument) : jsstring :=
  reference_entry (to_string (r_id doc)) (to_string (r_title doc))
    (to_string (r_created doc)) (to_string (r_correspondent doc))
    (join (lit ", ") (r_tags doc)) (r_content doc).

(** The reference block of lines 139-141. *)
Definition reference_info (docs : list ReferenceDocument) : jsstring :=
  LF ++ LF ++ lit "Reference Documents Metadata:" ++ LF
  ++ join (LF ++ LF) (map reference_text docs).

Definition citation_mode (e : Enriched) : bool :=
  hasReferenceTag e && negb (Nat.eqb (List.length (referenceDocuments e)) 0).

(** Lines 131-167. *)
Definition final_prompt (question enhancedContext : jsstring) (e : Enriched)
    : jsstring :=
  if citation_mode e
  then compose_prompt question enhancedContext (sourceInfo e)
         (reference_info (referenceDocuments e)) citation_block
  else compose_prompt question enhancedContext (sourceInfo e) [] forbid_block.

(** [aiService.generateText(prompt)] *)
Definition generate (w : World) (p : jsstring) : M State jsstring :=
  modify (fun sent => sent ++ [p]) ;;; await (generateText w p).

(** The [try] block of [askQuestion]. *)
Definition askQuestion_try (w : World) (question : jsstring) : M State RagAnswer :=
  data <- await (post_context w question) ;;
  e <- enrich w (sources data) ;;
  let enhancedContext := enhance w (context data) (sources data) in
  await (getService w) ;;;
  let p := final_prompt question enhancedContext e in
  a <- try_catch (generate w p) (fun _ => ret apology) ;;
  ret {| answer := a; answer_sources := sources data |}.

(** [askQuestion(question)] *)
Definition askQuestion (w : World) (question : jsstring) : M State RagAnswer :=
  try_catch (askQuestion_try w question) (fun _ => throw generic_error).

End Rag.

(** ** Text generation: [generateText] of both adapters *)

Module Generate.
Import Js Text Eff Eff.Notations Analysis.

(** [throw error] in a [catch] block. *)
Definition rethrow {S A} (e : Error) : M S A := await (Throw e).

Definition default_temperature : jnum := {| mant := 1; exp10 := -1 |}.

(** [options.temperature || parseFloat(process.env.RAG_TEMPERATURE) || 0.1].
    The option is a number or [undefined] ([None]); what [parseFloat] makes
    of the variable is a number or [NaN] ([None]). *)
Definition temperature_of (option_temperature parsed_variable : option jnum)
    : jnum :=
  let fallback :=
    match parsed_variable with
    | Some t => if num_truthy t then t else default_temperature
    | None => default_temperature
    end in
  match option_temperature with
  | Some t => if num_truthy t then t else fallback
  | None => fallback
  end.

(** The argument of the call of lines 371-381. *)
Definition azure_text_request (w : Azure.World) (rag_temperature : option jnum)
    (prompt : jsstring) (option_temperature : option jnum) : Azure.Request :=
  {| Azure.model := Azure.AZURE_DEPLOYMENT_NAME w;
     Azure.messages := [Azure.user_message prompt];
     Azure.temperature := temperature_of option_temperature rag_temperature;
     Azure.max_tokens := Some 1000%Z |}.

(** [AzureOpenAIService.generateText(prompt, options)] (lines 360-392);
    [rag_temperature] is [parseFloat(process.env.RAG_TEMPERATURE)]. *)
Definition azure_generateText (w : Azure.World) (rag_temperature : option jnum)
    (prompt : jsstring) (option_temperature : option jnum)
    : M Azure.State json :=
  try_catch
    (Azure.initialize w ;;;
     s <- get ;;
     if negb (Azure.client s)
     then throw (lit "AzureOpenAI client not initialized - missing API key")
     else
       response <- Azure.create w
                     (azure_text_request w rag_temperature prompt
                        option_temperature) ;;
       match Azure.probe_content response with
       | Some c => if truthy c then ret c
                   else throw (lit "Invalid API response structure")
       | None => throw (lit "Invalid API response structure")
       end)
    rethrow.

(** The body that [OllamaService.generateText] posts to [/api/generate]
    (lines 1157-1168): no [format], and fewer options than an analysis. *)
Record TextRequest : Type := {
  t_model : option jsstring;
  t_prompt : jsstring;
  t_system : jsstring;
  t_stream : bool;
  t_temperature : jnum;
  t_top_p : jnum;
  t_num_predict : Z;
  t_num_ctx : Z
}.

Definition text_system_prompt : jsstring :=
  lit "You are a helpful assistant. Generate a clear, concise, and informative response to the user's question or request.".

(** The free-text deployment, what [parseFloat] makes of
    [process.env.RAG_TEMPERATURE], and the outcome of the post
    ([response.data]). *)
Record TextWorld : Type := {
  deployment : Ollama.World;
  rag_temperature : option jnum;
  post_text : TextRequest -> Outcome (option json)
}.

(** The requests posted so far, oldest first. *)
Definition TextState : Type := list TextRequest.

(** The body of the post of lines 1157-1168. *)
Definition ollama_text_request (w : TextWorld) (prompt : jsstring)
    (option_temperature : option jnum) : TextRequest :=
  let promptTokenCount := Ollama._calculatePromptTokenCount prompt in
  let numCtx := Ollama._calculateNumCtx (deployment w) promptTokenCount 512 in
  let systemPrompt := text_system_prompt in
  let temperature := temperature_of option_temperature (rag_temperature w) in
  {| t_model := Ollama.ollama_model (deployment w);
     t_prompt := prompt;
     t_system := systemPrompt;
     t_stream := false;
     t_temperature := temperature;
     t_top_p := {| mant := 9; exp10 := -1 |};
     t_num_predict := 1024;
     t_num_ctx := numCtx |}.

(** [OllamaService.generateText(prompt, options)] (lines 1145-1179). *)
Definition ollama_generateText (w : TextWorld) (prompt : jsstring)
    (option_temperature : option jnum) : M TextState json :=
  try_catch
    (let r := ollama_text_request w prompt option_temperature in
     modify (fun sent => sent ++ [r]) ;;;
     data <- await (post_text w r) ;;
     match data with
     | Some d =>
         if truthy d
         then match prop d (lit "response") with
              | Some a => if truthy a then ret a
                          else throw (lit "Invalid response from Ollama API")
              | None => throw (lit "Invalid response from Ollama API")
              end
         else throw (lit "Invalid response from Ollama API")
     | None => throw (lit "Invalid response from Ollama API")
     end)
    rethrow.

End Generate.

(** ** The retrieval service: the other methods of [RagService] *)

Module RagAdmin.
Import Js Text Eff Eff.Notations Analysis.

(** [process.env.RAG_SERVICE_URL] and the HTTP client: the outcome of a GET
    of a URL and of a POST of a body ([None] when there is none) to a URL
    is [response.data]. *)
Record World : Type := {
  RAG_SERVICE_URL : option jsstring;
  axios_get : jsstring -> Outcome (option json);
  axios_post : jsstring -> option json -> Outcome (option json)
}.

(** [process.env.RAG_SERVICE_URL || 'http://localhost:8000'] *)
Definition baseUrl (w : World) : jsstring :=
  match RAG_SERVICE_URL w with
  | Some (c :: u) => c :: u
  | _ => lit "http://localhost:8000"
  end.

(** The record that [checkStatus] makes up when the service does not
    answer. *)
Definition offline (e : Error) : json :=
  JObj [(lit "server_up", JBool false);
        (lit "data_loaded", JBool false);
        (lit "index_ready", JBool false);
        (lit "error", JStr (message e))].

(** [checkStatus()] (lines 16-30) *)
Definition checkStatus {S} (w : World) : M S (option json) :=
  try_catch (await (axios_get w (baseUrl w ++ lit "/status")))
    (fun e => ret (Some (offline e))).

(** [{ query, ...filters }]: the members of [filters] come after [query],
    and of two members of one name the later one counts. *)
Definition search_body (query : jsstring) (filters : list (jsstring * json))
    : json :=
  JObj ((lit "query", JStr query) :: filters).

(** [search(query, filters)] (lines 38-49) *)
Definition search {S} (w : World) (query : jsstring)
    (filters : list (jsstring * json)) : M S (option json) :=
  try_catch
    (await (axios_post w (baseUrl w ++ lit "/search")
              (Some (search_body query filters))))
    Generate.rethrow.

(** [indexDocuments(force)] (lines 192-203) *)
Definition indexDocuments {S} (w : World) (force : bool) : M S (option json) :=
  try_catch
    (await (axios_post w (baseUrl w ++ lit "/indexing/start")
              (Some (JObj [(lit "force", JBool force);
                           (lit "background", JBool true)]))))
    Generate.rethrow.

(** [checkForUpdates()] (lines 209-217) *)
Definition checkForUpdates {S} (w : World) : M S (option json) :=
  try_catch (await (axios_post w (baseUrl w ++ lit "/indexing/check") None))
    Generate.rethrow.

(** [getIndexingStatus()] (lines 223-231) *)
Definition getIndexingStatus {S} (w : World) : M S (option json) :=
  try_catch (await (axios_get w (baseUrl w ++ lit "/indexing/status")))
    Generate.rethrow.

(** [initialize(force)] (lines 238-246) *)
Definition initialize {S} (w : World) (force : bool) : M S (option json) :=
  try_catch
    (await (axios_post w (baseUrl w ++ lit "/initialize")
              (Some (JObj [(lit "force", JBool force)]))))
    Generate.rethrow.

(** [getAIStatus()] (lines 252-261): the factory gives the active adapter,
    whose [checkStatus] is then run. *)
Definition getAIStatus {S} (getService : Outcome (M S Status)) : M S Status :=
  try_catch
    (aiService_checkStatus <- await getService ;;
     aiService_checkStatus)
    Generate.rethrow.

End RagAdmin.

(** ** The normalizer as the specification words it

    The specification has the free-text normalizer extract the first
    balanced brace span. [first_balanced_span] is that extraction and
    [parse_text_balanced] the normalizer built on it, to be compared with
    [Ollama.parse_text]. *)

Module SpecWords.
Import Js Text.

(** The text up to the brace that closes an open one, [depth] further
    braces being open. *)
Fixpoint close_at (depth : nat) (s : jsstring) : option jsstring :=
  match s with
  | [] => None
  | c :: s' =>
      if (c =? 125)%N
      then match depth with
           | O => Some [c]
           | S d => option_map (cons c) (close_at d s')
           end
      else if (c =? 123)%N then option_map (cons c) (close_at (S depth) s')
      else option_map (cons c) (close_at depth s')
  end.

(** The first span that opens with a brace and ends where that brace is
    closed. *)
Fixpoint first_balanced_span (s : jsstring) : option jsstring :=
  match s with
  | [] => None
  | c :: s' =>
      if (c =? 123)%N
      then match close_at 0 s' with
           | Some r => Some (c :: r)
           | None => first_balanced_span s'
           end
      else first_balanced_span s'
  end.

Definition parse_text_balanced (response : jsstring) : json :=
  match first_balanced_span response with
  | None => Analysis.empty_document
  | Some jsonStr =>
      match match Json.parse jsonStr with
            | Some result => Ollama.fields_of Ollama.full_fields result
            | None => None
            end with
      | Some doc => doc
      | None =>
          match match Json.parse (Ollama._sanitizeJsonString jsonStr) with
                | Some r => Ollama.fields_of Ollama.sanitized_fields r
                | None => None
                end with
          | Some doc => doc
          | None => Analysis.empty_document
          end
      end
  end.

End SpecWords.

(** ** Notions used in the statements *)

Module Notions.
Import Js Json Analysis.

(** The outermost open container is an object. *)
Definition rooted_stack (stk : list frame) : Prop :=
  exists above acc key, stk = above ++ [FObj acc key].

Definition rooted (st : pstate) : Prop :=
  match st with
  | SDone (JObj _) => True
  | SDone _ => False
  | SVal stk | SArrStart stk | SArrAfter stk _ => rooted_stack stk
  | SObjStart stk | SObjKey stk _ | SColon stk _ _ | SObjAfter stk _ =>
      stk = [] \/ rooted_stack stk
  end.

(** The two shapes of a status record. *)
Definition ok_or_error (r : Status) : Prop :=
  (exists m, r = {| status_ok := true; status_model := m; status_error := None |})
  \/ status_ok r = false.

(** What a computation does to the log [tr] of a state and what it returns:
    [preserves] leaves the log as it is, [sends P] appends only requests
    that satisfy [P], [results Q] returns only values that satisfy [Q]. *)
Section Logs.
Variables (S R : Type) (tr : S -> list R).

Definition preserves {A} (m : Eff.M S A) : Prop :=
  forall s, tr (snd (m s)) = tr s.

Definition sends (P : R -> Prop) {A} (m : Eff.M S A) : Prop :=
  forall s, exists l, tr (snd (m s)) = tr s ++ l /\ Forall P l.

Definition results {A} (Q : A -> Prop) (m : Eff.M S A) : Prop :=
  forall s a s', m s = (Eff.Ok a, s') -> Q a.
End Logs.



(** A reply text from which no document can be read: no brace span, or a
    span that does not parse, neither as it is nor repaired. *)
Definition unparseable (t : jsstring) : Prop :=
  match Text.match_braces t with
  | None => True
  | Some j =>
      Json.parse j = None /\ Json.parse (Ollama._sanitizeJsonString j) = None
  end.




(** The tag names resolved for a source: those of its document, when the
    source has a document id, the document can be fetched and its tags are
    an array. *)
Definition resolved_tags (w : Rag.World) (source : Rag.Source)
    : option (Rag.Document * list jsstring) :=
  if Rag.v_truthy (Rag.doc_id source)
  then match Rag.getDocument w (Rag.doc_id source) with
       | Eff.Ok d =>
           match Rag.tags d with
           | Some ids => Some (d, Rag.resolve_tags w ids)
           | None => None
           end
       | Eff.Throw _ => None
       end
  else None.

(** The source's resolved tag names include the reference tag. *)
Definition carries_reference_tag (w : Rag.World) (source : Rag.Source) : bool :=
  match resolved_tags w source with
  | Some (_, names) => includes names Rag.Referencia
  | None => false
  end.

(** The reference record of a source that carries the tag. *)
Definition reference_for (w : Rag.World) (source : Rag.Source)
    : list Rag.ReferenceDocument :=
  match resolved_tags w source with
  | Some (d, names) =>
      if includes names Rag.Referencia
      then [Rag.reference_of source d names]
      else []
  | None => []
  end.

(** The line of source information of a source whose tags resolve. *)
Definition info_for (w : Rag.World) (source : Rag.Source) : jsstring :=
  match resolved_tags w source with
  | Some (_, names) =>
      Rag.source_info_line (Rag.source_label source) (join (lit ", ") names)
  | None => []
  end.


Definition is_throw {A} (o : Eff.Outcome A) : bool :=
  match o with
  | Eff.Throw _ => true
  | Eff.Ok _ => false
  end.

Definition source_list (data : Rag.ContextData) : list Rag.Source :=
  match Rag.sources data with
  | Some l => l
  | None => []
  end.

(** The three ways in which [askQuestion] fails: the retrieval fails; there
    are sources and the tag cache cannot be filled; the service factory
    fails. *)
Definition askQuestion_fails (w : Rag.World) (question : jsstring) : bool :=
  match Rag.post_context w question with
  | Eff.Throw _ => true
  | Eff.Ok data =>
      (negb (Nat.eqb (List.length (source_list data)) 0)
       && is_throw (Rag.ensureTagCache w))
      || is_throw (Rag.getService w)
  end.

(** What the loop of step 2 leaves for the sources [srcs]. *)
Definition enriched_of (w : Rag.World) (srcs : list Rag.Source) : Rag.Enriched :=
  {| Rag.hasReferenceTag := existsb (carries_reference_tag w) srcs;
     Rag.sourceInfo := flat_map (info_for w) srcs;
     Rag.referenceDocuments := flat_map (reference_for w) srcs |}.

(** The prompt composed for a question and the data retrieved for it. *)
Definition prompt_of (w : Rag.World) (question : jsstring)
    (data : Rag.ContextData) : jsstring :=
  Rag.final_prompt question
    (Rag.enhance w (Rag.context data) (Rag.sources data))
    (enriched_of w (source_list data)).

(** The answer: the generated text, or the apology when generation fails. *)
Definition answer_of (w : Rag.World) (p : jsstring) : jsstring :=
  match Rag.generateText w p with
  | Eff.Ok a => a
  | Eff.Throw _ => Rag.apology
  end.






End Notions.

(** ** Concrete replies, worlds and requests *)

Module Examples.
Import Js Text Eff Analysis.

(** The reply of the specification's example: code fences, bare property
    names and a trailing comma. *)
Definition fenced_example : jsstring :=
  lit "```json" ++ LF
  ++ litq "{tags: [^A^], correspondent: ^X^,}" ++ LF
  ++ lit "```".

Definition example_document : json :=
  JObj [(lit "tags", JArr [JStr (lit "A")]);
        (lit "correspondent", JStr (lit "X"));
        (lit "title", JNull);
        (lit "document_date", JNull);
        (lit "language", JNull)].

(** A reply with a second closing brace after the object. *)
Definition trailing_brace_example : jsstring :=
  litq "{^tags^: [^A^], ^correspondent^: ^X^} }".

(** A stand-in for the tokenizer of [serviceUtils]: four code units to the
    token. A negative limit drops that many tokens from the end, as a
    [slice(0, n)] of the token list does. *)
Definition ratio_tokens (text : jsstring) : Z :=
  Z.of_N ((str_length text + 3) / 4).

Definition ratio_truncate (text : jsstring) (n : Z) : jsstring :=
  if (n <? 0)%Z
  then firstn (List.length text - Z.to_nat (4 * - n)) text
  else firstn (Z.to_nat (4 * n)) text.

(** A reply of the chat endpoint with a well-formed document. *)
Definition chat_reply : json :=
  JObj [(lit "choices",
         JArr [JObj [(lit "message",
                      JObj [(lit "content",
                             JStr (litq "{^title^: ^Invoice^, ^correspondent^: ^ACME^, ^tags^: [^A^]}"))])]]);
        (lit "usage",
         JObj [(lit "prompt_tokens", JNum {| mant := 12; exp10 := 0 |});
               (lit "completion_tokens", JNum {| mant := 7; exp10 := 0 |});
               (lit "total_tokens", JNum {| mant := 19; exp10 := 0 |})])].

(** A deployment with the given token limit and reserved answer tokens,
    all collaborators answering. *)
Definition azure_world (limit reserved : Z) : Azure.World :=
  {| Azure.aiProvider := lit "azure";
     Azure.useExistingData := lit "yes";
     Azure.restrictToExistingTags := lit "no";
     Azure.restrictToExistingCorrespondents := lit "no";
     Azure.specialPromptPreDefinedTags := lit "Use the tags given.";
     Azure.tokenLimit := limit;
     Azure.responseTokens := reserved;
     Azure.SYSTEM_PROMPT := Some (lit "Analyze the document.");
     Azure.USE_PROMPT_TAGS := Some (lit "no");
     Azure.PROMPT_TAGS := None;
     Azure.AZURE_DEPLOYMENT_NAME := Some (lit "gpt-4o");
     Azure.customFieldsStr := Ok (litq "^custom_fields^: {}");
     Azure.new_AzureOpenAI := Ok tt;
     Azure.fs_access := fun _ => Ok tt;
     Azure.getThumbnailImage := fun _ => Ok (Some (lit "png"));
     Azure.fs_mkdir := Ok tt;
     Azure.fs_writeFile := fun _ _ => Ok tt;
     Azure.calculateTokens := fun text _ => Ok (ratio_tokens text);
     Azure.calculateTotalPromptTokens := fun text _ _ => Ok (ratio_tokens text);
     Azure.truncateToTokenLimit := fun text n _ => Ok (ratio_truncate text n);
     Azure.writePromptToFile := fun _ _ => Ok tt;
     Azure.processRestrictionsInPrompt := fun text _ _ => Ok text;
     Azure.chat_completions_create := fun _ => Ok (Some chat_reply) |}.

Definition azure_ready : Azure.State :=
  {| Azure.client := true;
     Azure.mustHavePrompt := lit "Return one JSON object. %CUSTOMFIELDS%";
     Azure.sent := [] |}.

(** A document of four hundred code units. *)
Definition long_content : jsstring := repeat 97%N 400.

(** A reply of the generate endpoint that carries a text. *)
Definition text_reply (t : jsstring) : json := JObj [(lit "response", JStr t)].

(** A free-text deployment with the given token limit, content length
    limit and reply, all other collaborators answering. *)
Definition ollama_world (limit : Z) (max_length : option N)
    (reply : Outcome (option json)) : Ollama.World :=
  {| Ollama.ollama_model := Some (lit "llama3");
     Ollama.useExistingData := lit "yes";
     Ollama.restrictToExistingTags := lit "no";
     Ollama.restrictToExistingCorrespondents := lit "no";
     Ollama.specialPromptPreDefinedTags := lit "Use the tags given.";
     Ollama.tokenLimit := limit;
     Ollama.SYSTEM_PROMPT := Some (lit "Analyze the document.");
     Ollama.USE_PROMPT_TAGS := Some (lit "no");
     Ollama.PROMPT_TAGS := None;
     Ollama.CONTENT_MAX_LENGTH := max_length;
     Ollama.customFieldsStr := Ok (litq "^custom_fields^: {}");
     Ollama.fs_access := fun _ => Ok tt;
     Ollama.getThumbnailImage := fun _ => Ok (Some (lit "png"));
     Ollama.fs_mkdir := Ok tt;
     Ollama.fs_writeFile := fun _ _ => Ok tt;
     Ollama.calculateTokens := fun text => Ok (ratio_tokens text);
     Ollama.writePromptToFile := fun _ _ => Ok tt;
     Ollama.processRestrictionsInPrompt := fun text _ _ _ => Ok text;
     Ollama.client_post := fun _ => reply;
     Ollama.client_get_ps := Ok (200%Z, Some (JObj [])) |}.

Definition ollama_state : Ollama.State :=
  {| Ollama.mustHavePrompt := lit "Return one JSON object. %CUSTOMFIELDS%";
     Ollama.sent := [] |}.

(** A reply in prose, without any JSON. *)
Definition prose_reply : Outcome (option json) :=
  Ok (Some (text_reply (lit "I could not read this document."))).

(** A reply with a document. *)
Definition document_reply : Outcome (option json) :=
  Ok (Some (text_reply (litq "{^title^: ^Invoice^, ^correspondent^: ^ACME^, ^tags^: [^A^]}"))).

(** A tag cache, three retrieved sources and their documents: the first
    carries the reference tag, the second does not, the third cannot be
    fetched. *)
Definition tag_cache : list Rag.Tag :=
  [{| Rag.tag_id := 1; Rag.tag_name := Rag.Referencia |};
   {| Rag.tag_id := 2; Rag.tag_name := lit "Invoice" |}].

Definition source1 : Rag.Source :=
  {| Rag.doc_id := Rag.VNum 11; Rag.title := Rag.VStr (lit "Swimming study") |}.
Definition source2 : Rag.Source :=
  {| Rag.doc_id := Rag.VNum 12; Rag.title := Rag.VStr (lit "Pool invoice") |}.
Definition source3 : Rag.Source :=
  {| Rag.doc_id := Rag.VNum 13; Rag.title := Rag.VUndefined |}.

Definition document1 : Rag.Document :=
  {| Rag.d_title := Rag.VStr (lit "Swimming study");
     Rag.created_date := Rag.VStr (lit "2008-01-01");
     Rag.created := Rag.VUndefined;
     Rag.correspondent_name := Rag.VUndefined;
     Rag.correspondent := Rag.VNum 4;
     Rag.tags := Some [1; 2]%Z;
     Rag.content := Some (lit "The crawl stroke was assessed.") |}.

Definition document2 : Rag.Document :=
  {| Rag.d_title := Rag.VStr (lit "Pool invoice");
     Rag.created_date := Rag.VUndefined;
     Rag.created := Rag.VStr (lit "2024-03-01");
     Rag.correspondent_name := Rag.VStr (lit "City pool");
     Rag.correspondent := Rag.VNum 5;
     Rag.tags := Some [2]%Z;
     Rag.content := Some (lit "Entrance fees.") |}.

Definition not_found : Error := {| message := lit "Request failed with status code 404" |}.

Definition retrieved : Rag.ContextData :=
  {| Rag.context := Rag.VStr (lit "Two documents about the pool.");
     Rag.sources := Some [source1; source2; source3] |}.

(** A world in which the retrieval answers with the sources [srcs]; the tag
    cache, the service factory and the generation are as given. *)
Definition rag_world (srcs : option (list Rag.Source))
    (cache service : Outcome unit) (generation : Outcome jsstring) : Rag.World :=
  {| Rag.post_context := fun _ =>
       Ok {| Rag.context := Rag.VStr (lit "Two documents about the pool.");
             Rag.sources := srcs |};
     Rag.ensureTagCache := cache;
     Rag.tagCache := tag_cache;
     Rag.getDocument := fun id =>
       match id with
       | Rag.VNum 11 => Ok document1
       | Rag.VNum 12 => Ok document2
       | _ => Throw not_found
       end;
     Rag.getDocumentContent := fun id =>
       match id with
       | Rag.VNum 11 => Ok (lit "The crawl stroke was assessed.")
       | Rag.VNum 13 => Ok (lit "Opening hours.")
       | _ => Throw not_found
       end;
     Rag.getService := service;
     Rag.generateText := fun _ => generation |}.

End Examples.

(** ** Notions used in the further statements *)

Module Shapes.
Import Js Json Analysis.

(** A document with a tags array and a correspondent string. *)
Definition well_formed_document (d : json) : Prop :=
  is_array (prop d (lit "tags")) = true
  /\ typeof_string (prop d (lit "correspondent")) = true.

(** A document with a tags array and a correspondent that is [null] or
    truthy. *)
Definition normalized_document (d : json) : Prop :=
  is_array (prop d (lit "tags")) = true
  /\ exists c, prop d (lit "correspondent") = Some c
               /\ (c = JNull \/ truthy c = true).

(** The two shapes of a result of the structured-output adapter. *)
Definition azure_result_shape (r : AnalysisResult) : Prop :=
  (error r = None /\ well_formed_document (document r)
   /\ metrics r <> None /\ truncated r <> None)
  \/ (exists m, error r = Some m /\ document r = empty_document
                /\ metrics r = None /\ truncated r = None).

(** The two shapes of a result of the free-text adapter. *)
Definition ollama_result_shape (r : AnalysisResult) : Prop :=
  normalized_document (document r)
  /\ ((error r = None /\ metrics r = Some Ollama.zero_metrics
       /\ truncated r = Some false)
      \/ (exists m, error r = Some m /\ document r = empty_document
                    /\ metrics r = None /\ truncated r = None)).

(** The validation of the external data [d] throws on the
    structured-output adapter: counting its tokens fails, or it counts more
    than 500 and cutting it fails. *)
Definition validation_fails (w : Azure.World) (d : jsstring) : Prop :=
  match Azure.calculateTokens w d (Azure.AZURE_DEPLOYMENT_NAME w) with
  | Eff.Throw _ => True
  | Eff.Ok t =>
      (500 < t)%Z
      /\ exists e, Azure.truncateToTokenLimit w d 500
                     (Azure.AZURE_DEPLOYMENT_NAME w) = Eff.Throw e
  end.

(** The full text of the document of a source could be fetched. *)
Definition fetched (w : Rag.World) (source : Rag.Source) : bool :=
  Rag.v_truthy (Rag.doc_id source)
  && negb (Notions.is_throw (Rag.getDocumentContent w (Rag.doc_id source))).

(** What a fetched source adds to the context. *)
Definition content_entry (w : Rag.World) (source : Rag.Source) : jsstring :=
  Rag.full_content_entry (Rag.source_label source)
    match Rag.getDocumentContent w (Rag.doc_id source) with
    | Eff.Ok fullContent => fullContent
    | Eff.Throw _ => []
    end.

(** The mode in which the prompt lists the existing tags, correspondents
    and document types. *)
Definition azure_lists_existing_data (w : Azure.World) : bool :=
  is_yes (Azure.useExistingData w) && is_no (Azure.restrictToExistingTags w)
  && is_no (Azure.restrictToExistingCorrespondents w).

Definition ollama_lists_existing_data (w : Ollama.World) : bool :=
  is_yes (Ollama.useExistingData w) && is_no (Ollama.restrictToExistingTags w)
  && is_no (Ollama.restrictToExistingCorrespondents w).

(** The computation [m] appends at most [n] entries to the log [tr]. *)
Definition logs_at_most {S R A} (tr : S -> list R) (n : nat) (m : Eff.M S A)
    : Prop :=
  forall s, exists l, tr (snd (m s)) = tr s ++ l /\ (List.length l <= n)%nat.


(** A text without a dollar sign: as a replacement text it stands for
    itself. *)
Definition no_dollar (s : jsstring) : Prop := Forall (fun c => c <> 36%N) s.

(** The template of the free-text adapter's system prompt before and after
    its placeholder, which sits at index 1188. *)
Definition template_before : jsstring := firstn 1188 Ollama.systemPromptTemplate.
Definition template_after : jsstring :=
  skipn (1188 + 14) Ollama.systemPromptTemplate.

(** The result [r] is read off the reply to a request whose user message
    was [cut]: its document is what the content of the first choice parses
    to once the code fences are stripped, its metrics are the usage of the
    reply, and its flag tells whether [cut] is shorter than the content. *)
Definition read_off (reply : option json) (cut content : jsstring)
    (r : AnalysisResult) : Prop :=
  exists text usage,
    Azure.probe_content reply = Some (JStr text)
    /\ opt_prop reply (lit "usage") = Some usage
    /\ Json.parse (Text.strip_code_fences text) = Some (document r)
    /\ metrics r
       = Some {| promptTokens := prop usage (lit "prompt_tokens");
                 completionTokens := prop usage (lit "completion_tokens");
                 totalTokens := prop usage (lit "total_tokens") |}
    /\ truncated r = Some (str_length cut <? str_length content)%N
    /\ error r = None.

(** The state [s'] is [s] with one more request sent: [req], of a system
    and a user message, the latter being [cut]. *)
Definition one_more_request (s s' : Azure.State) (req : Azure.Request)
    (cut : jsstring) : Prop :=
  Azure.sent s' = Azure.sent s ++ [req]
  /\ exists systemPrompt,
       Azure.messages req
       = [Azure.system_message systemPrompt; Azure.user_message cut].


(** A call of one of the two analysis methods of an adapter on [content]. *)
Definition azure_analysis (w : Azure.World) (content : jsstring)
    (m : Eff.M Azure.State AnalysisResult) : Prop :=
  (exists tags corr types id cp ext,
      m = Azure.analyzeDocument w content tags corr types id cp ext)
  \/ (exists prompt, m = Azure.analyzePlayground w content prompt).

Definition ollama_analysis (w : Ollama.World) (content : jsstring)
    (m : Eff.M Ollama.State AnalysisResult) : Prop :=
  (exists tags corr types id cp ext,
      m = Ollama.analyzeDocument w content tags corr types id cp ext)
  \/ (exists p, m = Ollama.analyzePlayground w content p).

(** The tail of an analysis: what becomes of the document read off the
    reply. *)
Definition tail_ok (w : Ollama.World) (req : Ollama.Request)
    (k : json -> Eff.M Ollama.State AnalysisResult) : Prop :=
  forall doc s1 o2 s2,
    k doc s1 = (o2, s2) ->
    Ollama.sent s2 = Ollama.sent s1
    /\ (o2 = Eff.Ok (Ollama.success doc)
        \/ exists e, Ollama.writePromptToFile w (Ollama.prompt req) doc = Eff.Throw e
                     /\ o2 = Eff.Throw e).

(** A number option that is missing or falsy (zero). *)
Definition falsy_number (o : option jnum) : Prop :=
  match o with
  | Some x => num_truthy x = false
  | None => True
  end.

(** The temperature [t] is the one the text generation chooses from its
    option and from the variable: the option when it is truthy, else the
    variable when it is truthy, else 0.1; never a falsy number. *)
Definition chosen_temperature (option_temperature variable : option jnum)
    (t : jnum) : Prop :=
  num_truthy t = true
  /\ (forall x, option_temperature = Some x -> num_truthy x = true -> t = x)
  /\ (falsy_number option_temperature ->
      forall u, variable = Some u -> num_truthy u = true -> t = u)
  /\ (falsy_number option_temperature -> falsy_number variable ->
      t = {| mant := 1; exp10 := -1 |}).

(** The content of the first choice of a chat reply. *)
Definition first_choice_content (reply : option json) : option json :=
  opt_prop (opt_prop (opt_index0 (opt_prop reply (lit "choices")))
              (lit "message")) (lit "content").

End Shapes.

(** ** Further worlds *)

Module MoreExamples.
Import Js Text Eff Analysis.


Definition ollama_thumbnails (w : Ollama.World) (access : Outcome unit)
    (image : Outcome (option jsstring)) (write_null : Outcome unit)
    : Ollama.World :=
  {| Ollama.ollama_model := Ollama.ollama_model w;
     Ollama.useExistingData := Ollama.useExistingData w;
     Ollama.restrictToExistingTags := Ollama.restrictToExistingTags w;
     Ollama.restrictToExistingCorrespondents := Ollama.restrictToExistingCorrespondents w;
     Ollama.specialPromptPreDefinedTags := Ollama.specialPromptPreDefinedTags w;
     Ollama.tokenLimit := Ollama.tokenLimit w;
     Ollama.SYSTEM_PROMPT := Ollama.SYSTEM_PROMPT w;
     Ollama.USE_PROMPT_TAGS := Ollama.USE_PROMPT_TAGS w;
     Ollama.PROMPT_TAGS := Ollama.PROMPT_TAGS w;
     Ollama.CONTENT_MAX_LENGTH := Ollama.CONTENT_MAX_LENGTH w;
     Ollama.customFieldsStr := Ollama.customFieldsStr w;
     Ollama.fs_access := fun _ => access;
     Ollama.getThumbnailImage := fun _ => image;
     Ollama.fs_mkdir := Ollama.fs_mkdir w;
     Ollama.fs_writeFile := fun _ d =>
       match d with
       | None => write_null
       | Some _ => Ok tt
       end;
     Ollama.calculateTokens := Ollama.calculateTokens w;
     Ollama.writePromptToFile := Ollama.writePromptToFile w;
     Ollama.processRestrictionsInPrompt := Ollama.processRestrictionsInPrompt w;
     Ollama.client_post := Ollama.client_post w;
     Ollama.client_get_ps := Ollama.client_get_ps w |}.

(** The world [w] with another outcome of [calculateTokens]. *)
Definition azure_counting (w : Azure.World) (count : Outcome Z) : Azure.World :=
  {| Azure.aiProvider := Azure.aiProvider w;
     Azure.useExistingData := Azure.useExistingData w;
     Azure.restrictToExistingTags := Azure.restrictToExistingTags w;
     Azure.restrictToExistingCorrespondents := Azure.restrictToExistingCorrespondents w;
     Azure.specialPromptPreDefinedTags := Azure.specialPromptPreDefinedTags w;
     Azure.tokenLimit := Azure.tokenLimit w;
     Azure.responseTokens := Azure.responseTokens w;
     Azure.SYSTEM_PROMPT := Azure.SYSTEM_PROMPT w;
     Azure.USE_PROMPT_TAGS := Azure.USE_PROMPT_TAGS w;
     Azure.PROMPT_TAGS := Azure.PROMPT_TAGS w;
     Azure.AZURE_DEPLOYMENT_NAME := Azure.AZURE_DEPLOYMENT_NAME w;
     Azure.customFieldsStr := Azure.customFieldsStr w;
     Azure.new_AzureOpenAI := Azure.new_AzureOpenAI w;
     Azure.fs_access := Azure.fs_access w;
     Azure.getThumbnailImage := Azure.getThumbnailImage w;
     Azure.fs_mkdir := Azure.fs_mkdir w;
     Azure.fs_writeFile := Azure.fs_writeFile w;
     Azure.calculateTokens := fun _ _ => count;
     Azure.calculateTotalPromptTokens := Azure.calculateTotalPromptTokens w;
     Azure.truncateToTokenLimit := Azure.truncateToTokenLimit w;
     Azure.writePromptToFile := Azure.writePromptToFile w;
     Azure.processRestrictionsInPrompt := Azure.processRestrictionsInPrompt w;
     Azure.chat_completions_create := Azure.chat_completions_create w |}.

Definition tokenizer_down : Error :=
  {| message := lit "Tokenizer not available" |}.

Definition no_such_file : Error :=
  {| message := lit "ENOENT: no such file or directory" |}.


Definition document_id : option json := Some (JNum {| mant := 7; exp10 := 0 |}).

(** A free-text deployment for text generation with the given limit and
    outcome of the post. *)
Definition text_world (limit : Z) (reply : Outcome (option json))
    : Generate.TextWorld :=
  {| Generate.deployment := Examples.ollama_world limit None Examples.document_reply;
     Generate.rag_temperature := None;
     Generate.post_text := fun _ => reply |}.

(** A retrieval service that does not answer. *)
Definition connection_refused : Error :=
  {| message := lit "connect ECONNREFUSED 127.0.0.1:8000" |}.

Definition rag_service_down : RagAdmin.World :=
  {| RagAdmin.RAG_SERVICE_URL := None;
     RagAdmin.axios_get := fun _ => Throw connection_refused;
     RagAdmin.axios_post := fun _ _ => Throw connection_refused |}.


End MoreExamples.

(** * Properties *)

(** ** The JavaScript functions on known values *)

Module Checks.
Import Js Json Text.

Example parse_nested :
  parse (litq "{^a^: [1, 2.5e3, true, null], ^b^: ^xA\n^}")
  = Some (JObj [(lit "a", JArr [JNum {| mant := 1; exp10 := 0 |};
                                JNum {| mant := 25; exp10 := 2 |};
                                JBool true; JNull]);
                (lit "b", JStr [120; 65; 10]%N)]).
Proof. reflexivity. Qed.

Example parse_rejects :
  map parse [lit "[1,]"; lit "01"; lit ""; lit "'a'"; lit "-"; lit "1.";
             lit ".5"; lit "nul"; lit "[] []"; litq "{^a^ 1}"; litq "{a: 1}";
             [34; 9; 34]%N; lit "{"; lit "[1 2]"; litq "{^a^: 1,}"]
  = repeat None 15.
Proof. reflexivity. Qed.

Example parse_scalars :
  map parse [litq " ^a^ "; lit "1e5"; lit "-0"; lit "false"]
  = [Some (JStr (lit "a")); Some (JNum {| mant := 1; exp10 := 5 |});
     Some (JNum {| mant := 0; exp10 := 0 |}); Some (JBool false)].
Proof. reflexivity. Qed.

Example parse_duplicate_key :
  option_map (fun v => prop v (lit "a")) (parse (litq "{^a^: 1, ^a^: 2}"))
  = Some (Some (JNum {| mant := 2; exp10 := 0 |})).
Proof. reflexivity. Qed.

Example stringify_escapes :
  stringify_string (litq "a^b\c" ++ [10; 1; 55357; 56832; 55357]%N)
  = litq "^a\^b\\c\n\u0001" ++ [55357; 56832]%N ++ litq "\ud83d^".
Proof. reflexivity. Qed.

Example numbers_truthy :
  map truthy [JNum {| mant := 0; exp10 := 0 |}; JNum {| mant := 0; exp10 := -1 |};
              JNum {| mant := 1; exp10 := -400 |}; JNum {| mant := 5; exp10 := -324 |};
              JNum {| mant := -3; exp10 := 2 |}; JStr []; JStr (lit "0"); JArr []]
  = [false; false; false; true; true; false; true; true].
Proof. vm_compute. reflexivity. Qed.

Example integers_to_string :
  map string_of_Z [0; 7; 11; 1200; -45]%Z
  = [lit "0"; lit "7"; lit "11"; lit "1200"; lit "-45"].
Proof. reflexivity. Qed.

Example fences_stripped :
  strip_code_fences (lit "```json" ++ LF ++ litq "{^a^: 1}" ++ LF ++ lit "```" ++ LF)
  = litq "{^a^: 1}".
Proof. reflexivity. Qed.

Example repair_quotes_and_commas :
  Ollama._sanitizeJsonString (litq "{'a' : 1, b:[1,2, ], ^c^: 'x', }")
  = litq "{^a^: 1, ^b^:[1,2], ^c^: 'x'}".
Proof. reflexivity. Qed.

(** The repair also rewrites a name followed by a colon inside a string. *)
Example repair_inside_string :
  Ollama._sanitizeJsonString (litq "{^u^: ^http://x^,}")
  = litq "{^u^: ^http^://x^}".
Proof. reflexivity. Qed.

Example replacement_patterns :
  replace_first CUSTOMFIELDS (lit "<$&|$$|$1>") (lit "a %CUSTOMFIELDS% b %CUSTOMFIELDS%")
  = lit "a <%CUSTOMFIELDS%|$|$1> b %CUSTOMFIELDS%".
Proof. reflexivity. Qed.

Example braces_matched :
  map match_braces [lit "x {a} y {b} z"; lit "} {"; lit "{"; lit "{{}"]
  = [Some (lit "{a} y {b}"); None; None; Some (lit "{{}")].
Proof. reflexivity. Qed.

Example balanced_spans :
  map SpecWords.first_balanced_span [lit "x {a} y {b} z"; lit "} {"; lit "{{}"; lit "{{}}}"]
  = [Some (lit "{a}"); None; Some (lit "{}"); Some (lit "{{}}")].
Proof. reflexivity. Qed.

End Checks.

(** ** Truncation by the character ratio *)

Module TruncateProps.
Import Js Ollama.

Lemma estimate_le (s : jsstring) (n : N) :
  (str_length s <= 4 * n)%N -> (estimate_tokens s <= n)%N.
Proof.
  unfold estimate_tokens. intros H.
  assert (E : ((str_length s + 3) / 4 <= (4 * n + 3) / 4)%N)
    by (apply N.Div0.div_le_mono; lia).
  replace ((4 * n + 3) / 4)%N with n in E; [exact E|].
  apply (N.div_unique (4 * n + 3) 4 n 3); lia.
Qed.

Lemma estimate_gt (s : jsstring) (n : N) :
  (n < estimate_tokens s)%N -> (4 * n < str_length s)%N.
Proof.
  unfold estimate_tokens. intros H.
  destruct (N.le_gt_cases (str_length s) (4 * n)) as [L|L]; [|exact L].
  apply estimate_le in L. unfold estimate_tokens in L. lia.
Qed.

Lemma substring0_length (s : jsstring) (n : N) :
  (str_length (substring0 s n) <= n)%N.
Proof.
  unfold substring0, str_length.
  pose proof (firstn_le_length (N.to_nat n) s). lia.
Qed.

Lemma substring0_prefix (s : jsstring) (n : N) :
  exists rest, s = substring0 s n ++ rest.
Proof.
  exists (skipn (N.to_nat n) s). unfold substring0.
  symmetry. apply firstn_skipn.
Qed.

Lemma substring0_all (s : jsstring) (n : N) :
  (str_length s <= n)%N -> substring0 s n = s.
Proof.
  unfold substring0, str_length. intros H. apply firstn_all2. lia.
Qed.

Lemma substring0_idem (s : jsstring) (n : N) :
  substring0 (substring0 s n) n = substring0 s n.
Proof. apply substring0_all, substring0_length. Qed.

Lemma truncate_data_bound (text : jsstring) (n : N) :
  (estimate_tokens (truncate_data text n) <= n)%N.
Proof.
  unfold truncate_data.
  destruct (N.ltb_spec n (estimate_tokens text)) as [H|H]; [|exact H].
  apply estimate_le. rewrite N.mul_comm. apply substring0_length.
Qed.

Lemma truncate_data_short (text : jsstring) (n : N) :
  (estimate_tokens text <= n)%N -> truncate_data text n = text.
Proof.
  intros H. unfold truncate_data.
  destruct (N.ltb_spec n (estimate_tokens text)); [lia|reflexivity].
Qed.

(** C7. For every text and every token limit [n], the truncation of lines
    840-850 ([truncate_data], with the estimator [estimate_tokens] of the
    same lines) returns a prefix of the text whose estimated token count is
    at most [n]; truncating twice is truncating once; a text within the
    limit is returned unchanged. The character cut [_truncateContent] is a
    prefix and idempotent as well, and with a limit of [n] characters its
    result is estimated at no more than [n] tokens and is the text itself
    when that has no more than [n] characters. *)
Theorem truncate_prefix_bounded_idempotent :
  forall (text : jsstring) (n : N),
    (exists rest, text = truncate_data text n ++ rest)
    /\ (estimate_tokens (truncate_data text n) <= n)%N
    /\ truncate_data (truncate_data text n) n = truncate_data text n
    /\ ((estimate_tokens text <= n)%N -> truncate_data text n = text)
    /\ (forall w, (exists rest, text = _truncateContent w text ++ rest)
                  /\ _truncateContent w (_truncateContent w text)
                     = _truncateContent w text)
    /\ (forall w, CONTENT_MAX_LENGTH w = Some n ->
                  (estimate_tokens (_truncateContent w text) <= n)%N
                  /\ ((str_length text <= n)%N -> _truncateContent w text = text)).
Proof.
  intros text n. repeat split.
  - unfold truncate_data.
    destruct (N.ltb n (estimate_tokens text)).
    + apply substring0_prefix.
    + exists []. symmetry. apply app_nil_r.
  - apply truncate_data_bound.
  - apply truncate_data_short, truncate_data_bound.
  - apply truncate_data_short.
  - unfold _truncateContent. destruct (CONTENT_MAX_LENGTH w).
    + apply substring0_prefix.
    + exists []. symmetry. apply app_nil_r.
  - unfold _truncateContent. destruct (CONTENT_MAX_LENGTH w).
    + apply substring0_idem.
    + reflexivity.
  - unfold _truncateContent. rewrite H. apply estimate_le.
    pose proof (substring0_length text n). lia.
  - intros L. unfold _truncateContent. rewrite H. apply substring0_all, L.
Qed.

(** A text of ten code units against a limit of two tokens. *)
Lemma truncate_prefix_bounded_idempotent_witness :
  truncate_data (lit "0123456789") 2 = lit "01234567"
  /\ (estimate_tokens (lit "01234567") <= 2)%N
  /\ truncate_data (lit "01234567") 2 = lit "01234567".
Proof.
  split; [reflexivity|]. split; [vm_compute; discriminate|].
  apply (proj1 (proj2 (proj2 (proj2
           (truncate_prefix_bounded_idempotent (lit "01234567") 2))))).
  vm_compute. discriminate.
Defined.

End TruncateProps.

(** ** The parser on a text that opens with a brace *)

Module ParseProps.
Import Js Json Notions.

Lemma rooted_stack_cons (f : frame) (stk : list frame) :
  rooted_stack stk -> rooted_stack (f :: stk).
Proof.
  intros (above & acc & key & ->). exists (f :: above), acc, key. reflexivity.
Qed.

Lemma rooted_stack_obj (acc : list (jsstring * json)) (key : jsstring)
    (stk : list frame) :
  stk = [] \/ rooted_stack stk -> rooted_stack (FObj acc key :: stk).
Proof.
  intros [->|H].
  - exists [], acc, key. reflexivity.
  - apply rooted_stack_cons, H.
Qed.

Lemma rooted_stack_tail (f : frame) (stk : list frame) :
  rooted_stack (f :: stk) -> stk = [] \/ rooted_stack stk.
Proof.
  intros (above & acc & key & E). destruct above as [|g above].
  - left. injection E as _ E. exact E.
  - right. injection E as _ E. exists above, acc, key. exact E.
Qed.

Lemma rooted_reduce (stk : list frame) (v : json) :
  rooted_stack stk -> rooted (reduce stk v).
Proof.
  intros H. destruct stk as [|[acc|acc key] stk]; simpl.
  - destruct H as (above & acc & key & E). destruct above; discriminate.
  - destruct H as (above & acc' & key & E). destruct above as [|g above].
    + discriminate.
    + injection E as _ E. exists above, acc', key. exact E.
  - apply rooted_stack_tail in H. exact H.
Qed.

Lemma rooted_reduce_obj (stk : list frame) (m : list (jsstring * json)) :
  stk = [] \/ rooted_stack stk -> rooted (reduce stk (JObj m)).
Proof.
  intros [->|H]; [exact I|]. apply rooted_reduce, H.
Qed.

Ltac rooted_step :=
  first [ exact I
        | assumption
        | apply rooted_reduce_obj; assumption
        | apply rooted_reduce; assumption
        | apply rooted_stack_cons; assumption
        | apply rooted_stack_obj; assumption
        | right; assumption
        | right; apply rooted_stack_cons; assumption ].

Lemma rooted_pstep (st st' : pstate) (t : token) :
  rooted st -> pstep st t = Some st' -> rooted st'.
Proof.
  destruct st; intros H; destruct t; cbn [pstep value_token];
    intros E; try discriminate; injection E as <-;
    try rooted_step; cbn [reduce rooted]; rooted_step.
Qed.

Lemma rooted_run (ts : list token) (st : pstate) (v : json) :
  rooted st -> run st ts = Some v -> exists m, v = JObj m.
Proof.
  revert st. induction ts as [|t ts IH]; simpl; intros st H.
  - destruct st; try discriminate. intros E. injection E as <-.
    destruct v0; try contradiction. eexists. reflexivity.
  - destruct (pstep st t) as [st'|] eqn:E; [|discriminate].
    apply IH. exact (rooted_pstep st t H E).
Qed.

(** A text that opens with a brace parses to an object or not at all. *)
Lemma parse_open_brace (s : jsstring) (v : json) :
  parse (123%N :: s) = Some v -> exists m, v = JObj m.
Proof.
  unfold parse. simpl. destruct (lex LDefault s) as [ts|]; [|discriminate].
  simpl. apply rooted_run. simpl. left. reflexivity.
Qed.

End ParseProps.

(** ** The free-text normalizer *)

Module NormalizerProps.
Import Js Text Analysis Ollama SpecWords Examples.

Lemma from_first_open_spec (s t : jsstring) :
  from_first_open s = Some t <->
  exists pre r, s = pre ++ 123%N :: r /\ ~ In 123%N pre /\ t = 123%N :: r.
Proof.
  split.
  - induction s as [|a s IH]; simpl; [discriminate|].
    destruct (N.eqb_spec a 123) as [E|E]; intros H.
    + injection H as <-. subst a. exists [], s. auto.
    + destruct (IH H) as (pre & r & -> & Hpre & ->).
      exists (a :: pre), r. repeat split; auto.
      simpl. intros [F|F]; [congruence|auto].
  - intros (pre & r & -> & Hpre & ->).
    induction pre as [|a pre IH]; simpl.
    + reflexivity.
    + destruct (N.eqb_spec a 123) as [E|E].
      * exfalso. apply Hpre. left. exact E.
      * apply IH. intros F. apply Hpre. right. exact F.
Qed.

Lemma upto_last_close_none (s : jsstring) :
  upto_last_close s = None <-> ~ In 125%N s.
Proof.
  induction s as [|a s IH]; simpl.
  - split; auto.
  - destruct (upto_last_close s) as [r|].
    + split; [discriminate|]. intros H. exfalso.
      assert (N : ~ In 125%N s) by (intros F; apply H; right; exact F).
      apply IH in N. discriminate.
    + destruct (N.eqb_spec a 125) as [E|E].
      * split; [discriminate|]. intros H. exfalso. apply H. left. exact E.
      * split; [|reflexivity]. intros _ [F|F]; [congruence|].
        revert F. apply IH. reflexivity.
Qed.

Lemma upto_last_close_spec (s r : jsstring) :
  upto_last_close s = Some r <->
  exists mid post, s = mid ++ 125%N :: post /\ ~ In 125%N post
                   /\ r = mid ++ [125%N].
Proof.
  split.
  - revert r. induction s as [|a s IH]; simpl; intros r; [discriminate|].
    destruct (upto_last_close s) as [r'|] eqn:E.
    + intros H. injection H as <-.
      destruct (IH r' eq_refl) as (mid & post & -> & Hpost & ->).
      exists (a :: mid), post. auto.
    + destruct (N.eqb_spec a 125) as [Ea|Ea]; [|discriminate].
      intros H. injection H as <-. subst a.
      exists [], s. repeat split. apply upto_last_close_none. exact E.
  - intros (mid & post & -> & Hpost & ->).
    induction mid as [|a mid IH]; simpl.
    + apply upto_last_close_none in Hpost. rewrite Hpost. reflexivity.
    + rewrite IH. reflexivity.
Qed.

(** What the pattern extracts: the text from the first opening brace to the
    last closing brace after it. *)
Lemma match_braces_spec (s j : jsstring) :
  match_braces s = Some j <->
  exists pre mid post,
    s = pre ++ 123%N :: mid ++ 125%N :: post
    /\ ~ In 123%N pre /\ ~ In 125%N post
    /\ j = 123%N :: mid ++ [125%N].
Proof.
  unfold match_braces. split.
  - destruct (from_first_open s) as [t|] eqn:E; [|discriminate].
    apply from_first_open_spec in E. destruct E as (pre & r & -> & Hpre & ->).
    destruct (upto_last_close r) as [r'|] eqn:E'; [|discriminate].
    apply upto_last_close_spec in E'.
    destruct E' as (mid & post & -> & Hpost & ->).
    intros H. injection H as <-. exists pre, mid, post. auto.
  - intros (pre & mid & post & -> & Hpre & Hpost & ->).
    assert (E : from_first_open (pre ++ 123%N :: mid ++ 125%N :: post)
                = Some (123%N :: mid ++ 125%N :: post))
      by (apply from_first_open_spec; exists pre, (mid ++ 125%N :: post); auto).
    rewrite E.
    assert (E' : upto_last_close (mid ++ 125%N :: post) = Some (mid ++ [125%N]))
      by (apply upto_last_close_spec; exists mid, post; auto).
    rewrite E'. reflexivity.
Qed.

Lemma match_braces_cons_other (c : N) (s : jsstring) :
  c <> 123%N -> match_braces (c :: s) = match_braces s.
Proof.
  intros H. unfold match_braces. simpl.
  destruct (N.eqb_spec c 123); [contradiction|reflexivity].
Qed.

Lemma match_braces_cons_open (s : jsstring) :
  match_braces (123%N :: s) =
  match upto_last_close s with
  | Some r => Some (123%N :: r)
  | None => None
  end.
Proof. reflexivity. Qed.

(** A closing brace that closes nothing leaves an opening brace before it. *)
Lemma unclosed_has_match (s : jsstring) :
  close_at 0 s = None -> In 125%N s -> match_braces s <> None.
Proof.
  induction s as [|a s IH]; simpl; [contradiction|].
  destruct (N.eqb_spec a 125) as [E|E]; [discriminate|].
  intros H [F|F]; [congruence|].
  destruct (N.eqb_spec a 123) as [E'|E'].
  - subst a. rewrite match_braces_cons_open.
    destruct (upto_last_close s) eqn:U; [discriminate|].
    apply upto_last_close_none in U. contradiction.
  - rewrite match_braces_cons_other by exact E'.
    apply IH; [|exact F].
    destruct (close_at 0 s); [discriminate|reflexivity].
Qed.

(** A text without a balanced span has no opening brace followed by a
    closing one. *)
Lemma no_balanced_span_no_match (s : jsstring) :
  first_balanced_span s = None -> match_braces s = None.
Proof.
  induction s as [|a s IH]; [reflexivity|]. simpl.
  destruct (N.eqb_spec a 123) as [E|E].
  - subst a. destruct (close_at 0 s) eqn:C; [discriminate|].
    intros H. rewrite match_braces_cons_open.
    destruct (upto_last_close s) eqn:U; [|reflexivity].
    exfalso. apply (unclosed_has_match s C).
    + destruct (in_dec N.eq_dec 125%N s) as [I|I]; [exact I|].
      apply upto_last_close_none in I. congruence.
    + apply IH. exact H.
  - intros H. rewrite match_braces_cons_other by exact E. apply IH. exact H.
Qed.

(** The repair leaves the opening brace in place. *)
Lemma sanitize_open_brace (t : jsstring) :
  exists t', _sanitizeJsonString (123%N :: t) = 123%N :: t'.
Proof.
  unfold _sanitizeJsonString. cbn [replace_all match_trailing_comma N.eqb Pos.eqb].
  cbn [replace_all match_trailing_comma N.eqb Pos.eqb].
  eexists. reflexivity.
Qed.

(** *** The repair, pass by pass *)

Lemma replace_all_app (m : jsstring -> option (nat * jsstring)) (t : jsstring) :
  (forall x u, m (x :: u ++ t) = m (x :: u)) ->
  (forall u len rep, m u = Some (len, rep) -> (len <= List.length u)%nat) ->
  forall u k, (k <= List.length u)%nat ->
    replace_all m k (u ++ t) = replace_all m k u ++ replace_all m 0 t.
Proof.
  intros H1 H2. induction u as [|x u IH]; intros k Hk.
  - simpl in Hk. assert (k = O) by lia. subst k. reflexivity.
  - cbn [app replace_all]. destruct k as [|k].
    + rewrite H1. destruct (m (x :: u)) as [[len rep]|] eqn:E.
      * apply H2 in E. simpl in E. rewrite IH by lia.
        rewrite app_assoc. reflexivity.
      * rewrite IH by lia. reflexivity.
    + simpl in Hk. apply IH. lia.
Qed.

Lemma replace_all_skipn (m : jsstring -> option (nat * jsstring)) :
  forall s k, replace_all m k s = replace_all m 0 (skipn k s).
Proof.
  induction s as [|c s IH]; intros k.
  - destruct k; reflexivity.
  - destruct k as [|k]; [reflexivity|]. cbn [replace_all skipn]. apply IH.
Qed.

Lemma replace_all_match (m : jsstring -> option (nat * jsstring))
    (s rep : jsstring) (len : nat) :
  s <> [] -> m s = Some (S len, rep) ->
  replace_all m 0 s = rep ++ replace_all m 0 (skipn (S len) s).
Proof.
  intros Hs E. destruct s as [|c s]; [contradiction|].
  cbn [replace_all]. rewrite E. cbn [pred skipn].
  rewrite replace_all_skipn. reflexivity.
Qed.

Lemma count_spaces_le (s : jsstring) : (count_spaces s <= List.length s)%nat.
Proof.
  induction s as [|c s IH]; simpl; [lia|]. destruct (is_space c); lia.
Qed.

Lemma count_spaces_app (u t : jsstring) (d : N) :
  is_space d = false -> count_spaces (u ++ d :: t) = count_spaces u.
Proof.
  intros H. induction u as [|c u IH]; simpl.
  - rewrite H. reflexivity.
  - destruct (is_space c); [rewrite IH|]; reflexivity.
Qed.

Lemma count_spaces_all (ws t : jsstring) (d : N) :
  forallb is_space ws = true -> is_space d = false ->
  count_spaces (ws ++ d :: t) = List.length ws.
Proof.
  intros H Hd. induction ws as [|c ws IH]; simpl in *.
  - rewrite Hd. reflexivity.
  - apply andb_prop in H. destruct H as [-> H]. rewrite IH by exact H. reflexivity.
Qed.

Lemma skipn_app_le {A} (n : nat) (u v : list A) :
  (n <= List.length u)%nat -> skipn n (u ++ v) = skipn n u ++ v.
Proof.
  intros H. rewrite skipn_app. replace (n - List.length u)%nat with O by lia.
  reflexivity.
Qed.

Lemma trailing_comma_bound (X : N) (u : jsstring) (len : nat) (rep : jsstring) :
  match_trailing_comma X u = Some (len, rep) -> (len <= List.length u)%nat.
Proof.
  unfold match_trailing_comma. destruct u as [|c s]; [discriminate|].
  destruct (c =? 44)%N; [|discriminate].
  destruct (skipn (count_spaces s) s) as [|d r] eqn:E; [discriminate|].
  destruct (d =? X)%N; [|discriminate]. intros H. injection H as <- _.
  assert (L : List.length (skipn (count_spaces s) s) = S (List.length r))
    by (rewrite E; reflexivity).
  rewrite length_skipn in L. simpl. lia.
Qed.

Lemma trailing_comma_stable (X d : N) (t : jsstring) :
  is_space d = false -> d <> X ->
  forall x u, match_trailing_comma X (x :: u ++ d :: t)
              = match_trailing_comma X (x :: u).
Proof.
  intros Hs Hd x u. unfold match_trailing_comma.
  destruct (x =? 44)%N; [|reflexivity].
  rewrite (@count_spaces_app u t d Hs).
  rewrite skipn_app_le by apply count_spaces_le.
  destruct (skipn (count_spaces u) u) as [|y r]; [|reflexivity].
  cbn [app]. destruct (N.eqb_spec d X); [contradiction|reflexivity].
Qed.

Lemma strip_app (X d : N) (a t : jsstring) :
  is_space d = false -> d <> X ->
  replace_all (match_trailing_comma X) 0 (a ++ d :: t)
  = replace_all (match_trailing_comma X) 0 a
    ++ replace_all (match_trailing_comma X) 0 (d :: t).
Proof.
  intros Hs Hd. apply replace_all_app; [|apply trailing_comma_bound|apply Nat.le_0_l].
  apply trailing_comma_stable; assumption.
Qed.

Lemma strip_other (X d : N) (t : jsstring) :
  d <> 44%N ->
  replace_all (match_trailing_comma X) 0 (d :: t)
  = d :: replace_all (match_trailing_comma X) 0 t.
Proof.
  intros H. cbn [replace_all match_trailing_comma].
  destruct (N.eqb_spec d 44); [contradiction|reflexivity].
Qed.

Lemma strip_no_comma (X : N) (u r : jsstring) :
  ~ In 44%N u ->
  replace_all (match_trailing_comma X) 0 (u ++ r)
  = u ++ replace_all (match_trailing_comma X) 0 r.
Proof.
  induction u as [|c u IH]; intros H; [reflexivity|].
  cbn [app]. rewrite strip_other by (intros ->; apply H; left; reflexivity).
  rewrite IH by (intros I; apply H; right; exact I). reflexivity.
Qed.

Lemma spaces_no_comma (ws : jsstring) :
  forallb is_space ws = true -> ~ In 44%N ws.
Proof.
  intros H I. rewrite forallb_forall in H. apply H in I. discriminate.
Qed.

Lemma skipn_exact {A} (u r : list A) : skipn (List.length u) (u ++ r) = r.
Proof. induction u as [|c u IH]; [reflexivity|exact IH]. Qed.

Lemma skipn_past {A} (u r : list A) (x : A) :
  skipn (S (List.length u)) (u ++ x :: r) = r.
Proof. induction u as [|c u IH]; [reflexivity|exact IH]. Qed.

Lemma strip_comma_closer (X : N) (ws b : jsstring) :
  forallb is_space ws = true -> is_space X = false ->
  replace_all (match_trailing_comma X) 0 (44%N :: ws ++ X :: b)
  = X :: replace_all (match_trailing_comma X) 0 b.
Proof.
  intros Hw HX.
  rewrite (@replace_all_match (match_trailing_comma X) (44%N :: ws ++ X :: b)
             [X] (S (List.length ws))); [|discriminate|].
  - change (skipn (S (S (List.length ws))) (44%N :: ws ++ X :: b))
      with (skipn (S (List.length ws)) (ws ++ X :: b)).
    rewrite skipn_past. reflexivity.
  - unfold match_trailing_comma. cbn [N.eqb Pos.eqb].
    rewrite (@count_spaces_all ws b X Hw HX), skipn_exact.
    rewrite N.eqb_refl. reflexivity.
Qed.

Lemma strip_comma_other (X d : N) (ws b : jsstring) :
  forallb is_space ws = true -> is_space d = false -> d <> X -> d <> 44%N ->
  replace_all (match_trailing_comma X) 0 (44%N :: ws ++ d :: b)
  = 44%N :: ws ++ d :: replace_all (match_trailing_comma X) 0 b.
Proof.
  intros Hw Hs Hd Hc. cbn [replace_all].
  assert (E : match_trailing_comma X (44%N :: ws ++ d :: b) = None).
  { unfold match_trailing_comma. cbn [N.eqb Pos.eqb].
    rewrite (@count_spaces_all ws b d Hw Hs), skipn_exact.
    destruct (N.eqb_spec d X); [contradiction|reflexivity]. }
  rewrite E. rewrite strip_no_comma by (apply spaces_no_comma, Hw).
  rewrite strip_other by exact Hc. reflexivity.
Qed.

Lemma count_quote_le (v : jsstring) : (count_quote v <= List.length v)%nat.
Proof. destruct v as [|c v]; simpl; [lia|]. destruct (is_quote c); lia. Qed.

Lemma count_quote_app (v t : jsstring) (d : N) :
  is_quote d = false -> count_quote (v ++ d :: t) = count_quote v.
Proof. intros H. destruct v; simpl; [rewrite H|]; reflexivity. Qed.

Lemma take_word_le (v : jsstring) : (List.length (take_word v) <= List.length v)%nat.
Proof.
  induction v as [|c v IH]; simpl; [lia|]. destruct (is_word c); simpl; lia.
Qed.

Lemma take_word_app (v t : jsstring) (d : N) :
  is_word d = false -> take_word (v ++ d :: t) = take_word v.
Proof.
  intros H. induction v as [|c v IH]; simpl.
  - rewrite H. reflexivity.
  - destruct (is_word c); [rewrite IH|]; reflexivity.
Qed.

Lemma property_name_stable (d : N) (t v : jsstring) :
  is_word d = false -> is_quote d = false -> is_space d = false -> d <> 58%N ->
  match_property_name (v ++ d :: t) = match_property_name v.
Proof.
  intros Hw Hq Hs Hc. unfold match_property_name. cbv zeta.
  rewrite (@count_quote_app v t d Hq).
  rewrite skipn_app_le by apply count_quote_le.
  set (v1 := skipn (count_quote v) v).
  rewrite (@take_word_app v1 t d Hw).
  destruct (take_word v1) as [|c0 w0] eqn:W; [reflexivity|].
  rewrite <- W.
  rewrite skipn_app_le by apply take_word_le.
  set (v2 := skipn (List.length (take_word v1)) v1).
  rewrite (@count_quote_app v2 t d Hq).
  rewrite skipn_app_le by apply count_quote_le.
  set (v3 := skipn (count_quote v2) v2).
  rewrite (@count_spaces_app v3 t d Hs).
  rewrite skipn_app_le by apply count_spaces_le.
  destruct (skipn (count_spaces v3) v3) as [|y r]; [|reflexivity].
  cbn [app]. destruct (N.eqb_spec d 58); [contradiction|reflexivity].
Qed.

Lemma property_name_bound (u : jsstring) (len : nat) (rep : jsstring) :
  match_property_name u = Some (len, rep) -> (len <= List.length u)%nat.
Proof.
  unfold match_property_name. cbv zeta.
  set (v1 := skipn (count_quote u) u).
  destruct (take_word v1) as [|c0 w0] eqn:W; [discriminate|]. rewrite <- W.
  set (v2 := skipn (List.length (take_word v1)) v1).
  set (v3 := skipn (count_quote v2) v2).
  destruct (skipn (count_spaces v3) v3) as [|y r] eqn:E; [discriminate|].
  destruct (y =? 58)%N; [|discriminate]. intros H. injection H as <- _.
  assert (L : List.length (skipn (count_spaces v3) v3) = S (List.length r))
    by (rewrite E; reflexivity).
  rewrite length_skipn in L.
  assert (L3 : List.length v3 = (List.length v2 - count_quote v2)%nat)
    by apply length_skipn.
  assert (L2 : List.length v2 = (List.length v1 - List.length (take_word v1))%nat)
    by apply length_skipn.
  assert (L1 : List.length v1 = (List.length u - count_quote u)%nat)
    by apply length_skipn.
  pose proof (count_quote_le u). pose proof (take_word_le v1).
  pose proof (count_quote_le v2). lia.
Qed.

Lemma property_name_none_at (d : N) (t : jsstring) :
  is_word d = false -> is_quote d = false ->
  match_property_name (d :: t) = None.
Proof.
  intros Hw Hq. unfold match_property_name. cbn [count_quote]. rewrite Hq.
  cbn [skipn take_word]. rewrite Hw. reflexivity.
Qed.

Lemma names_app (d : N) (a t : jsstring) :
  is_word d = false -> is_quote d = false -> is_space d = false -> d <> 58%N ->
  replace_all match_property_name 0 (a ++ d :: t)
  = replace_all match_property_name 0 a
    ++ d :: replace_all match_property_name 0 t.
Proof.
  intros Hw Hq Hs Hc.
  rewrite (@replace_all_app match_property_name (d :: t));
    [|intros x u; apply (@property_name_stable d t (x :: u)); assumption
     |apply property_name_bound|apply Nat.le_0_l].
  cbn [replace_all]. rewrite property_name_none_at by assumption. reflexivity.
Qed.

(** A separator is left where it is, and the repair works on the text
    before it and on the text after it. *)
Lemma sanitize_app (d : N) (a b : jsstring) :
  is_word d = false -> is_quote d = false -> is_space d = false ->
  d <> 58%N -> d <> 44%N -> d <> 125%N -> d <> 93%N ->
  _sanitizeJsonString (a ++ d :: b)
  = _sanitizeJsonString a ++ d :: _sanitizeJsonString b.
Proof.
  intros Hw Hq Hs Hc Hm H1 H2. unfold _sanitizeJsonString.
  rewrite (@strip_app 125 d a b Hs H1), (@strip_other 125 d b Hm).
  rewrite (@strip_app 93 d _ _ Hs H2), (@strip_other 93 d _ Hm).
  apply names_app; assumption.
Qed.

Lemma sanitize_comma_closer (X : N) (a ws b : jsstring) :
  X = 125%N \/ X = 93%N -> forallb is_space ws = true ->
  _sanitizeJsonString (a ++ 44%N :: ws ++ X :: b)
  = _sanitizeJsonString a ++ X :: _sanitizeJsonString b.
Proof.
  intros HX Hw. unfold _sanitizeJsonString.
  rewrite (@strip_app 125 44 a (ws ++ X :: b) eq_refl ltac:(discriminate)).
  destruct HX as [-> | ->].
  - rewrite (@strip_comma_closer 125 ws b Hw eq_refl).
    rewrite (@strip_app 93 125 _ _ eq_refl ltac:(discriminate)).
    rewrite (@strip_other 93 125 _ ltac:(discriminate)).
    apply names_app; try reflexivity; discriminate.
  - rewrite (@strip_comma_other 125 93 ws b Hw eq_refl
               ltac:(discriminate) ltac:(discriminate)).
    rewrite (@strip_app 93 44 _ _ eq_refl ltac:(discriminate)).
    rewrite (@strip_comma_closer 93 ws _ Hw eq_refl).
    apply names_app; try reflexivity; discriminate.
Qed.

Ltac class_facts :=
  unfold is_word, is_space, is_quote in *;
  repeat match goal with
         | H : _ = true |- _ =>
             rewrite ?Bool.orb_true_iff, ?Bool.andb_true_iff, ?N.leb_le,
               ?N.eqb_eq in H
         end.

Lemma word_not_quote (c : N) : is_word c = true -> is_quote c = false.
Proof.
  intros H. apply Bool.not_true_is_false. intros G. class_facts. lia.
Qed.

Lemma space_not_word (c : N) : is_space c = true -> is_word c = false.
Proof.
  intros H. apply Bool.not_true_is_false. intros G. class_facts. lia.
Qed.

Lemma space_not_quote (c : N) : is_space c = true -> is_quote c = false.
Proof.
  intros H. apply Bool.not_true_is_false. intros G. class_facts. lia.
Qed.

Lemma quote_not_word (c : N) : is_quote c = true -> is_word c = false.
Proof.
  intros H. apply Bool.not_true_is_false. intros G. class_facts. lia.
Qed.

Lemma words_no_comma (w : jsstring) :
  forallb is_word w = true -> ~ In 44%N w.
Proof.
  intros H I. rewrite forallb_forall in H. apply H in I. discriminate.
Qed.

Lemma take_word_stop (w r : jsstring) (h : N) :
  forallb is_word w = true -> is_word h = false ->
  take_word (w ++ h :: r) = w.
Proof.
  intros H Hh. induction w as [|c w IH]; simpl in *.
  - rewrite Hh. reflexivity.
  - apply andb_prop in H. destruct H as [-> H]. rewrite IH by exact H.
    reflexivity.
Qed.

Lemma in_skipn_in {A} (x : A) (n : nat) (l : list A) :
  In x (skipn n l) -> In x l.
Proof.
  revert l. induction n as [|n IH]; intros l H; [exact H|].
  destruct l as [|y l]; [exact H|]. right. apply IH, H.
Qed.

Lemma property_name_needs_colon (u : jsstring) (len : nat) (rep : jsstring) :
  match_property_name u = Some (len, rep) -> In 58%N u.
Proof.
  unfold match_property_name. cbv zeta.
  set (v1 := skipn (count_quote u) u).
  destruct (take_word v1) as [|c0 w0] eqn:W; [discriminate|]. rewrite <- W.
  set (v2 := skipn (List.length (take_word v1)) v1).
  set (v3 := skipn (count_quote v2) v2).
  destruct (skipn (count_spaces v3) v3) as [|y r] eqn:E; [discriminate|].
  destruct (N.eqb_spec y 58) as [->|]; [|discriminate]. intros _.
  apply (in_skipn_in _ (count_quote u)). fold v1.
  apply (in_skipn_in _ (List.length (take_word v1))). fold v2.
  apply (in_skipn_in _ (count_quote v2)). fold v3.
  apply (in_skipn_in _ (count_spaces v3)). rewrite E. left. reflexivity.
Qed.

Lemma names_no_colon (s : jsstring) :
  ~ In 58%N s -> replace_all match_property_name 0 s = s.
Proof.
  induction s as [|c s IH]; intros H; [reflexivity|].
  cbn [replace_all].
  destruct (match_property_name (c :: s)) as [[len rep]|] eqn:E.
  - apply property_name_needs_colon in E. contradiction.
  - rewrite IH by (intros I; apply H; right; exact I). reflexivity.
Qed.

Lemma sanitize_plain (s : jsstring) :
  ~ In 44%N s -> ~ In 58%N s -> _sanitizeJsonString s = s.
Proof.
  intros Hc Hn. unfold _sanitizeJsonString.
  rewrite <- (app_nil_r s) at 1.
  rewrite (@strip_no_comma 125 s [] Hc). cbn [replace_all].
  rewrite (@strip_no_comma 93 s [] Hc). cbn [replace_all].
  rewrite app_nil_r. apply names_no_colon, Hn.
Qed.

Lemma property_name_here (q1 w q3 ws r : jsstring) :
  (q1 = [] \/ exists c, q1 = [c] /\ is_quote c = true) ->
  (q3 = [] \/ exists c, q3 = [c] /\ is_quote c = true) ->
  w <> [] -> forallb is_word w = true -> forallb is_space ws = true ->
  match_property_name (q1 ++ w ++ q3 ++ ws ++ 58%N :: r)
  = Some (List.length q1 + List.length w + List.length q3 + List.length ws + 1,
          [34%N] ++ w ++ [34%N; 58%N])%nat.
Proof.
  intros H1 H3 Hn Hw Hs. unfold match_property_name. cbv zeta.
  assert (Q1 : count_quote (q1 ++ w ++ q3 ++ ws ++ 58%N :: r) = List.length q1).
  { destruct H1 as [->|(c & -> & Hc)].
    - destruct w as [|c0 w]; [contradiction|]. cbn in Hw |- *.
      apply andb_prop in Hw. destruct Hw as [Hw _].
      rewrite (word_not_quote _ Hw). reflexivity.
    - cbn. rewrite Hc. reflexivity. }
  rewrite Q1, skipn_exact.
  assert (N3 : exists h t, q3 ++ ws ++ 58%N :: r = h :: t /\ is_word h = false).
  { destruct H3 as [->|(c & -> & Hc)].
    - destruct ws as [|c ws].
      + exists 58%N, r. split; reflexivity.
      + exists c, (ws ++ 58%N :: r). split; [reflexivity|].
        cbn in Hs. apply andb_prop in Hs. apply space_not_word, Hs.
    - exists c, (ws ++ 58%N :: r). split; [reflexivity|].
      apply quote_not_word, Hc. }
  destruct N3 as (h & t & E3 & Hh).
  assert (W : take_word (w ++ q3 ++ ws ++ 58%N :: r) = w)
    by (rewrite E3; apply take_word_stop; assumption).
  rewrite W. destruct w as [|c0 w0] eqn:Ew; [contradiction|]. rewrite <- Ew.
  rewrite skipn_exact.
  assert (Q3 : count_quote (q3 ++ ws ++ 58%N :: r) = List.length q3).
  { destruct H3 as [->|(c & -> & Hc)].
    - destruct ws as [|c ws]; [reflexivity|]. cbn in Hs |- *.
      apply andb_prop in Hs. destruct Hs as [Hs _].
      rewrite (space_not_quote _ Hs). reflexivity.
    - cbn. rewrite Hc. reflexivity. }
  rewrite Q3, skipn_exact.
  rewrite (@count_spaces_all ws r 58 Hs eq_refl), skipn_exact.
  reflexivity.
Qed.

(** A property name, bare or in quotes of either kind, comes out in double
    quotes, and the white space before the colon is dropped. *)
Lemma sanitize_property_name (q1 w q3 ws rest : jsstring) :
  (q1 = [] \/ exists c, q1 = [c] /\ is_quote c = true) ->
  (q3 = [] \/ exists c, q3 = [c] /\ is_quote c = true) ->
  w <> [] -> forallb is_word w = true -> forallb is_space ws = true ->
  _sanitizeJsonString (q1 ++ w ++ q3 ++ ws ++ 58%N :: rest)
  = 34%N :: w ++ 34%N :: 58%N :: _sanitizeJsonString rest.
Proof.
  intros H1 H3 Hn Hw Hs. unfold _sanitizeJsonString.
  assert (C : ~ In 44%N (q1 ++ w ++ q3 ++ ws ++ [58%N])).
  { rewrite !in_app_iff. intros [I|[I|[I|[I|I]]]].
    - destruct H1 as [->|(c & -> & Hc)]; [exact I|].
      destruct I as [->|[]]. discriminate.
    - exact (words_no_comma _ Hw I).
    - destruct H3 as [->|(c & -> & Hc)]; [exact I|].
      destruct I as [->|[]]. discriminate.
    - exact (spaces_no_comma _ Hs I).
    - destruct I as [I|[]]. discriminate. }
  assert (A : forall z, q1 ++ w ++ q3 ++ ws ++ 58%N :: z
                        = (q1 ++ w ++ q3 ++ ws ++ [58%N]) ++ z)
    by (intros z; rewrite <- !app_assoc; reflexivity).
  rewrite (A rest), (@strip_no_comma 125 _ rest C), (@strip_no_comma 93 _ _ C).
  rewrite <- (A _).
  set (R := replace_all (match_trailing_comma 93) 0
              (replace_all (match_trailing_comma 125) 0 rest)).
  pose proof (@property_name_here q1 w q3 ws R H1 H3 Hn Hw Hs) as M.
  replace (List.length q1 + List.length w + List.length q3 + List.length ws + 1)%nat
    with (S (List.length q1 + List.length w + List.length q3 + List.length ws))
    in M by lia.
  assert (NE : q1 ++ w ++ q3 ++ ws ++ 58%N :: R <> [])
    by (destruct q1; [destruct w; [contradiction|discriminate]|discriminate]).
  rewrite (@replace_all_match match_property_name _ _ _ NE M).
  replace (S (List.length q1 + List.length w + List.length q3 + List.length ws))
    with (List.length (q1 ++ w ++ q3 ++ ws ++ [58%N]))
    by (rewrite !length_app; simpl; lia).
  rewrite (A R), skipn_exact. cbn [app]. rewrite <- app_assoc. reflexivity.
Qed.

Lemma names_spaces (ws z : jsstring) :
  forallb is_space ws = true ->
  replace_all match_property_name 0 (ws ++ z)
  = ws ++ replace_all match_property_name 0 z.
Proof.
  induction ws as [|c ws IH]; intros H; [reflexivity|].
  cbn in H. apply andb_prop in H. destruct H as [Hc H].
  cbn [app replace_all].
  rewrite (@property_name_none_at c (ws ++ z) (space_not_word _ Hc)
             (space_not_quote _ Hc)).
  rewrite IH by exact H. reflexivity.
Qed.

Lemma strip_comma_kept (X d : N) (ws b : jsstring) :
  forallb is_space ws = true -> is_space d = false -> d <> X ->
  replace_all (match_trailing_comma X) 0 (44%N :: ws ++ d :: b)
  = 44%N :: ws ++ replace_all (match_trailing_comma X) 0 (d :: b).
Proof.
  intros Hw Hs Hd. cbn [replace_all].
  assert (E : match_trailing_comma X (44%N :: ws ++ d :: b) = None).
  { unfold match_trailing_comma. cbn [N.eqb Pos.eqb].
    rewrite (@count_spaces_all ws b d Hw Hs), skipn_exact.
    destruct (N.eqb_spec d X); [contradiction|reflexivity]. }
  rewrite E. rewrite strip_no_comma by (apply spaces_no_comma, Hw).
  reflexivity.
Qed.

(** A comma that no closing brace or bracket follows stays, with the white
    space after it. *)
Lemma sanitize_comma_kept (d : N) (a ws b : jsstring) :
  forallb is_space ws = true -> is_space d = false ->
  d <> 44%N -> d <> 125%N -> d <> 93%N ->
  _sanitizeJsonString (a ++ 44%N :: ws ++ d :: b)
  = _sanitizeJsonString a ++ 44%N :: ws ++ _sanitizeJsonString (d :: b).
Proof.
  intros Hw Hs Hc H1 H2. unfold _sanitizeJsonString.
  rewrite (@strip_app 125 44 a (ws ++ d :: b) eq_refl ltac:(discriminate)).
  rewrite (@strip_comma_kept 125 d ws b Hw Hs H1).
  rewrite (@strip_other 125 d b Hc).
  rewrite (@strip_app 93 44 _ _ eq_refl ltac:(discriminate)).
  rewrite (@strip_comma_kept 93 d ws _ Hw Hs H2).
  rewrite (@names_app 44 _ _ eq_refl eq_refl eq_refl ltac:(discriminate)).
  rewrite (@names_spaces ws _ Hw). reflexivity.
Qed.

(** C3, as the specification words it, fails: the pattern does not extract
    the first balanced span. On a reply with a further closing brace the
    first balanced span is the object, the pattern takes the text up to the
    last brace, and the document that comes out is the empty one where the
    balanced span would have given the tags and the correspondent. *)
Lemma first_balanced_span_not_extracted :
  first_balanced_span trailing_brace_example
  = Some (litq "{^tags^: [^A^], ^correspondent^: ^X^}")
  /\ match_braces trailing_brace_example = Some trailing_brace_example
  /\ parse_text trailing_brace_example = empty_document
  /\ parse_text trailing_brace_example
     <> parse_text_balanced trailing_brace_example.
Proof.
  repeat split; try reflexivity.
  vm_compute. discriminate.
Qed.

(** C3, amended. The text extracted from a reply is the one from its first
    opening brace to its last closing brace. It is parsed once; when that
    fails the repair is applied once and its result parsed once; when that
    fails too the document is the empty one. The reply of the example comes
    out with tags [A] and correspondent [X]. A reply without a balanced
    brace span, like any reply without a match, comes out as the empty
    document. The repair itself, on every text: a comma followed by white
    space and a closing brace or a closing bracket is dropped with that
    white space, and the text before it and the text after it are repaired
    on their own; a comma followed by anything else stays; a property
    name, bare or in single or double quotes, with the white space before
    its colon, comes out in double quotes right before the colon; any
    other separator stays where it is; and a text without comma and
    without colon is not changed. *)
Theorem parse_text_normalizes :
  (forall s j,
      match_braces s = Some j <->
      exists pre mid post,
        s = pre ++ 123%N :: mid ++ 125%N :: post
        /\ ~ In 123%N pre /\ ~ In 125%N post
        /\ j = 123%N :: mid ++ [125%N])
  /\ (forall s j,
         match_braces s = Some j ->
         parse_text s =
         match Json.parse j with
         | Some result => full_fields result
         | None =>
             match Json.parse (_sanitizeJsonString j) with
             | Some sanitizedResult => sanitized_fields sanitizedResult
             | None => empty_document
             end
         end)
  /\ _sanitizeJsonString (litq "{tags: [^A^], correspondent: ^X^,}")
     = litq "{^tags^: [^A^], ^correspondent^: ^X^}"
  /\ parse_text fenced_example = example_document
  /\ (forall s, match_braces s = None -> parse_text s = empty_document)
  /\ (forall s, first_balanced_span s = None -> parse_text s = empty_document)
  /\ (forall closer a ws b,
         closer = 125%N \/ closer = 93%N -> forallb is_space ws = true ->
         _sanitizeJsonString (a ++ 44%N :: ws ++ closer :: b)
         = _sanitizeJsonString a ++ closer :: _sanitizeJsonString b)
  /\ (forall d a ws b,
         forallb is_space ws = true -> is_space d = false ->
         d <> 44%N -> d <> 125%N -> d <> 93%N ->
         _sanitizeJsonString (a ++ 44%N :: ws ++ d :: b)
         = _sanitizeJsonString a ++ 44%N :: ws ++ _sanitizeJsonString (d :: b))
  /\ (forall q1 name q3 ws rest,
         (q1 = [] \/ exists c, q1 = [c] /\ is_quote c = true) ->
         (q3 = [] \/ exists c, q3 = [c] /\ is_quote c = true) ->
         name <> [] -> forallb is_word name = true ->
         forallb is_space ws = true ->
         _sanitizeJsonString (q1 ++ name ++ q3 ++ ws ++ 58%N :: rest)
         = 34%N :: name ++ 34%N :: 58%N :: _sanitizeJsonString rest)
  /\ (forall d a b,
         is_word d = false -> is_quote d = false -> is_space d = false ->
         d <> 58%N -> d <> 44%N -> d <> 125%N -> d <> 93%N ->
         _sanitizeJsonString (a ++ d :: b)
         = _sanitizeJsonString a ++ d :: _sanitizeJsonString b)
  /\ (forall s, ~ In 44%N s -> ~ In 58%N s -> _sanitizeJsonString s = s).
Proof.
  split; [exact match_braces_spec|].
  split.
  { intros s j H. unfold parse_text. rewrite H.
    destruct (Json.parse j) as [result|] eqn:P.
    - apply match_braces_spec in H.
      destruct H as (pre & mid & post & _ & _ & _ & ->).
      destruct (ParseProps.parse_open_brace _ P) as (m & ->). reflexivity.
    - apply match_braces_spec in H.
      destruct H as (pre & mid & post & _ & _ & _ & ->).
      destruct (sanitize_open_brace (mid ++ [125%N])) as (t' & ->).
      destruct (Json.parse (123%N :: t')) as [r|] eqn:P'; [|reflexivity].
      destruct (ParseProps.parse_open_brace _ P') as (m & ->). reflexivity. }
  split; [reflexivity|].
  split; [reflexivity|].
  assert (E : forall s, match_braces s = None -> parse_text s = empty_document)
    by (intros s H; unfold parse_text; rewrite H; reflexivity).
  split; [exact E|].
  split; [intros s H; apply E, no_balanced_span_no_match, H|].
  split; [intros closer a ws b; apply sanitize_comma_closer|].
  split; [intros d a ws b; apply sanitize_comma_kept|].
  split; [intros q1 name q3 ws rest; apply sanitize_property_name|].
  split; [intros d a b; apply sanitize_app|].
  exact sanitize_plain.
Qed.

(** The reply of the example, a reply without any brace, and a comma
    before a closing bracket. *)
Lemma parse_text_normalizes_witness :
  match_braces fenced_example = Some (litq "{tags: [^A^], correspondent: ^X^,}")
  /\ parse_text fenced_example = example_document
  /\ parse_text (lit "no tags found") = empty_document
  /\ _sanitizeJsonString (litq "[^A^, ]") = litq "[^A^]".
Proof.
  split; [reflexivity|]. split; [|split].
  - rewrite (proj1 (proj2 parse_text_normalizes) fenced_example
               (litq "{tags: [^A^], correspondent: ^X^,}") eq_refl).
    reflexivity.
  - apply (proj1 (proj2 (proj2 (proj2 (proj2 (proj2 parse_text_normalizes)))))).
    reflexivity.
  - change (litq "[^A^, ]") with (litq "[^A^" ++ 44%N :: [32%N] ++ 93%N :: []).
    rewrite (proj1 (proj2 (proj2 (proj2 (proj2 (proj2 (proj2
               parse_text_normalizes))))))
               93%N (litq "[^A^") [32%N] [] (or_intror eq_refl) eq_refl).
    reflexivity.
Defined.

End NormalizerProps.

(** ** Running the monad *)

Module EffProps.
Import Js Eff Notions.

Lemma bind_ok_inv {S A B} (m : M S A) (k : A -> M S B) (s s' : S) (b : B) :
  bind m k s = (Ok b, s') ->
  exists a s1, m s = (Ok a, s1) /\ k a s1 = (Ok b, s').
Proof.
  unfold bind. destruct (m s) as [[a|e] s1]; [|discriminate].
  intros H. exists a, s1. auto.
Qed.

Lemma bind_ok {S A B} (m : M S A) (k : A -> M S B) (s s1 : S) (a : A) :
  m s = (Ok a, s1) -> bind m k s = k a s1.
Proof. unfold bind. intros ->. reflexivity. Qed.

Lemma bind_throw {S A B} (m : M S A) (k : A -> M S B) (s s1 : S) (e : Error) :
  m s = (Throw e, s1) -> bind m k s = (Throw e, s1).
Proof. unfold bind. intros ->. reflexivity. Qed.

(** A [try] whose handler returns always returns. *)
Lemma try_catch_ret {S A} (m : M S A) (h : Error -> A) (s : S) :
  try_catch m (fun e => ret (h e)) s =
  match m s with
  | (Ok a, s') => (Ok a, s')
  | (Throw e, s') => (Ok (h e), s')
  end.
Proof. unfold try_catch, ret. destruct (m s) as [[a|e] s']; reflexivity. Qed.

Section LogRules.
Variables (S R : Type) (tr : S -> list R).

Lemma preserves_ret {A} (a : A) : preserves tr (ret a).
Proof. intros s. reflexivity. Qed.

Lemma preserves_throw {A} (msg : jsstring) : preserves tr (@throw S A msg).
Proof. intros s. reflexivity. Qed.

Lemma preserves_await {A} (o : Outcome A) : preserves tr (await o).
Proof. intros s. reflexivity. Qed.

Lemma preserves_get : preserves tr (@get S).
Proof. intros s. reflexivity. Qed.

Lemma preserves_modify (f : S -> S) :
  (forall s, tr (f s) = tr s) -> preserves tr (modify f).
Proof. intros H s. apply H. Qed.

Lemma preserves_bind {A B} (m : M S A) (k : A -> M S B) :
  preserves tr m -> (forall a, preserves tr (k a)) -> preserves tr (bind m k).
Proof.
  intros Hm Hk s. unfold bind. specialize (Hm s).
  destruct (m s) as [[a|e] s1]; simpl in *.
  - rewrite Hk. exact Hm.
  - exact Hm.
Qed.

Lemma preserves_try_catch {A} (m : M S A) (h : Error -> M S A) :
  preserves tr m -> (forall e, preserves tr (h e)) -> preserves tr (try_catch m h).
Proof.
  intros Hm Hh s. unfold try_catch. specialize (Hm s).
  destruct (m s) as [[a|e] s1]; simpl in *.
  - exact Hm.
  - rewrite Hh. exact Hm.
Qed.





(** A request is logged, then the rest leaves the log alone. *)
Lemma sends_logged (P : R -> Prop) {A} (f : S -> S) (r : R) (k : M S A) :
  (forall s, tr (f s) = tr s ++ [r]) -> P r -> preserves tr k ->
  sends tr P (bind (modify f) (fun _ => k)).
Proof.
  intros Hf Hr Hk s. exists [r]. unfold bind, modify.
  rewrite Hk, Hf. split; [reflexivity|]. constructor; [exact Hr|constructor].
Qed.


Lemma results_ret {A} (Q : A -> Prop) (a : A) : Q a -> results (S:=S) Q (ret a).
Proof. intros H s a' s' E. injection E as <- _. exact H. Qed.

Lemma results_throw {A} (Q : A -> Prop) (msg : jsstring) :
  results (S:=S) Q (throw msg).
Proof. intros s a s' E. discriminate. Qed.

Lemma results_bind {A B} (Q : B -> Prop) (m : M S A) (k : A -> M S B) :
  (forall a, results Q (k a)) -> results Q (bind m k).
Proof.
  intros Hk s b s' E. apply bind_ok_inv in E.
  destruct E as (a & s1 & _ & E). exact (Hk a s1 b s' E).
Qed.
End LogRules.

(** Step through a computation that leaves the log alone. *)
Ltac preserves_step :=
  first
    [ apply preserves_ret
    | apply preserves_throw
    | apply preserves_await
    | apply preserves_get
    | apply preserves_modify; intros ?; reflexivity
    | apply preserves_bind; [|intros ?]
    | apply preserves_try_catch; [|intros ?]
    | match goal with
      | |- Notions.preserves _ (if ?b then _ else _) => destruct b
      | |- Notions.preserves _ (match ?x with _ => _ end) => destruct x
      end ].

Ltac preserves_tac := cbv zeta; repeat preserves_step.

Ltac results_step :=
  first
    [ apply results_throw
    | apply results_bind; intros ?
    | match goal with
      | |- Notions.results _ (if ?b then _ else _) => destruct b
      | |- Notions.results _ (match ?x with _ => _ end) => destruct x
      end ].

(** Unfold the monad and split on the outcome of the next call. *)
Ltac unfold_monad :=
  cbv beta iota delta [bind ret throw try_catch await get modify when].

Ltac split_outcome :=
  match goal with
  | |- context [match ?o with Ok _ => _ | Throw _ => _ end] =>
      destruct o eqn:?
  | |- context [if ?b then _ else _] => destruct b eqn:?
  | |- context [match ?o with Some _ => _ | None => _ end] =>
      destruct o eqn:?
  end.

End EffProps.

(** ** The status probes *)

Module StatusProps.
Import Js Eff Analysis EffProps Notions.

Ltac status_cases :=
  unfold ok_or_error; unfold_monad; repeat split_outcome;
  eexists; eexists; (split; [reflexivity|]);
  first [right; reflexivity | left; eexists; reflexivity].

(** C8. On both adapters, whatever the probe comes to (an answer, an answer
    of the wrong shape, a thrown error, a client that cannot be built),
    [checkStatus] does not throw: it returns a record with status [ok] and
    a model, or a record with status [error]. This holds for each of the
    two [checkStatus] methods of the structured-output adapter and for the
    one of the free-text adapter. *)
Theorem checkStatus_never_throws :
  (forall (w : Azure.World) (s : Azure.State),
      exists r s', Azure.checkStatus w s = (Ok r, s') /\ ok_or_error r)
  /\ (forall (w : Azure.World) (s : Azure.State),
         exists r s', Azure.checkStatus_first w s = (Ok r, s') /\ ok_or_error r)
  /\ (forall (w : Ollama.World) (s : Ollama.State),
         exists r s', Ollama.checkStatus w s = (Ok r, s') /\ ok_or_error r).
Proof.
  split; [|split]; intros w s.
  - unfold Azure.checkStatus, Azure.initialize, Azure.create. status_cases.
  - unfold Azure.checkStatus_first, Azure.initialize, Azure.create. status_cases.
  - unfold Ollama.checkStatus, Ollama.status_error_record. unfold_monad.
    destruct (Ollama.client_get_ps w) as [[code data]|e]; simpl.
    + destruct (code =? 200)%Z; [|status_cases].
      destruct data as [data|]; [|status_cases].
      destruct data; try status_cases.
    + status_cases.
Qed.

End StatusProps.

(** ** The structured-output adapter *)

Module AzureProps.
Import Js Text Eff Analysis Notions EffProps Azure.

Lemma initialize_preserves (w : World) : preserves sent (initialize w).
Proof. unfold initialize. preserves_tac. Qed.

Lemma cache_thumbnail_preserves (w : World) (id : option json) :
  preserves sent (cache_thumbnail w id).
Proof. unfold cache_thumbnail. preserves_tac. Qed.

Lemma validate_preserves (w : World) (d : option jsstring) (n : Z) :
  preserves sent (_validateAndTruncateExternalApiData w d n).
Proof. unfold _validateAndTruncateExternalApiData. preserves_tac. Qed.

Lemma build_system_prompt_preserves (w : World) (tags corr types : list jsstring)
    (cp ext : option jsstring) :
  preserves sent (build_system_prompt w tags corr types cp ext).
Proof.
  unfold build_system_prompt. cbv zeta.
  apply preserves_bind.
  - destruct ext; [|apply preserves_ret].
    apply preserves_try_catch; [apply validate_preserves|intros; apply preserves_ret].
  - intros v. preserves_tac.
Qed.

Lemma read_response_preserves (response : option json) (tc content : jsstring) :
  preserves sent (read_response response tc content).
Proof. unfold read_response. preserves_tac. Qed.




(** Without a client, and without the configuration to build one, the
    analysis ends in the error record. *)
Lemma azure_missing_client (w : World) (content prompt : jsstring) (s : State) :
  client s = false ->
  str_eqb (aiProvider w) (lit "azure") = false ->
  analyzePlayground w content prompt s
  = (Ok (failure {| message := lit "AzureOpenAI client not initialized - missing API key" |}),
     s).
Proof.
  intros Hc Hp. unfold analyzePlayground, analyzePlayground_try, initialize.
  unfold_monad. rewrite Hc, Hp. cbn [negb andb]. rewrite Hc. reflexivity.
Qed.

(** A wire call that throws ends in the error record with its message. *)
Lemma azure_wire_error (w : World) (content prompt : jsstring) (s : State)
    (t : Z) (c : jsstring) (e : Error) :
  client s = true ->
  calculateTotalPromptTokens w (prompt ++ musthavePrompt) None None = Ok t ->
  truncateToTokenLimit w content (tokenLimit w - (t + responseTokens w)) None
  = Ok c ->
  (forall r, chat_completions_create w r = Throw e) ->
  fst (analyzePlayground w content prompt s) = Ok (failure e).
Proof.
  intros Hc Ht Hcut He.
  unfold analyzePlayground, analyzePlayground_try, initialize, create.
  unfold_monad. rewrite Hc. cbn [negb andb]. rewrite Hc. cbn [negb].
  rewrite Ht, Hcut, He. reflexivity.
Qed.

(** A reply whose text does not parse, and a reply that parses to a value
    without a tags array or a correspondent string, are thrown as errors. *)
Lemma read_response_unparseable (response : option json) (c : jsstring)
    (usage : json) (tc content : jsstring) (s : State) :
  probe_content response = Some (JStr c) -> truthy (JStr c) = true ->
  opt_prop response (lit "usage") = Some usage -> usage <> JNull ->
  Json.parse (strip_code_fences c) = None ->
  read_response response tc content s
  = (Throw {| message := lit "Invalid JSON response from API" |}, s).
Proof.
  intros Hc Ht Hu Hn Hp. unfold read_response, probe_content in *.
  rewrite Hc, Hu. cbn [truthy_opt]. rewrite Ht. cbn [negb json_string].
  destruct usage; try contradiction; unfold_monad; rewrite Hp; reflexivity.
Qed.

Lemma read_response_invalid_shape (response : option json) (c : jsstring)
    (usage v : json) (tc content : jsstring) (s : State) :
  probe_content response = Some (JStr c) -> truthy (JStr c) = true ->
  opt_prop response (lit "usage") = Some usage -> usage <> JNull ->
  Json.parse (strip_code_fences c) = Some v ->
  is_array (prop v (lit "tags")) = false
  \/ typeof_string (prop v (lit "correspondent")) = false ->
  read_response response tc content s
  = (Throw {| message := lit "Invalid response structure: missing tags array or correspondent string" |},
     s).
Proof.
  intros Hc Ht Hu Hn Hp Hv. unfold read_response, probe_content in *.
  rewrite Hc, Hu. cbn [truthy_opt]. rewrite Ht. cbn [negb json_string].
  destruct usage; try contradiction; unfold_monad; rewrite Hp;
    destruct Hv as [-> | ->]; cbn [negb]; rewrite ?orb_true_r; reflexivity.
Qed.

(** The structured-output adapter awaits the validation of the external
    data: what it appends under the label is the validated text. *)
Lemma azure_appends_validated (w : World) (tags corr types : list jsstring)
    (d v : jsstring) (s s' : State) (sp : jsstring) (pt : option jsstring) :
  env_is_yes (USE_PROMPT_TAGS w) = false ->
  _validateAndTruncateExternalApiData w (Some d) 500 s = (Ok (Some v), s) ->
  nonempty (Some v) = true ->
  build_system_prompt w tags corr types None (Some d) s = (Ok (sp, pt), s') ->
  exists restricted, sp = restricted ++ external_context v.
Proof.
  intros Hno Hv Hne. unfold build_system_prompt. unfold_monad.
  rewrite Hv, Hno, Hne. cbn [nonempty env_to_string fst snd].
  repeat split_outcome; intros H; try discriminate;
    injection H as <- _ _; eexists; reflexivity.
Qed.

(** C1 fails on [analyzePlayground]: the method has no check of the tokens
    left. With a client at hand, when the prompt and the reserved answer
    take the whole limit or more, the content is still handed to
    [truncateToTokenLimit] with the non-positive allowance and the request is
    put on the wire with what that returns. [analyzeDocument] has the check
    (see [azure_analyzeDocument_sends]: it sends only with a positive allowance). *)
Theorem analyzePlayground_ignores_budget :
  forall (w : World) (content prompt : jsstring) (s : State) (t : Z)
         (c : jsstring),
    client s = true ->
    calculateTotalPromptTokens w (prompt ++ musthavePrompt) None None = Ok t ->
    (tokenLimit w - (t + responseTokens w) <= 0)%Z ->
    truncateToTokenLimit w content (tokenLimit w - (t + responseTokens w)) None
    = Ok c ->
    sent (snd (analyzePlayground w content prompt s))
    = sent s ++ [{| model := AZURE_DEPLOYMENT_NAME w;
                    messages := [system_message (prompt ++ musthavePrompt);
                                 user_message c];
                    temperature := temperature_03;
                    max_tokens := None |}].
Proof.
  intros w content prompt s t c Hc Ht _ Hcut.
  unfold analyzePlayground, analyzePlayground_try, initialize, create.
  unfold_monad. rewrite Hc. cbn [negb andb]. rewrite Hc. cbn [negb].
  rewrite Ht, Hcut.
  destruct (chat_completions_create w _) as [a|e]; [|reflexivity].
  match goal with
  | |- context [read_response a c content ?s1] =>
      pose proof (read_response_preserves a c content s1) as E;
      destruct (read_response a c content s1) as [[r|e] s2]
  end; simpl in E |- *; exact E.
Qed.

(** A limit of 100 tokens of which 100 are reserved for the answer: the
    allowance is negative and a request with 44 code units of the document
    leaves all the same. *)
Lemma analyzePlayground_ignores_budget_witness :
  Azure.sent (snd (analyzePlayground (Examples.azure_world 100 100)
                     Examples.long_content (lit "Summarize.")
                     Examples.azure_ready))
  = [{| model := Some (lit "gpt-4o");
        messages := [system_message (lit "Summarize." ++ musthavePrompt);
                     user_message (repeat 97%N 44)];
        temperature := temperature_03;
        max_tokens := None |}].
Proof.
  apply (analyzePlayground_ignores_budget (Examples.azure_world 100 100)
           Examples.long_content (lit "Summarize.") Examples.azure_ready
           (t := 89) (c := repeat 97%N 44)).
  - reflexivity.
  - vm_compute. reflexivity.
  - vm_compute. discriminate.
  - vm_compute. reflexivity.
Defined.

(** On the same deployment [analyzeDocument] stops at its check: the result
    carries the error and nothing is sent. *)
Example analyzeDocument_stops_at_budget :
  analyzeDocument (Examples.azure_world 100 100) Examples.long_content
    [] [] [] (Some (JStr (lit "7"))) None None Examples.azure_ready
  = (Ok (failure {| message := lit "Token limit exceeded: prompt too large for available token limit" |}),
     Examples.azure_ready).
Proof. vm_compute. reflexivity. Qed.

End AzureProps.

(** ** The free-text adapter *)

Module OllamaProps.
Import Js Text Eff Analysis Notions EffProps Ollama.

Lemma thumbnail_preserves (w : World) (id : option json) :
  preserves sent (_handleThumbnailCaching w id).
Proof. unfold _handleThumbnailCaching. preserves_tac. Qed.

Lemma buildPrompt_preserves (w : World) (content : jsstring)
    (tags : list jsstring) (corr types : list Entry) (ext : option jsstring) :
  preserves sent (_buildPrompt w content tags corr types ext).
Proof. unfold _buildPrompt. preserves_tac. Qed.

Lemma processOllamaResponse_preserves (d : json) :
  preserves sent (_processOllamaResponse d).
Proof. unfold _processOllamaResponse. preserves_tac. Qed.







Lemma unparseable_empty (t : jsstring) :
  unparseable t -> parse_text t = empty_document.
Proof.
  unfold unparseable, parse_text. destruct (match_braces t) as [j|]; [|reflexivity].
  intros [-> ->]. reflexivity.
Qed.

(** A successful run of either analysis returns the fixed success record. *)
Lemma analyzeDocument_try_results (w : World) (content : jsstring)
    (tags : list jsstring) (corr types : list Entry) (id : option json)
    (cp ext : option jsstring) :
  results (fun r => exists doc, r = success doc)
    (analyzeDocument_try w content tags corr types id cp ext).
Proof.
  unfold analyzeDocument_try. cbv zeta.
  repeat results_step. apply results_ret. eexists. reflexivity.
Qed.

(** C10. Every result of the free-text adapter's [analyzeDocument] that
    carries no error reports [truncated: false] (and zero metrics), and
    there are such results for runs in which [_truncateContent] shortened
    the content: a document of 400 code units cut at 100. *)
Theorem ollama_truncated_flag_constant :
  (forall (w : World) (content : jsstring) (tags : list jsstring)
          (corr types : list Entry) (id : option json) (cp ext : option jsstring)
          (s s' : State) (r : AnalysisResult),
      analyzeDocument w content tags corr types id cp ext s = (Ok r, s') ->
      error r = None ->
      truncated r = Some false /\ metrics r = Some zero_metrics)
  /\ (exists r s',
         let w := Examples.ollama_world 4096 (Some 100%N) Examples.document_reply in
         (str_length (_truncateContent w Examples.long_content)
          < str_length Examples.long_content)%N
         /\ analyzeDocument w Examples.long_content [] [] [] None None None
              Examples.ollama_state = (Ok r, s')
         /\ error r = None
         /\ truncated r = Some false).
Proof.
  split.
  - intros w content tags corr types id cp ext s s' r.
    unfold analyzeDocument. rewrite try_catch_ret.
    destruct (analyzeDocument_try w content tags corr types id cp ext s)
      as [[r0|e] s1] eqn:E; intros H; injection H as <- <-.
    + destruct (analyzeDocument_try_results w content tags corr types id cp
                  ext s E) as (doc & ->). auto.
    + discriminate.
  - eexists. eexists. cbv zeta. split; [vm_compute; reflexivity|].
    split; [vm_compute; reflexivity|]. split; reflexivity.
Qed.

(** The run with the document of 400 code units cut at 100. *)
Lemma ollama_truncated_flag_constant_witness :
  exists r s',
    analyzeDocument (Examples.ollama_world 4096 (Some 100%N) Examples.document_reply)
      Examples.long_content [] [] [] None None None Examples.ollama_state
    = (Ok r, s')
    /\ truncated r = Some false.
Proof.
  destruct (analyzeDocument (Examples.ollama_world 4096 (Some 100%N)
                               Examples.document_reply)
              Examples.long_content [] [] [] None None None
              Examples.ollama_state) as [[r|e] s'] eqn:E.
  - exists r, s'. split; [reflexivity|].
    apply (proj1 ollama_truncated_flag_constant _ _ _ _ _ _ _ _ _ _ _ E).
    revert E. vm_compute. intros E. injection E as <- _. reflexivity.
  - exfalso. revert E. vm_compute. discriminate.
Defined.

(** C9 fails on the free-text adapter. [_buildPrompt] calls the [async]
    validation without awaiting it, so what it appends under the label is
    the promise, which reads [[object Promise]]: whenever external data is
    supplied, prompt tags are off and [_buildPrompt] returns, the section is
    there and its body is that text, whatever the data. *)
Theorem buildPrompt_appends_promise :
  forall (w : World) (content : jsstring) (tags : list jsstring)
         (corr types : list Entry) (d : jsstring) (s s' : State) (p : jsstring),
    env_is_yes (USE_PROMPT_TAGS w) = false ->
    _buildPrompt w content tags corr types (Some d) s = (Ok p, s') ->
    exists restricted,
      p = prompt_with_content
            (restricted ++ LF ++ LF
             ++ lit "Additional context from external API:" ++ LF
             ++ lit "[object Promise]")
            (Json.stringify_string content).
Proof.
  intros w content tags corr types d s s' p Hno.
  revert s p s'.
  change (results
            (fun p => exists restricted,
                 p = prompt_with_content
                       (restricted ++ LF ++ LF
                        ++ lit "Additional context from external API:" ++ LF
                        ++ lit "[object Promise]")
                       (Json.stringify_string content))
            (_buildPrompt w content tags corr types (Some d))).
  unfold _buildPrompt. cbv beta iota zeta. rewrite Hno.
  repeat results_step; apply results_ret; eexists; reflexivity.
Qed.

(** External data [total: 1200] handed to the free-text adapter. *)
Lemma buildPrompt_appends_promise_witness :
  fst (_buildPrompt (Examples.ollama_world 4096 None Examples.document_reply)
         (lit "Invoice 7") [] [] [] (Some (lit "total: 1200"))
         Examples.ollama_state)
  = Ok (prompt_with_content
          (existing_data_block [] [] [] ++ lit "Analyze the document." ++ LF ++ LF
           ++ litq "Return one JSON object. ^custom_fields^: {}"
           ++ LF ++ LF ++ lit "Additional context from external API:" ++ LF
           ++ lit "[object Promise]")
          (litq "^Invoice 7^")).
Proof.
  destruct (_buildPrompt (Examples.ollama_world 4096 None Examples.document_reply)
              (lit "Invoice 7") [] [] [] (Some (lit "total: 1200"))
              Examples.ollama_state) as [[p|e] s'] eqn:E.
  - destruct (@buildPrompt_appends_promise
                (Examples.ollama_world 4096 None Examples.document_reply)
                _ _ _ _ _ _ _ _ eq_refl E) as (r & ->).
    revert E. vm_compute. intros E. injection E as E _.
    vm_compute. f_equal. exact (eq_sym E).
  - exfalso. revert E. vm_compute. discriminate.
Defined.

End OllamaProps.

(** ** Both adapters: what is transmitted, what is returned *)

Module PipelineProps.
Import Js Text Eff Analysis Notions EffProps.


(** C4, as stated, fails on the free-text adapter: a reply in prose, from
    which no JSON can be read, is not reported as an error. The result
    carries the empty document and no error string. *)
Lemma unparseable_reply_without_error :
  unparseable (lit "I could not read this document.")
  /\ exists r s',
       Ollama.analyzePlayground
         (Examples.ollama_world 4096 None Examples.prose_reply)
         (lit "Invoice 7") (lit "Summarize.") Examples.ollama_state
       = (Ok r, s')
       /\ document r = empty_document
       /\ error r = None.
Proof.
  split; [exact I|]. eexists. eexists.
  split; [vm_compute; reflexivity|]. split; reflexivity.
Qed.

End PipelineProps.

(** ** Question answering *)

Module RagProps.
Import Js Text Eff Notions EffProps Rag.

(** One turn of the loop returns, leaves the state alone, and adds the
    record and the line of its source. *)
Lemma enrich_source_run (w : World) (acc : Enriched) (source : Source) (s : State) :
  enrich_source w acc source s
  = (Ok {| hasReferenceTag :=
             hasReferenceTag acc || carries_reference_tag w source;
           sourceInfo := sourceInfo acc ++ info_for w source;
           referenceDocuments :=
             referenceDocuments acc ++ reference_for w source |}, s).
Proof.
  unfold enrich_source, carries_reference_tag, reference_for, info_for,
    resolved_tags.
  destruct acc as [h si refs]. simpl.
  destruct (v_truthy (doc_id source)).
  - unfold_monad. destruct (getDocument w (doc_id source)) as [d|e].
    + destruct (tags d) as [ids|].
      * destruct (includes (resolve_tags w ids) Referencia); simpl;
          rewrite ?orb_true_r, ?orb_false_r, ?app_nil_r; reflexivity.
      * rewrite orb_false_r, !app_nil_r. reflexivity.
    + rewrite orb_false_r, !app_nil_r. reflexivity.
  - unfold ret. rewrite orb_false_r, !app_nil_r. reflexivity.
Qed.

Lemma enrich_loop_run (w : World) (l : list Source) (acc : Enriched) (s : State) :
  enrich_loop w acc l s
  = (Ok {| hasReferenceTag :=
             hasReferenceTag acc || existsb (carries_reference_tag w) l;
           sourceInfo := sourceInfo acc ++ flat_map (info_for w) l;
           referenceDocuments :=
             referenceDocuments acc ++ flat_map (reference_for w) l |}, s).
Proof.
  revert acc. induction l as [|x l IH]; intros acc; simpl.
  - destruct acc. simpl. rewrite orb_false_r, !app_nil_r. reflexivity.
  - unfold bind. rewrite enrich_source_run, IH. simpl.
    rewrite orb_assoc, <- !app_assoc. reflexivity.
Qed.




Lemma enrich_run (w : World) (data : ContextData) (s : State) :
  negb (Nat.eqb (List.length (source_list data)) 0)
  && is_throw (ensureTagCache w) = false ->
  enrich w (sources data) s = (Ok (enriched_of w (source_list data)), s).
Proof.
  unfold enrich, source_list, enriched_of.
  destruct (sources data) as [[|x l]|]; try reflexivity.
  cbn [List.length Nat.eqb negb andb]. intros H.
  destruct (ensureTagCache w) as [u|e]; [|discriminate].
  unfold bind, await. rewrite enrich_loop_run. reflexivity.
Qed.

Lemma askQuestion_run (w : World) (question : jsstring) (s : State) :
  askQuestion_fails w question = false ->
  exists data,
    post_context w question = Ok data
    /\ askQuestion w question s
       = (Ok {| answer := answer_of w (prompt_of w question data);
                answer_sources := sources data |},
          s ++ [prompt_of w question data]).
Proof.
  unfold askQuestion_fails, askQuestion, askQuestion_try.
  destruct (post_context w question) as [data|e]; [|discriminate].
  intros H. apply orb_false_elim in H. destruct H as [Hc Hs].
  exists data. split; [reflexivity|].
  unfold try_catch, bind at 1. unfold await at 1.
  unfold bind at 1. rewrite (enrich_run w data s Hc).
  destruct (getService w) as [u|e]; [|discriminate].
  unfold answer_of, prompt_of, generate. unfold_monad.
  destruct (generateText w _); reflexivity.
Qed.

Lemma askQuestion_fail (w : World) (question : jsstring) (s : State) :
  askQuestion_fails w question = true ->
  askQuestion w question s = (Throw {| message := generic_error |}, s).
Proof.
  unfold askQuestion_fails, askQuestion, askQuestion_try.
  destruct (post_context w question) as [data|e]; [|reflexivity].
  intros H. unfold try_catch, bind at 1. unfold await at 1. unfold bind at 1.
  destruct (negb (Nat.eqb (List.length (source_list data)) 0)
            && is_throw (ensureTagCache w)) eqn:Hc.
  - apply andb_prop in Hc. destruct Hc as [Hn Ht].
    unfold enrich, source_list in *.
    destruct (sources data) as [[|x l]|]; try discriminate.
    destruct (ensureTagCache w) as [u|e]; [discriminate|]. reflexivity.
  - rewrite (enrich_run w data s Hc). simpl in H.
    destruct (getService w) as [u|e]; [discriminate|]. reflexivity.
Qed.

(** C5, as stated, fails: the retrieval succeeds, with three sources, and
    the call fails all the same because the tag cache cannot be filled; so
    it does when the service factory fails. *)
Lemma askQuestion_fails_after_retrieval :
  (exists data,
      post_context (Examples.rag_world (Some [Examples.source1]) (Throw Examples.not_found)
                      (Ok tt) (Ok (lit "It is open.")))
        (lit "When is the pool open?") = Ok data)
  /\ askQuestion (Examples.rag_world (Some [Examples.source1]) (Throw Examples.not_found)
                    (Ok tt) (Ok (lit "It is open.")))
       (lit "When is the pool open?") []
     = (Throw {| message := generic_error |}, [])
  /\ askQuestion (Examples.rag_world (Some [Examples.source1]) (Ok tt)
                    (Throw Examples.not_found) (Ok (lit "It is open.")))
       (lit "When is the pool open?") []
     = (Throw {| message := generic_error |}, []).
Proof.
  split; [eexists; reflexivity|]. split; vm_compute; reflexivity.
Qed.

(** C5, amended. [askQuestion] fails, with the one generic error and
    without any prompt handed to the adapter, exactly when the retrieval
    fails, or there are sources and the tag cache cannot be filled, or the
    service factory fails. Otherwise it returns: the sources are those
    retrieved, whatever became of the metadata and content fetches of the
    single sources, and the answer is the generated text or, when the
    generation fails, the apology. *)
Theorem askQuestion_failure_causes :
  forall (w : World) (question : jsstring) (s : State),
    (askQuestion_fails w question = true ->
     askQuestion w question s = (Throw {| message := generic_error |}, s))
    /\ (askQuestion_fails w question = false ->
        exists data p,
          post_context w question = Ok data
          /\ askQuestion w question s
             = (Ok {| answer := match generateText w p with
                                | Ok a => a
                                | Throw _ => apology
                                end;
                      answer_sources := sources data |},
                s ++ [p])).
Proof.
  intros w question s. split.
  - apply askQuestion_fail.
  - intros H. destruct (askQuestion_run w question s H) as (data & E & R).
    exists data, (prompt_of w question data). split; [exact E|exact R].
Qed.

(** Three sources of which one cannot be fetched, and a generation that
    fails: the call returns the apology and the three sources. *)
Lemma askQuestion_failure_causes_witness :
  askQuestion (Examples.rag_world (Rag.sources Examples.retrieved) (Ok tt) (Ok tt)
                 (Throw Examples.not_found))
    (lit "When is the pool open?") []
  = (Ok {| answer := apology;
           answer_sources := Some [Examples.source1; Examples.source2;
                                   Examples.source3] |},
     [prompt_of (Examples.rag_world (Rag.sources Examples.retrieved) (Ok tt) (Ok tt)
                   (Throw Examples.not_found))
        (lit "When is the pool open?") Examples.retrieved]).
Proof.
  destruct (proj2 (askQuestion_failure_causes
                     (Examples.rag_world (Rag.sources Examples.retrieved) (Ok tt)
                        (Ok tt) (Throw Examples.not_found))
                     (lit "When is the pool open?") []) eq_refl)
    as (data & p & E & R).
  rewrite R. injection E as <-.
  assert (P : [] ++ [p]
              = [prompt_of (Examples.rag_world (Rag.sources Examples.retrieved)
                              (Ok tt) (Ok tt) (Throw Examples.not_found))
                   (lit "When is the pool open?") Examples.retrieved]).
  { revert R. vm_compute. intros R. injection R as <-. reflexivity. }
  rewrite P. reflexivity.
Defined.



















End RagProps.

(** ** The shape of the results *)

Module ShapeProps.
Import Js Text Eff Analysis Notions EffProps Shapes.

Lemma read_response_shape (response : option json) (tc content : jsstring) :
  results (fun r => error r = None /\ well_formed_document (document r)
                    /\ metrics r <> None /\ truncated r <> None)
    (Azure.read_response response tc content).
Proof.
  intros s a s'. unfold Azure.read_response. unfold_monad.
  repeat split_outcome; try discriminate;
    match goal with
    | |- context [match ?j with JNull => _ | _ => _ end] => destruct j
    end; intros H; try discriminate; injection H as <- _;
    apply orb_false_elim in Heqb0; destruct Heqb0 as [Hb Hc];
    apply orb_false_elim in Hb; destruct Hb as [_ Hb];
    apply negb_false_iff in Hb, Hc; cbn [error document metrics truncated];
    repeat split; auto; discriminate.
Qed.

Lemma azure_try_shape (w : Azure.World) (content : jsstring)
    (tags corr types : list jsstring) (id : option json)
    (cp ext : option jsstring) :
  results (fun r => error r = None /\ well_formed_document (document r)
                    /\ metrics r <> None /\ truncated r <> None)
    (Azure.analyzeDocument_try w content tags corr types id cp ext).
Proof.
  unfold Azure.analyzeDocument_try. cbv zeta.
  repeat results_step; apply read_response_shape.
Qed.

Lemma azure_playground_try_shape (w : Azure.World) (content prompt : jsstring) :
  results (fun r => error r = None /\ well_formed_document (document r)
                    /\ metrics r <> None /\ truncated r <> None)
    (Azure.analyzePlayground_try w content prompt).
Proof.
  unfold Azure.analyzePlayground_try. cbv zeta.
  repeat results_step; apply read_response_shape.
Qed.

Lemma failure_shape (e : Error) :
  exists m, error (failure e) = Some m /\ document (failure e) = empty_document
            /\ metrics (failure e) = None /\ truncated (failure e) = None.
Proof. exists (message e). repeat split. Qed.

(** X1. Every result of the structured-output adapter has one of two
    shapes: no error, metrics, a truncated flag and a document with a tags
    array and a correspondent string; or an error string, null metrics, no
    truncated flag and the empty document. *)
Theorem azure_results_have_two_shapes :
  (forall w content tags corr types id cp ext s r s',
      Azure.analyzeDocument w content tags corr types id cp ext s = (Ok r, s') ->
      azure_result_shape r)
  /\ (forall w content prompt s r s',
         Azure.analyzePlayground w content prompt s = (Ok r, s') ->
         azure_result_shape r).
Proof.
  split.
  - intros w content tags corr types id cp ext s r s'.
    unfold Azure.analyzeDocument. rewrite try_catch_ret.
    destruct (Azure.analyzeDocument_try w content tags corr types id cp ext s)
      as [[r0|e] s1] eqn:E; intros H; injection H as <- _.
    + left. exact (azure_try_shape w content tags corr types id cp ext s E).
    + right. apply failure_shape.
  - intros w content prompt s r s'.
    unfold Azure.analyzePlayground. rewrite try_catch_ret.
    destruct (Azure.analyzePlayground_try w content prompt s)
      as [[r0|e] s1] eqn:E; intros H; injection H as <- _.
    + left. exact (azure_playground_try_shape w content prompt s E).
    + right. apply failure_shape.
Qed.

(** A well-formed reply on a deployment with room for the document. *)
Lemma azure_results_have_two_shapes_witness :
  azure_result_shape
    (match fst (Azure.analyzePlayground (Examples.azure_world 4096 1000)
                  Examples.long_content (lit "Summarize.")
                  Examples.azure_ready) with
     | Ok r => r
     | Throw e => failure e
     end).
Proof.
  destruct (Azure.analyzePlayground (Examples.azure_world 4096 1000)
              Examples.long_content (lit "Summarize.") Examples.azure_ready)
    as [[r|e] s'] eqn:E.
  - exact (proj2 azure_results_have_two_shapes _ _ _ _ _ _ E).
  - exfalso. revert E. vm_compute. discriminate.
Defined.

Lemma full_fields_normalized (r : json) :
  normalized_document (Ollama.full_fields r).
Proof.
  split.
  - change (is_array (Some (Ollama.array_or_empty (prop r (lit "tags")))) = true).
    destruct (prop r (lit "tags")) as [[]|]; reflexivity.
  - exists (or_null (prop r (lit "correspondent"))). split; [reflexivity|].
    unfold or_null. destruct (prop r (lit "correspondent")) as [c|]; [|auto].
    destruct (truthy c) eqn:T; auto.
Qed.

Lemma sanitized_fields_normalized (r : json) :
  normalized_document (Ollama.sanitized_fields r).
Proof.
  split.
  - change (is_array (Some (Ollama.array_or_empty (prop r (lit "tags")))) = true).
    destruct (prop r (lit "tags")) as [[]|]; reflexivity.
  - exists (or_null (prop r (lit "correspondent"))). split; [reflexivity|].
    unfold or_null. destruct (prop r (lit "correspondent")) as [c|]; [|auto].
    destruct (truthy c) eqn:T; auto.
Qed.

Lemma empty_document_normalized : normalized_document empty_document.
Proof. split; [reflexivity|]. exists JNull. auto. Qed.

Lemma parse_text_normalized (t : jsstring) :
  normalized_document (Ollama.parse_text t).
Proof.
  unfold Ollama.parse_text, Ollama.fields_of.
  destruct (match_braces t) as [j|]; [|apply empty_document_normalized].
  destruct (Json.parse j) as [[]|];
    try apply full_fields_normalized;
    destruct (Json.parse (Ollama._sanitizeJsonString j)) as [[]|];
    first [apply sanitized_fields_normalized | apply empty_document_normalized].
Qed.

Lemma processOllamaResponse_normalized (d : json) :
  results normalized_document (Ollama._processOllamaResponse d).
Proof.
  unfold Ollama._processOllamaResponse.
  destruct (prop d (lit "response")) as [r|]; [|apply results_throw].
  destruct (truthy r && typeof_object r);
    [apply results_ret, full_fields_normalized|].
  destruct (truthy r); [|apply results_throw].
  apply results_ret. unfold Ollama._parseResponse.
  destruct r; first [apply parse_text_normalized | apply empty_document_normalized].
Qed.

(** The continuation runs on a value the first part can return. *)
Lemma results_bind_results {S A B} (Q : A -> Prop) (Q' : B -> Prop)
    (m : M S A) (k : A -> M S B) :
  results Q m -> (forall a, Q a -> results Q' (k a)) -> results Q' (bind m k).
Proof.
  intros Hm Hk s b s' E. apply bind_ok_inv in E.
  destruct E as (a & s1 & Ea & Eb). exact (Hk a (Hm s a s1 Ea) s1 b s' Eb).
Qed.

Lemma ollama_try_shape (w : Ollama.World) (content : jsstring)
    (tags : list jsstring) (corr types : list Ollama.Entry) (id : option json)
    (cp ext : option jsstring) :
  results (fun r => exists doc, r = Ollama.success doc /\ normalized_document doc)
    (Ollama.analyzeDocument_try w content tags corr types id cp ext).
Proof.
  unfold Ollama.analyzeDocument_try. cbv zeta.
  do 4 (apply results_bind; intros ?).
  apply results_bind_results with (Q := normalized_document);
    [apply processOllamaResponse_normalized|].
  intros doc Hdoc. apply results_bind. intros _.
  apply results_ret. exists doc. auto.
Qed.

Lemma ollama_playground_try_shape (w : Ollama.World) (content p : jsstring) :
  results (fun r => exists doc, r = Ollama.success doc /\ normalized_document doc)
    (Ollama.analyzePlayground_try w content p).
Proof.
  unfold Ollama.analyzePlayground_try. cbv zeta.
  do 2 (apply results_bind; intros ?).
  apply results_bind_results with (Q := normalized_document);
    [apply processOllamaResponse_normalized|].
  intros doc Hdoc. apply results_ret. exists doc. auto.
Qed.

Lemma ollama_shape_of_try {S} (m : M S AnalysisResult) (s s' : S)
    (r : AnalysisResult) :
  results (fun r => exists doc, r = Ollama.success doc /\ normalized_document doc) m ->
  try_catch m (fun e => ret (failure e)) s = (Ok r, s') ->
  ollama_result_shape r.
Proof.
  intros Hm. rewrite try_catch_ret.
  destruct (m s) as [[r0|e] s1] eqn:E; intros H; injection H as <- _.
  - destruct (Hm s r0 s1 E) as (doc & -> & Hdoc).
    split; [exact Hdoc|]. left. repeat split.
  - split; [apply empty_document_normalized|]. right. apply failure_shape.
Qed.

(** X2. Every result of the free-text adapter, successful or not, carries
    a document whose tags are an array and whose correspondent is [null] or
    a truthy value, so that a caller may read [document.tags.length]; a
    result without error has zero metrics and [truncated: false], a result
    with an error has null metrics and the empty document. *)
Theorem ollama_results_are_normalized :
  (forall w content tags corr types id cp ext s r s',
      Ollama.analyzeDocument w content tags corr types id cp ext s = (Ok r, s') ->
      ollama_result_shape r)
  /\ (forall w content p s r s',
         Ollama.analyzePlayground w content p s = (Ok r, s') ->
         ollama_result_shape r).
Proof.
  split.
  - intros w content tags corr types id cp ext s r s'.
    apply ollama_shape_of_try, ollama_try_shape.
  - intros w content p s r s'.
    apply ollama_shape_of_try, ollama_playground_try_shape.
Qed.

(** A reply with a document, on a deployment that cuts the content. *)
Lemma ollama_results_are_normalized_witness :
  ollama_result_shape
    (match fst (Ollama.analyzeDocument
                  (Examples.ollama_world 4096 (Some 100%N) Examples.document_reply)
                  Examples.long_content [] [] [] None None None
                  Examples.ollama_state) with
     | Ok r => r
     | Throw e => failure e
     end).
Proof.
  destruct (Ollama.analyzeDocument
              (Examples.ollama_world 4096 (Some 100%N) Examples.document_reply)
              Examples.long_content [] [] [] None None None
              Examples.ollama_state) as [[r|e] s'] eqn:E.
  - exact (proj1 ollama_results_are_normalized _ _ _ _ _ _ _ _ _ _ _ E).
  - exfalso. revert E. vm_compute. discriminate.
Defined.

End ShapeProps.

(** ** The thumbnail cache and the external data inside an analysis *)

Module SideStepProps.
Import Js Text Eff Analysis Notions EffProps.

Lemma azure_thumbnail_state (w : Azure.World) (id : option json)
    (s : Azure.State) :
  snd (Azure.cache_thumbnail w id s) = s.
Proof.
  unfold Azure.cache_thumbnail. unfold_monad.
  repeat split_outcome; reflexivity.
Qed.

Lemma ollama_thumbnail_state (w : Ollama.World) (id : option json)
    (s : Ollama.State) :
  snd (Ollama._handleThumbnailCaching w id s) = s.
Proof.
  unfold Ollama._handleThumbnailCaching. unfold_monad.
  repeat split_outcome; reflexivity.
Qed.

(** X3. The thumbnail cache is filled inside the [try] block of
    [analyzeDocument], before any prompt is built: when that step throws,
    on either adapter, the analysis returns the error record with the
    message of that error and no request has been sent. *)
Theorem thumbnail_failure_aborts_analysis :
  (forall w content tags corr types id cp ext s e,
      Azure.client s = true ->
      fst (Azure.cache_thumbnail w id s) = Throw e ->
      Azure.analyzeDocument w content tags corr types id cp ext s
      = (Ok (failure e), s))
  /\ (forall w content tags corr types id cp ext s e,
         fst (Ollama._handleThumbnailCaching w id s) = Throw e ->
         Ollama.analyzeDocument w content tags corr types id cp ext s
         = (Ok (failure e), s)).
Proof.
  split.
  - intros w content tags corr types id cp ext s e Hc Ht.
    pose proof (azure_thumbnail_state w id s) as Hs.
    unfold Azure.analyzeDocument, Azure.analyzeDocument_try, Azure.initialize.
    rewrite try_catch_ret. unfold bind at 1. unfold bind at 1. unfold get at 1.
    rewrite Hc. cbn [negb andb]. unfold ret at 1. unfold bind at 1.
    unfold get at 1. rewrite Hc. cbn [negb]. unfold bind at 1.
    destruct (Azure.cache_thumbnail w id s) as [[u|e'] s1]; simpl in Ht, Hs.
    + discriminate.
    + injection Ht as ->. rewrite Hs. reflexivity.
  - intros w content tags corr types id cp ext s e Ht.
    pose proof (ollama_thumbnail_state w id s) as Hs.
    unfold Ollama.analyzeDocument, Ollama.analyzeDocument_try.
    rewrite try_catch_ret. cbv zeta. unfold bind at 1.
    destruct (Ollama._handleThumbnailCaching w id s) as [[u|e'] s1];
      simpl in Ht, Hs.
    + discriminate.
    + injection Ht as ->. rewrite Hs. reflexivity.
Qed.

(** No cached file and a repository that does not answer. *)
Lemma thumbnail_failure_aborts_analysis_witness :
  Ollama.analyzeDocument
    (MoreExamples.ollama_thumbnails
       (Examples.ollama_world 4096 None Examples.document_reply)
       (Throw MoreExamples.no_such_file) (Throw Examples.not_found) (Ok tt))
    (lit "Invoice 7") [] [] [] MoreExamples.document_id None None
    Examples.ollama_state
  = (Ok (failure Examples.not_found), Examples.ollama_state).
Proof.
  apply (proj2 thumbnail_failure_aborts_analysis). reflexivity.
Defined.



Lemma bind_ext_l {S A B} (m m' : M S A) (k : A -> M S B) (s : S) :
  m s = m' s -> bind m k s = bind m' k s.
Proof. unfold bind. intros ->. reflexivity. Qed.

Lemma bind_ext_r {S A B} (m : M S A) (k k' : A -> M S B) (s : S) :
  (forall a s1, k a s1 = k' a s1) -> bind m k s = bind m k' s.
Proof. unfold bind. intros H. destruct (m s) as [[a|e] s1]; auto. Qed.

Lemma try_catch_ext {S A} (m m' : M S A) (h : Error -> M S A) (s : S) :
  m s = m' s -> try_catch m h s = try_catch m' h s.
Proof. unfold try_catch. intros ->. reflexivity. Qed.

Lemma validation_throws (w : Azure.World) (d : jsstring) (s : Azure.State) :
  Shapes.validation_fails w d ->
  exists e, Azure._validateAndTruncateExternalApiData w (Some d) 500 s
            = (Throw e, s).
Proof.
  unfold Shapes.validation_fails, Azure._validateAndTruncateExternalApiData.
  unfold_monad.
  destruct (Azure.calculateTokens w d (Azure.AZURE_DEPLOYMENT_NAME w)) as [t|e].
  - intros (L & e & E). apply Z.ltb_lt in L. rewrite L, E. eauto.
  - eauto.
Qed.

Lemma build_without_external_data (w : Azure.World)
    (tags corr types : list jsstring) (cp : option jsstring) (d : jsstring)
    (s : Azure.State) :
  Shapes.validation_fails w d ->
  Azure.build_system_prompt w tags corr types cp (Some d) s
  = Azure.build_system_prompt w tags corr types cp None s.
Proof.
  intros H. unfold Azure.build_system_prompt. cbv zeta.
  apply bind_ext_l. unfold try_catch.
  destruct (validation_throws w d s H) as (e & ->). reflexivity.
Qed.

(** X5. On the structured-output adapter a failure of the validation of
    the external data is swallowed: when counting its tokens throws, or
    cutting it throws, [analyzeDocument] behaves exactly as it does without
    external data: same result, same requests. *)
Theorem external_data_failure_is_swallowed :
  forall w content tags corr types id cp d s,
    Shapes.validation_fails w d ->
    Azure.analyzeDocument w content tags corr types id cp (Some d) s
    = Azure.analyzeDocument w content tags corr types id cp None s.
Proof.
  intros w content tags corr types id cp d s H.
  unfold Azure.analyzeDocument. apply try_catch_ext.
  unfold Azure.analyzeDocument_try.
  apply bind_ext_r. intros _ s1. apply bind_ext_r. intros s2 s3.
  destruct (negb (Azure.client s2)); [reflexivity|].
  apply bind_ext_r. intros _ s4. apply bind_ext_l.
  apply build_without_external_data, H.
Qed.

(** A tokenizer that is not available for the external data. *)
Lemma external_data_failure_is_swallowed_witness :
  Azure.analyzeDocument
    (MoreExamples.azure_counting (Examples.azure_world 4096 1000)
       (Throw MoreExamples.tokenizer_down))
    Examples.long_content [] [] [] MoreExamples.document_id None
    (Some (lit "total: 1200")) Examples.azure_ready
  = Azure.analyzeDocument
      (MoreExamples.azure_counting (Examples.azure_world 4096 1000)
         (Throw MoreExamples.tokenizer_down))
      Examples.long_content [] [] [] MoreExamples.document_id None
      None Examples.azure_ready.
Proof. apply external_data_failure_is_swallowed. exact I. Defined.

End SideStepProps.

(** ** Text generation *)

Module GenerateProps.
Import Js Text Eff Analysis Notions Shapes EffProps Generate.

Lemma default_temperature_truthy : num_truthy default_temperature = true.
Proof. vm_compute. reflexivity. Qed.

Lemma temperature_of_chosen (a b : option jnum) :
  chosen_temperature a b (temperature_of a b).
Proof.
  unfold chosen_temperature, temperature_of, falsy_number.
  split; [|split; [|split]].
  - destruct a as [t|]; [destruct (num_truthy t) eqn:T; [exact T|]|];
      (destruct b as [u|];
       [destruct (num_truthy u) eqn:U;
        [exact U|apply default_temperature_truthy]
       |apply default_temperature_truthy]).
  - intros x -> T. rewrite T. reflexivity.
  - intros Fa u -> U. rewrite U.
    destruct a as [x|]; [rewrite Fa|]; reflexivity.
  - intros Fa Fb.
    destruct b as [u|]; [rewrite Fb|];
      (destruct a as [x|]; [rewrite Fa|]); reflexivity.
Qed.

Lemma rethrow_kept {S R A} (tr : S -> list R) (e : Error) :
  preserves tr (@rethrow S A e).
Proof. intros s. reflexivity. Qed.

(** A run of [generateText] of the structured-output adapter: nothing is
    sent and it throws, or the one request is sent and the outcome is read
    off the reply. *)
Lemma azure_generateText_run (w : Azure.World) (rt : option jnum)
    (prompt : jsstring) (ot : option jnum) (s s' : Azure.State)
    (o : Outcome json) :
  azure_generateText w rt prompt ot s = (o, s') ->
  (Azure.sent s' = Azure.sent s /\ exists e, o = Throw e)
  \/ (Azure.sent s' = Azure.sent s ++ [azure_text_request w rt prompt ot]
      /\ o = match Azure.chat_completions_create w
                     (azure_text_request w rt prompt ot) with
             | Throw e => Throw e
             | Ok reply =>
                 match first_choice_content reply with
                 | Some c =>
                     if truthy c then Ok c
                     else Throw {| message := lit "Invalid API response structure" |}
                 | None =>
                     Throw {| message := lit "Invalid API response structure" |}
                 end
             end).
Proof.
  unfold azure_generateText, Azure.initialize, Azure.create, rethrow,
    first_choice_content, Azure.probe_content.
  unfold_monad.
  repeat split_outcome; intros H; injection H as <- <-;
    first [left; split; [reflexivity|eauto] | right; split; reflexivity].
Qed.

(** X6. The temperature of every request that [generateText] sends, on
    either adapter, is the option when that is a truthy number, else what
    [parseFloat] makes of [RAG_TEMPERATURE] when that is a truthy number,
    else 0.1. It is never zero: a temperature of 0, asked for by option or
    by the variable, is passed over. A call that returns has sent one
    request, with that temperature. *)
Theorem temperature_is_never_zero :
  (forall w rt prompt ot,
      sends Azure.sent
        (fun req => chosen_temperature ot rt (Azure.temperature req))
        (azure_generateText w rt prompt ot))
  /\ (forall w prompt ot,
         sends (fun s : TextState => s)
           (fun req => chosen_temperature ot (rag_temperature w)
                         (t_temperature req))
           (ollama_generateText w prompt ot))
  /\ (forall w rt prompt ot s a s',
         azure_generateText w rt prompt ot s = (Ok a, s') ->
         exists req,
           Azure.sent s' = Azure.sent s ++ [req]
           /\ chosen_temperature ot rt (Azure.temperature req))
  /\ (forall w prompt ot s a s',
         ollama_generateText w prompt ot s = (Ok a, s') ->
         exists req,
           s' = s ++ [req]
           /\ chosen_temperature ot (rag_temperature w) (t_temperature req))
  /\ (forall a b : option jnum,
         num_truthy (temperature_of a b) = true
         /\ (forall t, a = Some t -> num_truthy t = true -> temperature_of a b = t)
         /\ (forall t, a = Some t -> num_truthy t = false ->
                       temperature_of a b = temperature_of None b)
         /\ (forall t, b = Some t -> num_truthy t = true ->
                       temperature_of None b = t)
         /\ (forall t, b = Some t -> num_truthy t = false ->
                       temperature_of None b = default_temperature)
         /\ temperature_of None None = default_temperature).
Proof.
  split; [|split; [|split; [|split]]].
  - intros w rt prompt ot s.
    destruct (azure_generateText w rt prompt ot s) as [o s'] eqn:E.
    apply azure_generateText_run in E. cbn [snd].
    destruct E as [[E _]|[E _]].
    + exists []. rewrite app_nil_r. split; [exact E|constructor].
    + exists [azure_text_request w rt prompt ot]. split; [exact E|].
      constructor; [apply temperature_of_chosen|constructor].
  - intros w prompt ot s.
    exists [ollama_text_request w prompt ot]. split.
    + unfold ollama_generateText, rethrow. unfold_monad.
      repeat split_outcome; reflexivity.
    + constructor; [apply temperature_of_chosen|constructor].
  - intros w rt prompt ot s a s' H. apply azure_generateText_run in H.
    destruct H as [[_ (e & E)]|[E _]]; [discriminate|].
    exists (azure_text_request w rt prompt ot).
    split; [exact E|apply temperature_of_chosen].
  - intros w prompt ot s a s'. unfold ollama_generateText, rethrow.
    unfold_monad. repeat split_outcome; intros H; try discriminate;
      injection H as _ <-; eexists; (split; [reflexivity|]);
      apply temperature_of_chosen.
  - intros a b. repeat split.
    + apply temperature_of_chosen.
    + intros t -> T. unfold temperature_of. rewrite T. reflexivity.
    + intros t -> T. unfold temperature_of. rewrite T. reflexivity.
    + intros t -> T. unfold temperature_of. rewrite T. reflexivity.
    + intros t -> T. unfold temperature_of. rewrite T. reflexivity.
Qed.

(** A first call in the example deployment with a temperature of 0 by
    option and 0.7 in the variable: the request goes out with 0.7. *)
Lemma temperature_is_never_zero_witness :
  exists req,
    Azure.sent
      (snd (azure_generateText (Examples.azure_world 4096 1000)
              (Some {| mant := 7; exp10 := -1 |})
              (lit "When is the pool open?")
              (Some {| mant := 0; exp10 := 0 |}) Examples.azure_ready))
    = [req]
    /\ Azure.temperature req = {| mant := 7; exp10 := -1 |}.
Proof.
  destruct (azure_generateText (Examples.azure_world 4096 1000)
              (Some {| mant := 7; exp10 := -1 |})
              (lit "When is the pool open?")
              (Some {| mant := 0; exp10 := 0 |}) Examples.azure_ready)
    as [[a|e] s'] eqn:E; [|exfalso; revert E; vm_compute; discriminate].
  destruct (proj1 (proj2 (proj2 temperature_is_never_zero)) _ _ _ _ _ _ _ E)
    as (req & L & _ & _ & C & _).
  exists req. split; [exact L|].
  apply (C eq_refl {| mant := 7; exp10 := -1 |} eq_refl eq_refl).
Defined.

(** X7. [generateText] of the structured-output adapter returns only the
    content of the first choice of the reply to its one request, and only
    when that content is truthy. The request carries the deployment as
    model, the whole prompt as its single user message, the chosen
    temperature and [max_tokens] 1000. It does not turn errors into
    results: a call that sends nothing throws, a wire error is thrown on as
    it is, a reply without truthy content is thrown as an error, and so is
    a missing client. *)
Theorem azure_generateText_returns_or_throws :
  (forall w rt prompt ot s a s',
      azure_generateText w rt prompt ot s = (Ok a, s') ->
      exists req reply,
        Azure.sent s' = Azure.sent s ++ [req]
        /\ Azure.model req = Azure.AZURE_DEPLOYMENT_NAME w
        /\ Azure.messages req
           = [{| Azure.role := lit "user"; Azure.content := prompt |}]
        /\ chosen_temperature ot rt (Azure.temperature req)
        /\ Azure.max_tokens req = Some 1000%Z
        /\ Azure.chat_completions_create w req = Ok reply
        /\ first_choice_content reply = Some a
        /\ truthy a = true)
  /\ (forall w rt prompt ot s o s',
         azure_generateText w rt prompt ot s = (o, s') ->
         Azure.sent s' = Azure.sent s -> exists e, o = Throw e)
  /\ (forall w rt prompt ot s o s' req,
         azure_generateText w rt prompt ot s = (o, s') ->
         Azure.sent s' = Azure.sent s ++ [req] ->
         Azure.messages req
         = [{| Azure.role := lit "user"; Azure.content := prompt |}]
         /\ (forall e,
                Azure.chat_completions_create w req = Throw e -> o = Throw e)
         /\ (forall reply,
                Azure.chat_completions_create w req = Ok reply ->
                truthy_opt (first_choice_content reply) = false ->
                o = Throw {| message := lit "Invalid API response structure" |})
         /\ (forall reply c,
                Azure.chat_completions_create w req = Ok reply ->
                first_choice_content reply = Some c -> truthy c = true ->
                o = Ok c))
  /\ (forall w rt prompt ot s,
         Azure.client s = false ->
         str_eqb (Azure.aiProvider w) (lit "azure") = false ->
         azure_generateText w rt prompt ot s
         = (Throw {| message := lit "AzureOpenAI client not initialized - missing API key" |},
            s)).
Proof.
  split; [|split; [|split]].
  - intros w rt prompt ot s a s' H. apply azure_generateText_run in H.
    destruct H as [[_ (e & E)]|[L E]]; [discriminate|].
    destruct (Azure.chat_completions_create w
                (azure_text_request w rt prompt ot)) as [reply|e] eqn:C;
      [|discriminate].
    destruct (first_choice_content reply) as [c|] eqn:F; [|discriminate].
    destruct (truthy c) eqn:T; [|discriminate]. injection E as <-.
    exists (azure_text_request w rt prompt ot), reply.
    repeat split; try assumption; try reflexivity;
      apply temperature_of_chosen.
  - intros w rt prompt ot s o s' H L. apply azure_generateText_run in H.
    destruct H as [[_ X]|[E _]]; [exact X|].
    exfalso. rewrite L in E. revert E. clear.
    intros E. apply (f_equal (@List.length Azure.Request)) in E.
    rewrite length_app in E. simpl in E. lia.
  - intros w rt prompt ot s o s' req H L. apply azure_generateText_run in H.
    destruct H as [[E _]|[E O]].
    + exfalso. rewrite E in L. revert L. clear.
      intros E. apply (f_equal (@List.length Azure.Request)) in E.
      rewrite length_app in E. simpl in E. lia.
    + rewrite E in L. apply app_inv_head in L. injection L as <-.
      split; [reflexivity|]. split; [|split].
      * intros e He. rewrite He in O. exact O.
      * intros reply Hr Hf. rewrite Hr in O.
        destruct (first_choice_content reply) as [c|]; [|exact O].
        cbn [truthy_opt] in Hf. rewrite Hf in O. exact O.
      * intros reply c Hr Hc Ht. rewrite Hr, Hc, Ht in O. exact O.
  - intros w rt prompt ot s Hc Hp.
    unfold azure_generateText, Azure.initialize, Azure.create, rethrow.
    unfold_monad. rewrite Hc, Hp. cbn [negb andb]. rewrite Hc. reflexivity.
Qed.

(** A first call in the example deployment: the client is built, then the
    one request is sent, and the content of the reply comes back. *)
Lemma azure_generateText_returns_or_throws_witness :
  fst (azure_generateText (Examples.azure_world 4096 1000) None
         (lit "When is the pool open?") None
         {| Azure.client := false; Azure.mustHavePrompt := [];
            Azure.sent := [] |})
  = Ok (JStr (litq "{^title^: ^Invoice^, ^correspondent^: ^ACME^, ^tags^: [^A^]}")).
Proof.
  destruct (azure_generateText (Examples.azure_world 4096 1000) None
              (lit "When is the pool open?") None
              {| Azure.client := false; Azure.mustHavePrompt := [];
                 Azure.sent := [] |}) as [[a|e] s'] eqn:E.
  - destruct (proj1 azure_generateText_returns_or_throws _ _ _ _ _ _ _ E)
      as (req & reply & _ & _ & _ & _ & _ & C & F & _).
    cbn [Examples.azure_world Azure.chat_completions_create] in C.
    injection C as <-. revert F. vm_compute. intros F. injection F as <-.
    reflexivity.
  - exfalso. revert E. vm_compute. discriminate.
Defined.

(** X8. [generateText] of the free-text adapter posts exactly one request
    in every call: the model, the whole prompt uncut, the fixed system
    prompt, no streaming, the chosen temperature, [top_p] 0.9,
    [num_predict] 1024 and a context window of the estimated prompt tokens
    plus 512, capped at the token limit. It returns only the [response]
    member of the data of the reply, and only when the data and that
    member are truthy; otherwise it throws, and a failed post is thrown on
    as it is. *)
Theorem ollama_generateText_returns_or_throws :
  (forall w prompt ot s o s',
      ollama_generateText w prompt ot s = (o, s') ->
      exists req,
        s' = s ++ [req]
        /\ t_model req = Ollama.ollama_model (deployment w)
        /\ t_prompt req = prompt
        /\ t_system req
           = lit "You are a helpful assistant. Generate a clear, concise, and informative response to the user's question or request."
        /\ t_stream req = false
        /\ chosen_temperature ot (rag_temperature w) (t_temperature req)
        /\ t_top_p req = {| mant := 9; exp10 := -1 |}
        /\ t_num_predict req = 1024%Z
        /\ t_num_ctx req
           = Z.min (Z.of_N ((str_length prompt + 3) / 4) + 512)
               (Ollama.tokenLimit (deployment w))
        /\ (t_num_ctx req <= Ollama.tokenLimit (deployment w))%Z
        /\ (forall e, post_text w req = Throw e -> o = Throw e)
        /\ (forall data,
               post_text w req = Ok data -> truthy_opt data = false ->
               o = Throw {| message := lit "Invalid response from Ollama API" |})
        /\ (forall d,
               post_text w req = Ok (Some d) -> truthy d = true ->
               truthy_opt (prop d (lit "response")) = false ->
               o = Throw {| message := lit "Invalid response from Ollama API" |})
        /\ (forall d a,
               post_text w req = Ok (Some d) -> truthy d = true ->
               prop d (lit "response") = Some a -> truthy a = true ->
               o = Ok a))
  /\ (forall w prompt ot s a s',
         ollama_generateText w prompt ot s = (Ok a, s') ->
         exists req d,
           s' = s ++ [req]
           /\ t_prompt req = prompt
           /\ post_text w req = Ok (Some d)
           /\ truthy d = true
           /\ prop d (lit "response") = Some a
           /\ truthy a = true).
Proof.
  assert (R : forall w prompt ot s,
             ollama_generateText w prompt ot s
             = (match post_text w (ollama_text_request w prompt ot) with
                | Throw e => Throw e
                | Ok (Some d) =>
                    if truthy d
                    then match prop d (lit "response") with
                         | Some a =>
                             if truthy a then Ok a
                             else Throw {| message := lit "Invalid response from Ollama API" |}
                         | None =>
                             Throw {| message := lit "Invalid response from Ollama API" |}
                         end
                    else Throw {| message := lit "Invalid response from Ollama API" |}
                | Ok None =>
                    Throw {| message := lit "Invalid response from Ollama API" |}
                end, s ++ [ollama_text_request w prompt ot])).
  { intros w prompt ot s. unfold ollama_generateText, rethrow. unfold_monad.
    repeat split_outcome; reflexivity. }
  split.
  - intros w prompt ot s o s' H. rewrite R in H. injection H as <- <-.
    exists (ollama_text_request w prompt ot).
    split; [reflexivity|]. split; [reflexivity|]. split; [reflexivity|].
    split; [reflexivity|]. split; [reflexivity|].
    split; [apply temperature_of_chosen|].
    split; [reflexivity|]. split; [reflexivity|]. split; [reflexivity|].
    split.
    { cbn [ollama_text_request t_num_ctx]. unfold Ollama._calculateNumCtx.
      apply Z.le_min_r. }
    split; [intros e ->; reflexivity|].
    split.
    { intros data -> F. destruct data as [d|]; [|reflexivity].
      cbn [truthy_opt] in F. rewrite F. reflexivity. }
    split.
    { intros d -> T F. rewrite T.
      destruct (prop d (lit "response")) as [a|]; [|reflexivity].
      cbn [truthy_opt] in F. rewrite F. reflexivity. }
    intros d a -> T -> Ta. rewrite T, Ta. reflexivity.
  - intros w prompt ot s a s' H. rewrite R in H. injection H as H <-.
    destruct (post_text w (ollama_text_request w prompt ot))
      as [[d|]|e] eqn:P; try discriminate.
    destruct (truthy d) eqn:T; [|discriminate].
    destruct (prop d (lit "response")) as [a'|] eqn:Q; [|discriminate].
    destruct (truthy a') eqn:Ta; [|discriminate]. injection H as <-.
    exists (ollama_text_request w prompt ot), d.
    repeat split; try assumption; reflexivity.
Qed.

(** A prompt of 400 code units against a limit of 16 tokens: it is posted
    whole, and the text of the reply comes back. *)
Lemma ollama_generateText_returns_or_throws_witness :
  exists req,
    ollama_generateText
      (MoreExamples.text_world 16 (Ok (Some (Examples.text_reply (lit "It is open.")))))
      Examples.long_content None []
    = (Ok (JStr (lit "It is open.")), [req])
    /\ t_prompt req = Examples.long_content.
Proof.
  destruct (ollama_generateText
              (MoreExamples.text_world 16
                 (Ok (Some (Examples.text_reply (lit "It is open.")))))
              Examples.long_content None []) as [o s'] eqn:E.
  destruct (proj1 ollama_generateText_returns_or_throws _ _ _ _ _ _ E)
    as (req & L & _ & P & _ & _ & _ & _ & _ & _ & _ & _ & _ & _ & K).
  exists req. split; [|exact P].
  rewrite (K (Examples.text_reply (lit "It is open.")) (JStr (lit "It is open."))
             eq_refl eq_refl eq_refl eq_refl).
  rewrite L. reflexivity.
Defined.

End GenerateProps.

(** ** Sources, tags and references *)

Module SourceProps.
Import Js Text Eff Notions Shapes Rag.

(** X9. Tag ids are resolved against the cache one by one and in order:
    every resolved name is the non-empty name of the first cached tag with
    one of the document's ids; an id that the cache does not hold, and a tag
    without a name, are passed over, so there are at most as many names as
    ids. *)
Theorem resolve_tags_against_cache :
  forall (w : World) (ids : list Z),
    (forall name,
        In name (resolve_tags w ids) <->
        name <> [] /\ exists id, In id ids /\ resolve_tag w id = Some name)
    /\ (forall id name,
           resolve_tag w id = Some name ->
           exists t, In t (tagCache w) /\ tag_id t = id /\ tag_name t = name)
    /\ (forall id,
           (forall t, In t (tagCache w) -> tag_id t <> id) ->
           resolve_tag w id = None)
    /\ (List.length (resolve_tags w ids) <= List.length ids)%nat
    /\ (forall pre t post,
           tagCache w = pre ++ t :: post ->
           (forall t', In t' pre -> tag_id t' <> tag_id t) ->
           resolve_tag w (tag_id t) = Some (tag_name t))
    /\ (forall a b,
           resolve_tags w (a ++ b) = resolve_tags w a ++ resolve_tags w b)
    /\ (forall id c n,
           resolve_tag w id = Some (c :: n) -> resolve_tags w [id] = [c :: n])
    /\ (forall id,
           resolve_tag w id = None \/ resolve_tag w id = Some [] ->
           resolve_tags w [id] = []).
Proof.
  intros w ids.
  split; [|split; [|split; [|split; [|split; [|split; [|split]]]]]];
    [split| | | | | | |].
  - intros H. unfold resolve_tags in H. apply in_flat_map in H.
    destruct H as (id & Hin & H).
    destruct (resolve_tag w id) as [[|c n]|] eqn:E; try contradiction.
    destruct H as [<-|[]]. split; [discriminate|].
    exists id. split; [exact Hin|exact E].
  - intros (Hne & id & Hin & E). unfold resolve_tags. apply in_flat_map.
    exists id. split; [exact Hin|]. rewrite E.
    destruct name; [contradiction|]. left. reflexivity.
  - intros id name. unfold resolve_tag.
    destruct (find _ (tagCache w)) as [t|] eqn:F; [|discriminate].
    intros E. injection E as <-. apply find_some in F. destruct F as [Hin Hid].
    exists t. apply Z.eqb_eq in Hid. auto.
  - intros id H. unfold resolve_tag.
    destruct (find _ (tagCache w)) as [t|] eqn:F; [|reflexivity].
    apply find_some in F. destruct F as [Hin Hid]. apply Z.eqb_eq in Hid.
    exfalso. exact (H t Hin Hid).
  - unfold resolve_tags. induction ids as [|id ids IH]; [apply Nat.le_refl|].
    cbn [flat_map List.length]. rewrite length_app.
    destruct (resolve_tag w id) as [[|c n]|]; cbn [List.length];
      first [apply le_n_S, IH | apply le_S, IH].
  - intros pre t post E Hpre. unfold resolve_tag. rewrite E.
    clear E. induction pre as [|x pre IH]; cbn [app find].
    + rewrite Z.eqb_refl. reflexivity.
    + destruct (Z.eqb_spec (tag_id x) (tag_id t)) as [Q|_].
      * exfalso. exact (Hpre x (or_introl eq_refl) Q).
      * apply IH. intros t' I. apply Hpre. right. exact I.
  - intros a b. unfold resolve_tags. apply flat_map_app.
  - intros id c n E. unfold resolve_tags. cbn [flat_map]. rewrite E.
    reflexivity.
  - intros id [E|E]; unfold resolve_tags; cbn [flat_map]; rewrite E;
      reflexivity.
Qed.

(** The cache of the examples: id 1 resolves, id 3 is not cached, and id 2
    resolves to the name of the second cached tag. *)
Lemma resolve_tags_against_cache_witness :
  resolve_tag (Examples.rag_world None (Ok tt) (Ok tt) (Ok [])) 3 = None
  /\ In Referencia
       (resolve_tags (Examples.rag_world None (Ok tt) (Ok tt) (Ok [])) [3; 1]%Z)
  /\ resolve_tag (Examples.rag_world None (Ok tt) (Ok tt) (Ok [])) 2
     = Some (lit "Invoice").
Proof.
  split; [|split];
    [| |apply (proj1 (proj2 (proj2 (proj2 (proj2 (resolve_tags_against_cache
                 (Examples.rag_world None (Ok tt) (Ok tt) (Ok [])) [])))))
               [{| tag_id := 1; tag_name := Referencia |}]
               {| tag_id := 2; tag_name := lit "Invoice" |} [] eq_refl);
      intros t' [<-|[]]; discriminate].
  - apply (proj1 (proj2 (proj2 (resolve_tags_against_cache
             (Examples.rag_world None (Ok tt) (Ok tt) (Ok [])) [])))).
    intros t [<-|[<-|[]]]; discriminate.
  - apply (proj1 (resolve_tags_against_cache
             (Examples.rag_world None (Ok tt) (Ok tt) (Ok [])) [3; 1]%Z)).
    split; [discriminate|]. exists 1%Z. split; [right; left; reflexivity|].
    reflexivity.
Defined.

Lemma entry_not_empty (label fullContent : jsstring) :
  str_eqb (full_content_entry label fullContent) [] = false.
Proof. reflexivity. Qed.

Lemma full_content_fetched (w : World) (x : Source) :
  fetched w x = true -> full_content w x = content_entry w x.
Proof.
  unfold fetched, full_content, content_entry.
  destruct (v_truthy (doc_id x)); [|discriminate].
  destruct (getDocumentContent w (doc_id x)); [reflexivity|discriminate].
Qed.

Lemma full_content_failed (w : World) (x : Source) :
  fetched w x = false -> full_content w x = [].
Proof.
  unfold fetched, full_content.
  destruct (v_truthy (doc_id x)); [|reflexivity].
  destruct (getDocumentContent w (doc_id x)); [discriminate|reflexivity].
Qed.

Lemma fetched_entries (w : World) (l : list Source) :
  filter (fun c => negb (str_eqb c [])) (map (full_content w) l)
  = map (content_entry w) (filter (fetched w) l).
Proof.
  induction l as [|x l IH]; [reflexivity|]. cbn [map filter]. rewrite IH.
  destruct (fetched w x) eqn:F.
  - rewrite (full_content_fetched w x F). unfold content_entry at 1.
    rewrite entry_not_empty. reflexivity.
  - rewrite (full_content_failed w x F). reflexivity.
Qed.

(** X10. The context handed to the model is the retrieved context alone
    when there are no sources; otherwise it is the retrieved context, a
    blank line, and one entry for each source that has a document id and
    whose text could be fetched, in the order of the sources: a source
    without id or with a failed fetch leaves no trace, a source with an
    empty text still has its entry. *)
Theorem enhanced_context_lists_fetched_sources :
  forall (w : World) (ctx : value),
    enhance w ctx None = to_string ctx
    /\ enhance w ctx (Some []) = to_string ctx
    /\ (forall srcs,
           srcs <> [] ->
           enhance w ctx (Some srcs)
           = to_string ctx ++ LF ++ LF
             ++ join (LF ++ LF) (map (content_entry w) (filter (fetched w) srcs)))
    /\ (forall srcs,
           srcs <> [] -> filter (fetched w) srcs = [] ->
           enhance w ctx (Some srcs) = to_string ctx ++ LF ++ LF).
Proof.
  intros w ctx. split; [reflexivity|]. split; [reflexivity|].
  assert (E : forall srcs, srcs <> [] ->
              enhance w ctx (Some srcs)
              = to_string ctx ++ LF ++ LF
                ++ join (LF ++ LF)
                     (map (content_entry w) (filter (fetched w) srcs))).
  { intros [|x l] H; [contradiction|]. unfold enhance.
    rewrite fetched_entries. reflexivity. }
  split; [exact E|].
  intros srcs H F. rewrite (E srcs H), F. reflexivity.
Qed.

(** The three sources of the examples: the texts of the first and of the
    third can be fetched. *)
Lemma enhanced_context_lists_fetched_sources_witness :
  enhance (Examples.rag_world None (Ok tt) (Ok tt) (Ok []))
    (VStr (lit "Two documents about the pool."))
    (Some [Examples.source1; Examples.source2; Examples.source3])
  = lit "Two documents about the pool." ++ LF ++ LF
    ++ lit "Full document content for Swimming study:" ++ LF
    ++ lit "The crawl stroke was assessed." ++ LF ++ LF
    ++ lit "Full document content for Document 13:" ++ LF
    ++ lit "Opening hours.".
Proof.
  rewrite (proj1 (proj2 (proj2 (enhanced_context_lists_fetched_sources
             (Examples.rag_world None (Ok tt) (Ok tt) (Ok []))
             (VStr (lit "Two documents about the pool.")))))
             [Examples.source1; Examples.source2; Examples.source3])
    by discriminate.
  reflexivity.
Defined.

(** X11. The reference record of a source carries the id of the source
    and the tag names. It always has a title: that of the document when it
    is truthy, else that of the source when it is truthy, else
    [Unknown Title]. Its creation date is [created_date] of the document
    when truthy, else [created]; its correspondent is [correspondent_name]
    when truthy, else [correspondent]. Its excerpt is empty for a document
    without text; otherwise it is the first 500 code units of the text
    followed by three dots, also when the text is shorter than that, so it
    never has more than 503 code units. *)
Theorem reference_has_title_and_bounded_excerpt :
  forall (source : Source) (d : Document) (names : list jsstring),
    v_truthy (r_title (reference_of source d names)) = true
    /\ (v_truthy (d_title d) = true ->
        r_title (reference_of source d names) = d_title d)
    /\ (v_truthy (d_title d) = false -> v_truthy (title source) = false ->
        r_title (reference_of source d names) = VStr (lit "Unknown Title"))
    /\ (List.length (r_content (reference_of source d names)) <= 503)%nat
    /\ (forall c t, content d = Some (c :: t) ->
                    r_content (reference_of source d names)
                    = firstn 500 (c :: t) ++ lit "...")
    /\ (content d = None \/ content d = Some [] ->
        r_content (reference_of source d names) = [])
    /\ (v_truthy (d_title d) = false -> v_truthy (title source) = true ->
        r_title (reference_of source d names) = title source)
    /\ r_id (reference_of source d names) = doc_id source
    /\ r_tags (reference_of source d names) = names
    /\ (v_truthy (created_date d) = true ->
        r_created (reference_of source d names) = created_date d)
    /\ (v_truthy (created_date d) = false ->
        r_created (reference_of source d names) = created d)
    /\ (v_truthy (correspondent_name d) = true ->
        r_correspondent (reference_of source d names) = correspondent_name d)
    /\ (v_truthy (correspondent_name d) = false ->
        r_correspondent (reference_of source d names) = correspondent d).
Proof.
  intros source d names.
  cbn [reference_of r_title r_content r_id r_tags r_created r_correspondent].
  unfold v_or, excerpt, substring0.
  split; [|split; [|split; [|split; [|split; [|split; [|split; [|split;
    [|split; [|split; [|split; [|split]]]]]]]]]]].
  - destruct (v_truthy (d_title d)) eqn:A; cbv iota.
    + rewrite A. cbv iota. exact A.
    + destruct (v_truthy (title source)) eqn:B; cbv iota;
        [exact B|reflexivity].
  - intros A. rewrite A. cbv iota. rewrite A. reflexivity.
  - intros A B. rewrite A. cbv iota. rewrite B. reflexivity.
  - destruct (content d) as [[|c t]|]; cbn [List.length]; try lia.
    rewrite length_app.
    pose proof (firstn_le_length (N.to_nat 500) (c :: t)) as L.
    change (List.length (lit "...")) with 3%nat.
    replace (N.to_nat 500) with 500%nat in L by reflexivity.
    replace (N.to_nat 500) with 500%nat by reflexivity.
    apply (Nat.add_le_mono _ 500 3 3); [exact L|apply Nat.le_refl].
  - intros c t ->. reflexivity.
  - intros [->| ->]; reflexivity.
  - intros A B. rewrite A. cbv iota. rewrite B. reflexivity.
  - reflexivity.
  - reflexivity.
  - intros A. rewrite A. reflexivity.
  - intros A. rewrite A. reflexivity.
  - intros A. rewrite A. reflexivity.
  - intros A. rewrite A. reflexivity.
Qed.

(** The first document of the examples: thirty code units of text. *)
Lemma reference_has_title_and_bounded_excerpt_witness :
  r_content (reference_of Examples.source1 Examples.document1 [Referencia])
  = lit "The crawl stroke was assessed....".
Proof.
  rewrite (proj1 (proj2 (proj2 (proj2 (proj2
             (reference_has_title_and_bounded_excerpt Examples.source1
                Examples.document1 [Referencia])))))
             84%N (lit "he crawl stroke was assessed.") eq_refl).
  reflexivity.
Defined.

End SourceProps.

(** ** The retrieval service *)

Module RagAdminProps.
Import Js Text Eff Analysis Notions EffProps RagAdmin.

Lemma azure_checkStatus_returns (w : Azure.World) (s : Azure.State) :
  exists r s', Azure.checkStatus w s = (Ok r, s') /\ ok_or_error r.
Proof.
  unfold Azure.checkStatus, Azure.initialize, Azure.create.
  StatusProps.status_cases.
Qed.

Lemma ollama_checkStatus_returns (w : Ollama.World) (s : Ollama.State) :
  exists r s', Ollama.checkStatus w s = (Ok r, s') /\ ok_or_error r.
Proof.
  unfold Ollama.checkStatus, Ollama.status_error_record. unfold_monad.
  destruct (Ollama.client_get_ps w) as [[code data]|e]; simpl.
  - destruct (code =? 200)%Z; [|StatusProps.status_cases].
    destruct data as [data|]; [|StatusProps.status_cases].
    destruct data; try StatusProps.status_cases.
  - StatusProps.status_cases.
Qed.

Lemma getAIStatus_of_returning {S} (check : M S Status) (s : S) :
  (exists r s', check s = (Ok r, s') /\ ok_or_error r) ->
  exists r s', getAIStatus (Ok check) s = (Ok r, s') /\ ok_or_error r.
Proof.
  intros (r & s' & E & H). exists r, s'. split; [|exact H].
  unfold getAIStatus. unfold_monad. rewrite E. reflexivity.
Qed.

(** X12. [checkStatus] of the retrieval service never throws: it returns
    what the service reports, or, when the request fails, a record with
    [server_up], [data_loaded] and [index_ready] false and the message of
    the error. [getAIStatus] throws on an error of the service factory as
    it is and otherwise comes to what [checkStatus] of the active adapter
    comes to, in result and in state; the active adapter being either of
    the two, it does not throw: it returns the adapter's status record. *)
Theorem status_calls_report_instead_of_throwing :
  (forall (w : World) (S : Type) (s : S),
      checkStatus w s
      = (Ok match axios_get w (baseUrl w ++ lit "/status") with
            | Ok data => data
            | Throw e => Some (offline e)
            end, s))
  /\ (forall e,
         prop (offline e) (lit "server_up") = Some (JBool false)
         /\ prop (offline e) (lit "data_loaded") = Some (JBool false)
         /\ prop (offline e) (lit "index_ready") = Some (JBool false)
         /\ prop (offline e) (lit "error") = Some (JStr (message e)))
  /\ (forall (S : Type) (e : Error) (s : S),
         getAIStatus (Throw e) s = (Throw e, s))
  /\ (forall w s,
         exists r s', getAIStatus (Ok (Azure.checkStatus w)) s = (Ok r, s')
                      /\ ok_or_error r)
  /\ (forall w s,
         exists r s', getAIStatus (Ok (Ollama.checkStatus w)) s = (Ok r, s')
                      /\ ok_or_error r)
  /\ (forall (S : Type) (check : M S Status) (s : S),
         getAIStatus (Ok check) s = check s)
  /\ (forall w s, getAIStatus (Ok (Azure.checkStatus w)) s = Azure.checkStatus w s)
  /\ (forall w s,
         getAIStatus (Ok (Ollama.checkStatus w)) s = Ollama.checkStatus w s)
  /\ (forall (w : World) (S : Type) (s : S),
         exists r,
           checkStatus w s = (Ok r, s)
           /\ (forall data,
                  axios_get w (baseUrl w ++ lit "/status") = Ok data -> r = data)
           /\ (forall e,
                  axios_get w (baseUrl w ++ lit "/status") = Throw e ->
                  r = Some (JObj [(lit "server_up", JBool false);
                                  (lit "data_loaded", JBool false);
                                  (lit "index_ready", JBool false);
                                  (lit "error", JStr (message e))]))).
Proof.
  assert (G : forall (S : Type) (check : M S Status) (s : S),
             getAIStatus (Ok check) s = check s).
  { intros S check s. unfold getAIStatus, Generate.rethrow. unfold_monad.
    destruct (check s) as [[r|e] s']; reflexivity. }
  split; [|split; [|split; [|split; [|split; [|split; [|split; [|split]]]]]]].
  - intros w S s. unfold checkStatus. unfold_monad.
    destruct (axios_get w _); reflexivity.
  - intros e. repeat split.
  - intros S e s. reflexivity.
  - intros w s. apply getAIStatus_of_returning, azure_checkStatus_returns.
  - intros w s. apply getAIStatus_of_returning, ollama_checkStatus_returns.
  - exact G.
  - intros w s. apply G.
  - intros w s. apply G.
  - intros w S s. unfold checkStatus. unfold_monad.
    destruct (axios_get w (baseUrl w ++ lit "/status")) as [data|e];
      eexists; (split; [reflexivity|]); split; intros x H;
      first [discriminate | injection H as <-; reflexivity].
Qed.

(** The retrieval service that does not answer: the offline record. *)
Lemma status_calls_report_instead_of_throwing_witness :
  checkStatus MoreExamples.rag_service_down tt
  = (Ok (Some (JObj [(lit "server_up", JBool false);
                     (lit "data_loaded", JBool false);
                     (lit "index_ready", JBool false);
                     (lit "error",
                      JStr (lit "connect ECONNREFUSED 127.0.0.1:8000"))])),
     tt).
Proof.
  destruct (proj2 (proj2 (proj2 (proj2 (proj2 (proj2 (proj2 (proj2
              status_calls_report_instead_of_throwing)))))))
              MoreExamples.rag_service_down unit tt) as (r & E & _ & D).
  rewrite E. rewrite (D MoreExamples.connection_refused eq_refl). reflexivity.
Defined.

Lemma assoc_last_cons (k k' : jsstring) (v : json) (l : list (jsstring * json)) :
  assoc_last k ((k', v) :: l)
  = match assoc_last k l with
    | Some x => Some x
    | None => if str_eqb k k' then Some v else None
    end.
Proof. reflexivity. Qed.

(** X13. The body of a search is the query followed by the members of the
    filters: a filter named [query] takes the place of the query argument,
    and every other name reads as it does in the filters. The base URL is
    that of the environment, or the local one when the variable is unset or
    empty. *)
Theorem search_filters_can_replace_query :
  (forall query filters,
      prop (search_body query filters) (lit "query")
      = match assoc_last (lit "query") filters with
        | Some v => Some v
        | None => Some (JStr query)
        end)
  /\ (forall query filters k,
         str_eqb k (lit "query") = false ->
         prop (search_body query filters) k = assoc_last k filters)
  /\ (forall w, nonempty (RAG_SERVICE_URL w) = false ->
                baseUrl w = lit "http://localhost:8000")
  /\ (forall w (S : Type) (s : S) query filters,
         search w query filters s
         = (axios_post w (baseUrl w ++ lit "/search")
              (Some (search_body query filters)), s))
  /\ (forall w url,
         RAG_SERVICE_URL w = Some url -> url <> [] -> baseUrl w = url)
  /\ (forall w (S : Type) (s : S) query filters url,
         RAG_SERVICE_URL w = Some url -> url <> [] ->
         search w query filters s
         = (axios_post w (url ++ lit "/search")
              (Some (JObj ((lit "query", JStr query) :: filters))), s)).
Proof.
  assert (U : forall w url,
             RAG_SERVICE_URL w = Some url -> url <> [] -> baseUrl w = url).
  { intros w url E N. unfold baseUrl. rewrite E.
    destruct url; [contradiction|reflexivity]. }
  assert (P : forall w (S : Type) (s : S) query filters,
             search w query filters s
             = (axios_post w (baseUrl w ++ lit "/search")
                  (Some (search_body query filters)), s)).
  { intros w S s query filters. unfold search, Generate.rethrow. unfold_monad.
    destruct (axios_post w _ _); reflexivity. }
  split; [|split; [|split; [|split; [|split]]]];
    [| | | |exact U
     |intros w S s query filters url E N; rewrite P, (U w url E N);
      reflexivity].
  - intros query filters. unfold search_body, prop. rewrite assoc_last_cons.
    destruct (assoc_last (lit "query") filters); reflexivity.
  - intros query filters k H. unfold search_body, prop.
    rewrite assoc_last_cons, H.
    destruct (assoc_last k filters); reflexivity.
  - intros w H. unfold baseUrl.
    destruct (RAG_SERVICE_URL w) as [[|c u]|]; [reflexivity|discriminate|reflexivity].
  - intros w S s query filters. unfold search, Generate.rethrow. unfold_monad.
    destruct (axios_post w _ _); reflexivity.
Qed.

(** No variable for the URL, and a filter named [query]. *)
Lemma search_filters_can_replace_query_witness :
  baseUrl MoreExamples.rag_service_down = lit "http://localhost:8000"
  /\ prop (search_body (lit "pool") [(lit "limit", JBool true)]) (lit "limit")
     = Some (JBool true).
Proof.
  split.
  - apply (proj1 (proj2 (proj2 search_filters_can_replace_query))). reflexivity.
  - rewrite (proj1 (proj2 search_filters_can_replace_query)); reflexivity.
Defined.

End RagAdminProps.


(** ** The prompts and the stored must-have prompt *)

Module PromptProps.
Import Js Text Eff Analysis Notions Shapes EffProps.

Lemma azure_validate_state (w : Azure.World) (d : option jsstring) (n : Z)
    (s : Azure.State) :
  snd (Azure._validateAndTruncateExternalApiData w d n s) = s.
Proof.
  unfold Azure._validateAndTruncateExternalApiData. destruct d; [|reflexivity].
  unfold_monad. repeat split_outcome; reflexivity.
Qed.

Lemma azure_validated_state (w : Azure.World) (ext : option jsstring)
    (s : Azure.State) :
  exists v,
    match ext with
    | Some _ =>
        try_catch (Azure._validateAndTruncateExternalApiData w ext 500)
          (fun _ => ret None)
    | None => ret None
    end s = (Ok v, s).
Proof.
  destruct ext as [d|]; [|exists None; reflexivity].
  pose proof (azure_validate_state w (Some d) 500 s) as H.
  unfold try_catch, ret.
  destruct (Azure._validateAndTruncateExternalApiData w (Some d) 500 s)
    as [[v|e] s1]; simpl in H; subst s1; eauto.
Qed.

(** X14. What [analyzeDocument] of the structured-output adapter makes of
    the system prompt (lines 59-142), when that part returns. The client
    and the log of requests are as before. The stored must-have prompt is
    as before in the mode that lists the existing data; in every other
    mode the first [%CUSTOMFIELDS%] in it is replaced by the custom fields,
    and the stored prompt stays so. A custom prompt, when there is one, is
    followed by the must-have prompt as it is then stored, and by nothing
    else: in the mode that lists the existing data the placeholder is not
    filled in. Without a custom prompt and with the prompt tags switched
    on, the system prompt is the fixed text about the tags followed by
    the special prompt, whatever the existing data, the configured system
    prompt and the external data are. *)
Theorem azure_system_prompt_precedence :
  forall (w : Azure.World) (tags corr types : list jsstring)
         (cp ext : option jsstring) (s s' : Azure.State)
         (sp : jsstring) (pt : option jsstring),
    Azure.build_system_prompt w tags corr types cp ext s = (Ok (sp, pt), s') ->
    Azure.client s' = Azure.client s
    /\ Azure.sent s' = Azure.sent s
    /\ (exists cf,
           Azure.customFieldsStr w = Ok cf
           /\ Azure.mustHavePrompt s'
              = if azure_lists_existing_data w
                then Azure.mustHavePrompt s
                else replace_first CUSTOMFIELDS cf (Azure.mustHavePrompt s))
    /\ (nonempty cp = true ->
        sp = env_to_string cp ++ LF ++ LF ++ Azure.mustHavePrompt s')
    /\ (nonempty cp = false -> env_is_yes (Azure.USE_PROMPT_TAGS w) = true ->
        sp = Azure.prompt_tags_block ++ Azure.specialPromptPreDefinedTags w)
    /\ pt = (if env_is_yes (Azure.USE_PROMPT_TAGS w)
             then Azure.PROMPT_TAGS w else Some []).
Proof.
  intros w tags corr types cp ext s s' sp pt.
  unfold Azure.build_system_prompt, azure_lists_existing_data. cbv zeta.
  intros H. apply bind_ok_inv in H. destruct H as (v & s1 & Hv & H).
  destruct (azure_validated_state w ext s) as (v' & Hv').
  rewrite Hv' in Hv. injection Hv as -> ->.
  revert H. unfold_monad.
  destruct (Azure.customFieldsStr w) as [cf|e]; [|discriminate].
  destruct (is_yes (Azure.useExistingData w)
            && is_no (Azure.restrictToExistingTags w)
            && is_no (Azure.restrictToExistingCorrespondents w));
    cbv beta iota;
    (destruct (Azure.processRestrictionsInPrompt w _ tags corr) as [r|e];
     [|discriminate]);
    intros H; injection H as <- <- <-;
    (split; [reflexivity|]); (split; [reflexivity|]);
    (split; [exists cf; split; reflexivity|]);
    (split; [intros ->; reflexivity|]);
    (split; [intros -> ->; reflexivity|reflexivity]).
Qed.

(** A custom prompt in the mode that lists the existing data. *)
Lemma azure_system_prompt_precedence_witness :
  fst (Azure.build_system_prompt (Examples.azure_world 1000 100)
         [] [] [] (Some (lit "Sort it.")) None Examples.azure_ready)
  = Ok (lit "Sort it." ++ LF ++ LF
        ++ lit "Return one JSON object. %CUSTOMFIELDS%", Some []).
Proof.
  destruct (Azure.build_system_prompt (Examples.azure_world 1000 100)
              [] [] [] (Some (lit "Sort it.")) None Examples.azure_ready)
    as [[[sp pt]|e] s'] eqn:E; [|vm_compute in E; discriminate].
  destruct (@azure_system_prompt_precedence (Examples.azure_world 1000 100)
              [] [] [] (Some (lit "Sort it.")) None Examples.azure_ready
              s' sp pt E)
    as (_ & _ & (cf & _ & M) & C & _ & T).
  cbn [fst]. rewrite (C eq_refl), M, T. reflexivity.
Defined.




Lemma expand_plain (before matched after t rest : jsstring) :
  no_dollar t ->
  expand before matched after false (t ++ rest)
  = t ++ expand before matched after false rest.
Proof.
  induction 1 as [|c t Hc _ IH]; [reflexivity|].
  cbn [app expand]. destruct (N.eqb_spec c 36) as [E|_]; [contradiction|].
  rewrite IH. reflexivity.
Qed.

Lemma expand_matched (before matched after rest : jsstring) :
  expand before matched after false (lit "$&" ++ rest)
  = matched ++ expand before matched after false rest.
Proof. reflexivity. Qed.

Lemma generateSystemPrompt_expands (cf : jsstring) :
  Ollama._generateSystemPrompt cf
  = template_before
    ++ expand template_before CUSTOMFIELDS template_after false cf
    ++ template_after.
Proof. vm_compute. reflexivity. Qed.

(** X19. [_generateSystemPrompt] puts the custom fields where the template
    has its placeholder, between the same two texts whatever the fields
    are. Custom fields without a dollar sign are put there as they are.
    The fields being the replacement text of [replace], a [$&] in them is
    not: it comes out as the placeholder itself. *)
Theorem system_prompt_holds_custom_fields :
  Ollama.systemPromptTemplate = template_before ++ CUSTOMFIELDS ++ template_after
  /\ (forall cf,
         no_dollar cf ->
         Ollama._generateSystemPrompt cf = template_before ++ cf ++ template_after)
  /\ (forall a b,
         no_dollar a -> no_dollar b ->
         Ollama._generateSystemPrompt (a ++ lit "$&" ++ b)
         = template_before ++ (a ++ CUSTOMFIELDS ++ b) ++ template_after).
Proof.
  split; [vm_compute; reflexivity|]. split.
  - intros cf H. rewrite generateSystemPrompt_expands.
    rewrite <- (app_nil_r cf) at 1. rewrite (expand_plain _ _ _ [] H).
    cbn [expand]. rewrite app_nil_r. reflexivity.
  - intros a b Ha Hb. rewrite generateSystemPrompt_expands.
    rewrite (expand_plain _ _ _ _ Ha), expand_matched.
    rewrite <- (app_nil_r b) at 1. rewrite (expand_plain _ _ _ [] Hb).
    cbn [expand]. rewrite app_nil_r. reflexivity.
Qed.

(** The custom fields of the example deployment. *)
Lemma system_prompt_holds_custom_fields_witness :
  Ollama._generateSystemPrompt (litq "^custom_fields^: {}")
  = template_before ++ litq "^custom_fields^: {}" ++ template_after.
Proof.
  apply (proj1 (proj2 system_prompt_holds_custom_fields)).
  unfold no_dollar. repeat constructor; discriminate.
Defined.

End PromptProps.

(** ** One request for one call *)

Module CountProps.
Import Js Text Eff Analysis Notions Shapes EffProps.

Section CountRules.
Variables (S R : Type) (tr : S -> list R).

Lemma at_most_preserves (n : nat) {A} (m : M S A) :
  preserves tr m -> logs_at_most tr n m.
Proof.
  intros H s. exists []. rewrite app_nil_r. split; [apply H|apply Nat.le_0_l].
Qed.

Lemma at_most_bind_pre (n : nat) {A B} (m : M S A) (k : A -> M S B) :
  preserves tr m -> (forall a, logs_at_most tr n (k a)) ->
  logs_at_most tr n (bind m k).
Proof.
  intros Hm Hk s. unfold bind. specialize (Hm s).
  destruct (m s) as [[a|e] s1]; simpl in *.
  - destruct (Hk a s1) as (l & E & L). exists l. rewrite E, Hm. auto.
  - exists []. rewrite app_nil_r. split; [exact Hm|apply Nat.le_0_l].
Qed.

Lemma at_most_try_catch (n : nat) {A} (m : M S A) (h : Error -> M S A) :
  logs_at_most tr n m -> (forall e, preserves tr (h e)) ->
  logs_at_most tr n (try_catch m h).
Proof.
  intros Hm Hh s. unfold try_catch. destruct (Hm s) as (l & E & L).
  destruct (m s) as [[a|e] s1]; simpl in *.
  - exists l. auto.
  - exists l. rewrite Hh. auto.
Qed.

(** An entry is logged, then the rest leaves the log alone. *)
Lemma at_most_logged {A B} (f : S -> S) (r : R) (o : Outcome A)
    (k : A -> M S B) :
  (forall s, tr (f s) = tr s ++ [r]) -> (forall a, preserves tr (k a)) ->
  logs_at_most tr 1 (bind (bind (modify f) (fun _ => await o)) k).
Proof.
  intros Hf Hk s. exists [r]. split; [|apply Nat.le_refl].
  unfold bind, modify, await. destruct o as [a|e]; simpl.
  - rewrite Hk. apply Hf.
  - apply Hf.
Qed.
End CountRules.

Lemma rethrow_preserves {S R A} (tr : S -> list R) (e : Error) :
  preserves tr (@Generate.rethrow S A e).
Proof. intros s. reflexivity. Qed.

Lemma azure_create_once (w : Azure.World) (r : Azure.Request) {A}
    (k : option json -> M Azure.State A) :
  (forall a, preserves Azure.sent (k a)) ->
  logs_at_most Azure.sent 1 (bind (Azure.create w r) k).
Proof.
  intros Hk. unfold Azure.create.
  apply at_most_logged with (r := r); [|exact Hk].
  intros s. reflexivity.
Qed.

Lemma ollama_call_once (w : Ollama.World) (p systemPrompt : jsstring)
    (numCtx : Z) (schema : Ollama.Schema) {A} (k : json -> M Ollama.State A) :
  (forall a, preserves Ollama.sent (k a)) ->
  logs_at_most Ollama.sent 1
    (bind (Ollama._callOllamaAPI w p systemPrompt numCtx schema) k).
Proof.
  intros Hk s.
  exists [Ollama.generate_request w p systemPrompt numCtx schema].
  split; [|apply Nat.le_refl].
  unfold Ollama._callOllamaAPI. unfold_monad.
  destruct (Ollama.client_post w _) as [[d|]|e]; try reflexivity.
  destruct (truthy d); [|reflexivity].
  rewrite Hk. reflexivity.
Qed.

Lemma ollama_checkStatus_preserves (w : Ollama.World) :
  preserves Ollama.sent (Ollama.checkStatus w).
Proof. unfold Ollama.checkStatus. preserves_tac. Qed.

Ltac azure_prelude :=
  apply at_most_bind_pre; [apply AzureProps.initialize_preserves|intros _];
  apply at_most_bind_pre; [apply preserves_get|intros ?];
  match goal with
  | |- logs_at_most _ _ (if ?b then _ else _) =>
      destruct b; [apply at_most_preserves, preserves_throw|]
  end.

(** X16. No call retries. Whatever the collaborators answer, a call of
    [analyzeDocument], [analyzePlayground], [generateText] or [checkStatus]
    of the structured-output adapter sends at most one request to the
    backend, and so does a call of [analyzeDocument], [analyzePlayground]
    or [generateText] of the free-text adapter, also when the reply has to
    be parsed a second time after the repair; [checkStatus] of the
    free-text adapter posts nothing to the generate endpoint. *)
Theorem one_request_per_call :
  (forall w content tags corr types id cp ext,
      logs_at_most Azure.sent 1
        (Azure.analyzeDocument w content tags corr types id cp ext))
  /\ (forall w content prompt,
         logs_at_most Azure.sent 1 (Azure.analyzePlayground w content prompt))
  /\ (forall w rag prompt t,
         logs_at_most Azure.sent 1 (Generate.azure_generateText w rag prompt t))
  /\ (forall w, logs_at_most Azure.sent 1 (Azure.checkStatus w))
  /\ (forall w content tags corr types id cp ext,
         logs_at_most Ollama.sent 1
           (Ollama.analyzeDocument w content tags corr types id cp ext))
  /\ (forall w content prompt,
         logs_at_most Ollama.sent 1 (Ollama.analyzePlayground w content prompt))
  /\ (forall w prompt t,
         logs_at_most (fun s : Generate.TextState => s) 1
           (Generate.ollama_generateText w prompt t))
  /\ (forall w, logs_at_most Ollama.sent 0 (Ollama.checkStatus w)).
Proof.
  repeat split.
  - intros w content tags corr types id cp ext.
    unfold Azure.analyzeDocument.
    apply at_most_try_catch; [|intros e; apply preserves_ret].
    unfold Azure.analyzeDocument_try. azure_prelude.
    apply at_most_bind_pre;
      [apply AzureProps.cache_thumbnail_preserves|intros _].
    apply at_most_bind_pre;
      [apply AzureProps.build_system_prompt_preserves|intros sp].
    cbv zeta. apply at_most_bind_pre; [apply preserves_await|intros t].
    destruct (_ <=? 0)%Z; [apply at_most_preserves, preserves_throw|].
    apply at_most_bind_pre; [apply preserves_await|intros c].
    apply at_most_bind_pre; [apply preserves_await|intros _].
    apply azure_create_once. intros ?. apply AzureProps.read_response_preserves.
  - intros w content prompt. unfold Azure.analyzePlayground.
    apply at_most_try_catch; [|intros e; apply preserves_ret].
    unfold Azure.analyzePlayground_try. azure_prelude.
    apply at_most_bind_pre; [apply preserves_await|intros t]. cbv zeta.
    apply at_most_bind_pre; [apply preserves_await|intros c].
    apply azure_create_once. intros ?. apply AzureProps.read_response_preserves.
  - intros w rag prompt t. unfold Generate.azure_generateText.
    apply at_most_try_catch; [|intros e; apply rethrow_preserves].
    azure_prelude. apply azure_create_once. intros ?. preserves_tac.
  - intros w. unfold Azure.checkStatus.
    apply at_most_try_catch; [|intros e; apply preserves_ret].
    azure_prelude. apply azure_create_once. intros ?. preserves_tac.
  - intros w content tags corr types id cp ext.
    unfold Ollama.analyzeDocument.
    apply at_most_try_catch; [|intros e; apply preserves_ret].
    unfold Ollama.analyzeDocument_try. cbv zeta.
    apply at_most_bind_pre; [apply OllamaProps.thumbnail_preserves|intros _].
    apply at_most_bind_pre.
    { destruct (negb (nonempty cp));
        [apply OllamaProps.buildPrompt_preserves|preserves_tac]. }
    intros p. apply at_most_bind_pre; [apply preserves_await|intros cf].
    apply ollama_call_once. intros d. preserves_tac.
    apply OllamaProps.processOllamaResponse_preserves.
  - intros w content prompt. unfold Ollama.analyzePlayground.
    apply at_most_try_catch; [|intros e; apply preserves_ret].
    unfold Ollama.analyzePlayground_try.
    apply at_most_bind_pre; [apply preserves_await|intros n]. cbv zeta.
    apply ollama_call_once. intros d. preserves_tac.
    apply OllamaProps.processOllamaResponse_preserves.
  - intros w prompt t. unfold Generate.ollama_generateText. cbv zeta.
    apply at_most_try_catch; [|intros e; apply rethrow_preserves].
    apply at_most_logged
      with (r := Generate.ollama_text_request w prompt t);
      [intros s; reflexivity|].
    intros d. preserves_tac.
  - intros w. apply at_most_preserves, ollama_checkStatus_preserves.
Qed.

End CountProps.

(** ** Code fences and quoted content *)

Module QuoteProps.
Import Js Json Text.

Lemma trim_start_line_feed (b : jsstring) :
  trim_start (b ++ [10%N])
  = match trim_start b with
    | [] => []
    | c :: t => (c :: t) ++ [10%N]
    end.
Proof.
  induction b as [|c b IH]; [reflexivity|].
  cbn [app trim_start]. destruct (is_space c); [exact IH|reflexivity].
Qed.

Lemma trim_line_feed (b : jsstring) : trim (b ++ [10%N]) = trim b.
Proof.
  unfold trim. rewrite trim_start_line_feed.
  destruct (trim_start b) as [|c t]; [reflexivity|].
  rewrite rev_app_distr. reflexivity.
Qed.

Lemma match_fence_other (f s : jsstring) (c : N) :
  c <> 96%N -> match_fence (96%N :: f) (c :: s) = None.
Proof.
  intros H. unfold match_fence. cbn [starts_with].
  destruct (N.eqb_spec 96 c) as [E|_]; [congruence|reflexivity].
Qed.

Lemma replace_fence_body (f body t : jsstring) :
  Forall (fun c => c <> 96%N) body ->
  replace_all (match_fence (96%N :: f)) 0 (body ++ t)
  = body ++ replace_all (match_fence (96%N :: f)) 0 t.
Proof.
  induction 1 as [|c body Hc _ IH]; [reflexivity|].
  cbn [app replace_all]. rewrite (match_fence_other f _ Hc), IH. reflexivity.
Qed.

Lemma replace_fence_none (f body : jsstring) :
  Forall (fun c => c <> 96%N) body ->
  replace_all (match_fence (96%N :: f)) 0 body = body.
Proof.
  intros H. rewrite <- (app_nil_r body) at 1.
  rewrite (replace_fence_body f [] H). apply app_nil_r.
Qed.

Lemma json_fence_head (t : jsstring) :
  replace_all (match_fence (lit "```json")) 0 (lit "```json" ++ LF ++ t)
  = replace_all (match_fence (lit "```json")) 0 t.
Proof. reflexivity. Qed.

Lemma json_fence_on_plain_head (t : jsstring) :
  replace_all (match_fence (lit "```json")) 0 (lit "```" ++ LF ++ t)
  = lit "```" ++ LF ++ replace_all (match_fence (lit "```json")) 0 t.
Proof. reflexivity. Qed.

Lemma plain_fence_head (t : jsstring) :
  replace_all (match_fence (lit "```")) 0 (lit "```" ++ LF ++ t)
  = replace_all (match_fence (lit "```")) 0 t.
Proof. reflexivity. Qed.

(** The closing fence is taken by the second pattern, and the line feed
    before it stays. *)
Lemma closing_fence (body : jsstring) :
  Forall (fun c => c <> 96%N) body ->
  replace_all (match_fence (lit "```")) 0
    (replace_all (match_fence (lit "```json")) 0 (body ++ LF ++ lit "```"))
  = body ++ LF.
Proof.
  intros H.
  change (lit "```json") with (96%N :: lit "``json").
  change (lit "```") with (96%N :: lit "``").
  rewrite (replace_fence_body (lit "``json") (LF ++ 96%N :: lit "``") H).
  change (replace_all (match_fence (96%N :: lit "``json")) 0
            (LF ++ 96%N :: lit "``"))
    with (LF ++ 96%N :: lit "``").
  rewrite (replace_fence_body (lit "``") (LF ++ 96%N :: lit "``") H).
  reflexivity.
Qed.

(** X17. What lines 199 and 325 make of a reply whose body holds no
    backtick: without fences the reply is only trimmed, and between
    [```json] or [```] with a line feed and a line feed with [```] the
    body comes out as if it had been sent bare. *)
Theorem fenced_reply_reads_as_bare :
  forall body : jsstring,
    Forall (fun c => c <> 96%N) body ->
    strip_code_fences body = trim body
    /\ strip_code_fences (lit "```json" ++ LF ++ body ++ LF ++ lit "```")
       = trim body
    /\ strip_code_fences (lit "```" ++ LF ++ body ++ LF ++ lit "```")
       = trim body.
Proof.
  intros body H. unfold strip_code_fences. split; [|split].
  - change (lit "```json") with (96%N :: lit "``json").
    change (lit "```") with (96%N :: lit "``").
    rewrite (replace_fence_none (lit "``json") H).
    rewrite (replace_fence_none (lit "``") H). reflexivity.
  - rewrite json_fence_head, (closing_fence H). apply trim_line_feed.
  - rewrite json_fence_on_plain_head, plain_fence_head, (closing_fence H).
    apply trim_line_feed.
Qed.

(** An empty object between fences. *)
Lemma fenced_reply_reads_as_bare_witness :
  strip_code_fences (lit "```json" ++ LF ++ lit "{}" ++ LF ++ lit "```")
  = lit "{}".
Proof.
  rewrite (proj1 (proj2 (fenced_reply_reads_as_bare (body := lit "{}")
                           ltac:(repeat constructor; discriminate)))).
  reflexivity.
Defined.

Lemma lex_silent (st st' : lexstate) (c : N) (s : jsstring) :
  step st c = Some (st', []) -> lex st (c :: s) = lex st' s.
Proof.
  intros H. cbn [lex]. rewrite H. destruct (lex st' s); reflexivity.
Qed.

Lemma hex_val_digit (n : N) : (n < 16)%N -> hex_val (hex_digit n) = Some n.
Proof.
  intros H. destruct n as [|p]; [reflexivity|].
  do 4 (destruct p as [p|p|]; try reflexivity); exfalso; lia.
Qed.

Lemma hex_digits_value (c : N) :
  (c < 65536)%N ->
  ((((0 * 16 + c / 4096 mod 16) * 16 + c / 256 mod 16) * 16
    + c / 16 mod 16) * 16 + c mod 16 = c)%N.
Proof.
  intros H.
  pose proof (N.div_mod c 16 ltac:(discriminate)) as E0.
  pose proof (N.div_mod (c / 16) 16 ltac:(discriminate)) as E1.
  pose proof (N.div_mod (c / 16 / 16) 16 ltac:(discriminate)) as E2.
  pose proof (N.mod_lt c 16 ltac:(discriminate)).
  pose proof (N.mod_lt (c / 16) 16 ltac:(discriminate)).
  pose proof (N.mod_lt (c / 16 / 16) 16 ltac:(discriminate)).
  assert (D2 : (c / 256 = c / 16 / 16)%N)
    by (rewrite N.Div0.div_div; reflexivity).
  assert (D3 : (c / 4096 = c / 16 / 16 / 16)%N)
    by (rewrite !N.Div0.div_div; reflexivity).
  assert (L : (c / 16 / 16 / 16 < 16)%N).
  { rewrite <- D3. apply N.Div0.div_lt_upper_bound. exact H. }
  rewrite D3, D2, (N.mod_small _ _ L).
  pose proof (N.div_mod (c / 16 / 16) 16 ltac:(discriminate)) as E3.
  lia.
Qed.

Lemma lex_unicode_escape (acc rest : jsstring) (c : N) :
  (c < 65536)%N ->
  lex (LStr acc) (unicode_escape c ++ rest) = lex (LStr (c :: acc)) rest.
Proof.
  intros H. unfold unicode_escape. cbn [app].
  rewrite (@lex_silent (LStr acc) (LEsc acc)) by reflexivity.
  rewrite (@lex_silent (LEsc acc) (LUni acc 3 0)) by reflexivity.
  assert (M : forall x, (x mod 16 < 16)%N)
    by (intros x; apply N.mod_lt; discriminate).
  rewrite (@lex_silent (LUni acc 3 0)
             (LUni acc 2 (0 * 16 + c / 4096 mod 16)))
    by (cbn [step]; rewrite (hex_val_digit (M _)); reflexivity).
  rewrite (@lex_silent (LUni acc 2 _)
             (LUni acc 1 ((0 * 16 + c / 4096 mod 16) * 16 + c / 256 mod 16)))
    by (cbn [step]; rewrite (hex_val_digit (M _)); reflexivity).
  rewrite (@lex_silent (LUni acc 1 _)
             (LUni acc 0 (((0 * 16 + c / 4096 mod 16) * 16 + c / 256 mod 16)
                          * 16 + c / 16 mod 16)))
    by (cbn [step]; rewrite (hex_val_digit (M _)); reflexivity).
  rewrite (@lex_silent (LUni acc 0 _)
             (LStr (((((0 * 16 + c / 4096 mod 16) * 16 + c / 256 mod 16)
                      * 16 + c / 16 mod 16) * 16 + c mod 16)%N :: acc)))
    by (cbn [step]; rewrite (hex_val_digit (M _)); reflexivity).
  rewrite (hex_digits_value H). reflexivity.
Qed.

(** A code unit that is written as it is. *)
Lemma lex_plain (acc rest : jsstring) (c : N) :
  (32 <= c)%N -> c <> 34%N -> c <> 92%N ->
  lex (LStr acc) (c :: rest) = lex (LStr (c :: acc)) rest.
Proof.
  intros H1 H2 H3. apply lex_silent. cbn [step].
  destruct (N.eqb_spec c 34); [contradiction|].
  destruct (N.eqb_spec c 92); [contradiction|].
  destruct (N.ltb_spec c 32); [lia|reflexivity].
Qed.

Ltac two_unit_escape a b :=
  match goal with
  | |- lex _ (?q ++ ?rest) = _ => change (q ++ rest) with (a :: b :: rest)
  end;
  do 2 (erewrite lex_silent by reflexivity); reflexivity.

Lemma lex_quote_unit (acc rest : jsstring) (c : N) :
  lex (LStr acc) (quote_unit c ++ rest) = lex (LStr (c :: acc)) rest.
Proof.
  unfold quote_unit.
  destruct (N.eqb_spec c 8) as [->|N8]; [two_unit_escape 92%N 98%N|].
  destruct (N.eqb_spec c 9) as [->|N9]; [two_unit_escape 92%N 116%N|].
  destruct (N.eqb_spec c 10) as [->|N10]; [two_unit_escape 92%N 110%N|].
  destruct (N.eqb_spec c 12) as [->|N12]; [two_unit_escape 92%N 102%N|].
  destruct (N.eqb_spec c 13) as [->|N13]; [two_unit_escape 92%N 114%N|].
  destruct (N.eqb_spec c 34) as [->|N34]; [two_unit_escape 92%N 34%N|].
  destruct (N.eqb_spec c 92) as [->|N92]; [two_unit_escape 92%N 92%N|].
  destruct (N.ltb_spec c 32) as [L|L];
    [apply lex_unicode_escape; lia|].
  destruct (is_high c || is_low c) eqn:Sg.
  - apply lex_unicode_escape. unfold is_high, is_low in Sg.
    apply Bool.orb_true_iff in Sg.
    destruct Sg as [Sg|Sg]; apply Bool.andb_true_iff in Sg;
      destruct Sg as [_ Sg]; apply N.leb_le in Sg; lia.
  - apply lex_plain; assumption.
Qed.

Lemma lex_quote_body (n : nat) :
  forall (s acc : jsstring),
    (List.length s <= n)%nat ->
    lex (LStr acc) (quote_body s ++ [34%N]) = Some [TStr (rev acc ++ s)].
Proof.
  induction n as [|n IH]; intros s acc L.
  - destruct s; [|simpl in L; lia]. cbn. rewrite app_nil_r. reflexivity.
  - destruct s as [|c [|d s]].
    + cbn. rewrite app_nil_r. reflexivity.
    + cbn [quote_body]. rewrite lex_quote_unit. cbn. reflexivity.
    + change (quote_body (c :: d :: s))
        with (if is_high c && is_low d then c :: d :: quote_body s
              else quote_unit c ++ quote_body (d :: s)).
      destruct (is_high c && is_low d) eqn:P.
      * apply Bool.andb_true_iff in P. destruct P as [Hc Hd].
        unfold is_high in Hc. unfold is_low in Hd.
        apply Bool.andb_true_iff in Hc. apply Bool.andb_true_iff in Hd.
        destruct Hc as [Hc _]. destruct Hd as [Hd _].
        apply N.leb_le in Hc. apply N.leb_le in Hd.
        cbn [app]. rewrite lex_plain by lia. rewrite lex_plain by lia.
        rewrite IH by (simpl in L; lia).
        cbn [rev]. rewrite <- !app_assoc. reflexivity.
      * rewrite <- app_assoc, lex_quote_unit.
        rewrite IH by (simpl in L |- *; lia).
        cbn [rev]. rewrite <- app_assoc. reflexivity.
Qed.

(** X18. The content that the free-text adapter quotes into its prompt
    with [JSON.stringify] is a JSON text that reads back as the content:
    parsing it gives the string itself, whatever code units it holds:
    quotes, backslashes, control characters, lone or paired surrogates. *)
Theorem quoted_content_parses_back :
  forall content : jsstring,
    Json.parse (Json.stringify_string content) = Some (JStr content).
Proof.
  intros content. unfold Json.parse, stringify_string.
  rewrite (@lex_silent LDefault (LStr [])) by reflexivity.
  rewrite (@lex_quote_body (List.length content) content []
             (Nat.le_refl (List.length content))).
  reflexivity.
Qed.

End QuoteProps.

(** ** From the reply to the result *)

Module ReplyProps.
Import Js Text Eff Analysis Notions Shapes EffProps.

Lemma read_response_reads (reply : option json) (cut content : jsstring)
    (s s' : Azure.State) (r : AnalysisResult) :
  Azure.read_response reply cut content s = (Ok r, s') ->
  s' = s /\ read_off reply cut content r.
Proof.
  unfold Azure.read_response, read_off, Azure.probe_content.
  set (c := opt_prop (opt_prop (opt_index0 (opt_prop reply (lit "choices")))
                        (lit "message")) (lit "content")).
  unfold_monad.
  destruct (negb (truthy_opt c)); [discriminate|].
  destruct (opt_prop reply (lit "usage")) as [usage|]; [|discriminate].
  unfold Azure.json_string.
  destruct c as [[| | |text| |]|]; try (destruct usage; discriminate).
  destruct (Json.parse (strip_code_fences text)) as [v|] eqn:P;
    [|destruct usage; discriminate].
  destruct (negb (truthy v) || _ || _); [destruct usage; discriminate|].
  destruct usage; try discriminate; intros H; injection H as <- <-;
    (split; [reflexivity|]); eexists; eexists; repeat split; eauto.
Qed.

(** A step that returned and leaves the log alone. *)
Lemma bind_preserved {A B} (m : M Azure.State A) (k : A -> M Azure.State B)
    (s s' : Azure.State) (b : B) :
  bind m k s = (Ok b, s') ->
  preserves Azure.sent m ->
  exists a s1, Azure.sent s1 = Azure.sent s /\ k a s1 = (Ok b, s').
Proof.
  intros H P. apply bind_ok_inv in H. destruct H as (a & s1 & E & H).
  exists a, s1. split; [|exact H]. specialize (P s). rewrite E in P. exact P.
Qed.

Lemma create_then (w : Azure.World) (req : Azure.Request) {B}
    (k : option json -> M Azure.State B) (s s' : Azure.State) (b : B) :
  bind (Azure.create w req) k s = (Ok b, s') ->
  exists reply,
    Azure.chat_completions_create w req = Ok reply
    /\ k reply (Azure.log_request req s) = (Ok b, s').
Proof.
  unfold Azure.create. unfold_monad.
  destruct (Azure.chat_completions_create w req) as [reply|e]; [|discriminate].
  intros H. exists reply. auto.
Qed.

Lemma azure_try_reads (w : Azure.World) (content : jsstring)
    (tags corr types : list jsstring) (id : option json)
    (cp ext : option jsstring) (s s' : Azure.State) (r : AnalysisResult) :
  Azure.analyzeDocument_try w content tags corr types id cp ext s = (Ok r, s') ->
  exists req cut reply,
    one_more_request s s' req cut
    /\ Azure.chat_completions_create w req = Ok reply
    /\ read_off reply cut content r.
Proof.
  unfold Azure.analyzeDocument_try. intros H.
  apply bind_preserved in H;
    [|apply (AzureProps.initialize_preserves w)].
  destruct H as (_ & s1 & E1 & H).
  apply bind_preserved in H;
    [|apply (@preserves_get _ _ Azure.sent)].
  destruct H as (s0 & s2 & E2 & H).
  destruct (negb (Azure.client s0)); [discriminate|].
  apply bind_preserved in H;
    [|apply (AzureProps.cache_thumbnail_preserves w id)].
  destruct H as (_ & s3 & E3 & H).
  apply bind_preserved in H;
    [|apply (AzureProps.build_system_prompt_preserves w tags corr types cp ext)].
  destruct H as (sp & s4 & E4 & H). cbv zeta in H.
  apply bind_preserved in H;
    [|apply (preserves_await Azure.sent _)].
  destruct H as (t & s5 & E5 & H).
  destruct (_ <=? 0)%Z; [discriminate|].
  apply bind_preserved in H;
    [|apply (preserves_await Azure.sent _)].
  destruct H as (cut & s6 & E6 & H).
  apply bind_preserved in H;
    [|apply (preserves_await Azure.sent _)].
  destruct H as (_ & s7 & E7 & H).
  apply create_then in H. destruct H as (reply & C & H).
  apply read_response_reads in H. destruct H as (-> & R).
  eexists _, cut, reply. split; [|split; [exact C|exact R]].
  split; [|eexists; reflexivity].
  cbn [Azure.log_request Azure.sent]. congruence.
Qed.

Lemma azure_playground_try_reads (w : Azure.World) (content prompt : jsstring)
    (s s' : Azure.State) (r : AnalysisResult) :
  Azure.analyzePlayground_try w content prompt s = (Ok r, s') ->
  exists req cut reply,
    one_more_request s s' req cut
    /\ Azure.chat_completions_create w req = Ok reply
    /\ read_off reply cut content r.
Proof.
  unfold Azure.analyzePlayground_try. intros H.
  apply bind_preserved in H;
    [|apply (AzureProps.initialize_preserves w)].
  destruct H as (_ & s1 & E1 & H).
  apply bind_preserved in H;
    [|apply (@preserves_get _ _ Azure.sent)].
  destruct H as (s0 & s2 & E2 & H).
  destruct (negb (Azure.client s0)); [discriminate|].
  apply bind_preserved in H;
    [|apply (preserves_await Azure.sent _)].
  destruct H as (t & s5 & E5 & H). cbv zeta in H.
  apply bind_preserved in H;
    [|apply (preserves_await Azure.sent _)].
  destruct H as (cut & s6 & E6 & H).
  apply create_then in H. destruct H as (reply & C & H).
  apply read_response_reads in H. destruct H as (-> & R).
  eexists _, cut, reply. split; [|split; [exact C|exact R]].
  split; [|eexists; reflexivity].
  cbn [Azure.log_request Azure.sent]. congruence.
Qed.

Lemma caught_without_error {S} (m : M S AnalysisResult) (s s' : S)
    (r : AnalysisResult) :
  try_catch m (fun e => ret (failure e)) s = (Ok r, s') ->
  error r = None -> m s = (Ok r, s').
Proof.
  rewrite try_catch_ret. destruct (m s) as [[a|e] s1]; intros H N.
  - exact H.
  - injection H as <- _. discriminate.
Qed.

(** X20. A result of the structured-output adapter that carries no error
    is read off the one reply to the one request of the call: the document
    is what the content of the first choice parses to once the code fences
    are stripped, the metrics are the usage the reply reports, and
    [truncated] tells whether the user message that was sent is shorter
    than the content of the document. *)
Theorem azure_success_is_read_off_the_reply :
  (forall w content tags corr types id cp ext s s' r,
      Azure.analyzeDocument w content tags corr types id cp ext s = (Ok r, s') ->
      error r = None ->
      exists req cut reply,
        one_more_request s s' req cut
        /\ Azure.chat_completions_create w req = Ok reply
        /\ read_off reply cut content r)
  /\ (forall w content prompt s s' r,
         Azure.analyzePlayground w content prompt s = (Ok r, s') ->
         error r = None ->
         exists req cut reply,
           one_more_request s s' req cut
           /\ Azure.chat_completions_create w req = Ok reply
           /\ read_off reply cut content r).
Proof.
  split.
  - intros w content tags corr types id cp ext s s' r H N.
    apply (azure_try_reads w content tags corr types id cp ext).
    apply caught_without_error; assumption.
  - intros w content prompt s s' r H N.
    apply (azure_playground_try_reads w content prompt).
    apply caught_without_error; assumption.
Qed.








(** The playground of the example deployment: the result is read off the
    reply of the example. *)
Lemma azure_success_is_read_off_the_reply_witness :
  exists req cut,
    one_more_request Examples.azure_ready
      (snd (Azure.analyzePlayground (Examples.azure_world 4096 1000)
              Examples.long_content (lit "Summarize.") Examples.azure_ready))
      req cut
    /\ read_off (Some Examples.chat_reply) cut Examples.long_content
         (match fst (Azure.analyzePlayground (Examples.azure_world 4096 1000)
                       Examples.long_content (lit "Summarize.")
                       Examples.azure_ready) with
          | Ok r => r
          | Throw e => failure e
          end).
Proof.
  destruct (Azure.analyzePlayground (Examples.azure_world 4096 1000)
              Examples.long_content (lit "Summarize.") Examples.azure_ready)
    as [[r|e] s'] eqn:E; [|exfalso; revert E; vm_compute; discriminate].
  assert (N : error r = None).
  { revert E. vm_compute. intros E. injection E as <- _. reflexivity. }
  destruct (proj2 azure_success_is_read_off_the_reply
              (Examples.azure_world 4096 1000) Examples.long_content
              (lit "Summarize.") Examples.azure_ready s' r E N)
    as (req & cut & reply & O & C & R).
  exists req, cut. split; [exact O|].
  cbn [Examples.azure_world Azure.chat_completions_create] in C.
  injection C as <-. exact R.
Defined.

End ReplyProps.

(** ** Every failure gives the error record *)

Module FailureProps.
Import Js Text Eff Analysis Notions Shapes EffProps.

Lemma bind_run {S R A B} (tr : S -> list R) (m : M S A) (k : A -> M S B)
    (s s' : S) (o : Outcome B) :
  bind m k s = (o, s') -> preserves tr m ->
  (tr s' = tr s /\ exists e, o = Throw e)
  \/ (exists a s1, tr s1 = tr s /\ k a s1 = (o, s')).
Proof.
  intros H P. specialize (P s). unfold bind in H.
  destruct (m s) as [[a|e] s1]; simpl in P.
  - right. exists a, s1. auto.
  - left. injection H as <- <-. split; [exact P|eauto].
Qed.

Lemma create_bind (w : Azure.World) (r : Azure.Request) {B}
    (k : option json -> M Azure.State B) (s : Azure.State) :
  bind (Azure.create w r) k s
  = bind (await (Azure.chat_completions_create w r)) k (Azure.log_request r s).
Proof. reflexivity. Qed.

Ltac azure_step P :=
  match goal with
  | H : bind _ _ _ = (_, _) |- _ =>
      eapply bind_run with (tr := Azure.sent) in H; [|apply P];
      destruct H as [[?E ?X]|(?a & ?s1 & ?E & H)];
      [left; split; [congruence|assumption]|]
  end.

Ltac thrown :=
  match goal with
  | H : throw _ _ = (_, _) |- _ =>
      unfold throw in H; injection H as <- <-;
      left; split; [congruence|eauto]
  end.

Lemma azure_document_anatomy (w : Azure.World) (content : jsstring)
    (tags corr types : list jsstring) (id : option json)
    (cp ext : option jsstring) (s s' : Azure.State)
    (o : Outcome AnalysisResult) :
  Azure.analyzeDocument_try w content tags corr types id cp ext s = (o, s') ->
  (Azure.sent s' = Azure.sent s /\ exists e, o = Throw e)
  \/ (exists req cut s0,
         Azure.sent s0 = Azure.sent s ++ [req]
         /\ bind (await (Azure.chat_completions_create w req))
              (fun response => Azure.read_response response cut content) s0
            = (o, s')).
Proof.
  unfold Azure.analyzeDocument_try. intros H.
  azure_step (AzureProps.initialize_preserves w).
  azure_step (@preserves_get _ _ Azure.sent).
  destruct (negb (Azure.client a0)); [thrown|].
  azure_step (AzureProps.cache_thumbnail_preserves w id).
  azure_step (AzureProps.build_system_prompt_preserves w tags corr types cp ext).
  cbv zeta in H.
  azure_step (preserves_await Azure.sent
                (Azure.calculateTotalPromptTokens w (fst a2)
                   (Some (if env_is_yes (Azure.USE_PROMPT_TAGS w)
                          then [snd a2] else []))
                   (Azure.AZURE_DEPLOYMENT_NAME w))).
  destruct (_ <=? 0)%Z; [thrown|].
  match goal with
  | H : bind (await ?c) _ _ = _ |- _ =>
      azure_step (preserves_await Azure.sent c)
  end.
  match goal with
  | H : bind (await ?c) _ _ = _ |- _ =>
      azure_step (preserves_await Azure.sent c)
  end.
  rewrite create_bind in H. right.
  eexists _, _, _. split; [|exact H].
  cbn [Azure.log_request Azure.sent]. congruence.
Qed.

Lemma azure_playground_anatomy (w : Azure.World) (content prompt : jsstring)
    (s s' : Azure.State) (o : Outcome AnalysisResult) :
  Azure.analyzePlayground_try w content prompt s = (o, s') ->
  (Azure.sent s' = Azure.sent s /\ exists e, o = Throw e)
  \/ (exists req cut s0,
         Azure.sent s0 = Azure.sent s ++ [req]
         /\ bind (await (Azure.chat_completions_create w req))
              (fun response => Azure.read_response response cut content) s0
            = (o, s')).
Proof.
  unfold Azure.analyzePlayground_try. intros H.
  azure_step (AzureProps.initialize_preserves w).
  azure_step (@preserves_get _ _ Azure.sent).
  destruct (negb (Azure.client a0)); [thrown|].
  match goal with
  | H : bind (await ?c) _ _ = _ |- _ =>
      azure_step (preserves_await Azure.sent c)
  end.
  cbv zeta in H.
  match goal with
  | H : bind (await ?c) _ _ = _ |- _ =>
      azure_step (preserves_await Azure.sent c)
  end.
  rewrite create_bind in H. right.
  eexists _, _, _. split; [|exact H].
  cbn [Azure.log_request Azure.sent]. congruence.
Qed.

Lemma caught (S : Type) (m : M S AnalysisResult) (s s' : S)
    (r : AnalysisResult) :
  try_catch m (fun e => ret (failure e)) s = (Ok r, s') ->
  exists o, m s = (o, s')
            /\ r = match o with Ok a => a | Throw e => failure e end.
Proof.
  rewrite try_catch_ret. destruct (m s) as [[a|e] s1]; intros H;
    injection H as <- <-; eexists; split; reflexivity.
Qed.

Lemma not_longer {A} (l : list A) (x : A) : l <> l ++ [x].
Proof.
  intros E. apply (f_equal (@List.length A)) in E.
  rewrite length_app in E. simpl in E. lia.
Qed.

Lemma last_request {A} (l : list A) (x y : A) : l ++ [x] = l ++ [y] -> x = y.
Proof. intros E. apply app_inv_head in E. injection E as ->. reflexivity. Qed.

(** A run of an analysis: nothing was sent and the [try] block threw, or
    one request was sent and the rest is the reading of the reply. *)
Lemma azure_run (w : Azure.World) (content : jsstring)
    (m : M Azure.State AnalysisResult) (s s' : Azure.State)
    (r : AnalysisResult) :
  azure_analysis w content m ->
  m s = (Ok r, s') ->
  exists o,
    r = match o with Ok a => a | Throw e => failure e end
    /\ ((Azure.sent s' = Azure.sent s /\ exists e, o = Throw e)
        \/ (exists req cut s0,
               Azure.sent s0 = Azure.sent s ++ [req]
               /\ Azure.sent s' = Azure.sent s0
               /\ bind (await (Azure.chat_completions_create w req))
                    (fun response => Azure.read_response response cut content) s0
                  = (o, s'))).
Proof.
  intros Hm H.
  assert (T : exists o,
             r = match o with Ok a => a | Throw e => failure e end
             /\ ((Azure.sent s' = Azure.sent s /\ exists e, o = Throw e)
                 \/ (exists req cut s0,
                        Azure.sent s0 = Azure.sent s ++ [req]
                        /\ bind (await (Azure.chat_completions_create w req))
                             (fun response =>
                                Azure.read_response response cut content) s0
                           = (o, s')))).
  { destruct Hm as [(tags & corr & types & id & cp & ext & ->)|(prompt & ->)].
    - unfold Azure.analyzeDocument in H. apply caught in H.
      destruct H as (o & T & ->). exists o. split; [reflexivity|].
      apply azure_document_anatomy in T. exact T.
    - unfold Azure.analyzePlayground in H. apply caught in H.
      destruct H as (o & T & ->). exists o. split; [reflexivity|].
      apply azure_playground_anatomy in T. exact T. }
  destruct T as (o & R & [T|(req & cut & s0 & E0 & K)]).
  - exists o. split; [exact R|left; exact T].
  - exists o. split; [exact R|right]. exists req, cut, s0.
    split; [exact E0|]. split; [|exact K].
    pose proof (@preserves_bind _ _ Azure.sent _ _
                  (await (Azure.chat_completions_create w req))
                  (fun response => Azure.read_response response cut content)
                  (preserves_await Azure.sent _)
                  (fun a => AzureProps.read_response_preserves a cut content) s0)
      as P.
    rewrite K in P. exact P.
Qed.

(** Once a request is out, the result follows from the reply to it. *)
Lemma azure_after_request (w : Azure.World) (content : jsstring)
    (m : M Azure.State AnalysisResult) (s s' : Azure.State)
    (r : AnalysisResult) (req : Azure.Request) :
  azure_analysis w content m ->
  m s = (Ok r, s') -> Azure.sent s' = Azure.sent s ++ [req] ->
  exists cut s0 o,
    bind (await (Azure.chat_completions_create w req))
      (fun response => Azure.read_response response cut content) s0 = (o, s')
    /\ r = match o with Ok a => a | Throw e => failure e end.
Proof.
  intros Hm H L.
  destruct (@azure_run _ _ _ _ _ _ Hm H) as (o & R & [[E _]|(req' & cut & s0 & E0 & P & K)]).
  - exfalso. rewrite E in L. exact (@not_longer _ _ _ L).
  - rewrite P, E0 in L. apply (@last_request _ _ _ _) in L. subst req'.
    exists cut, s0, o. split; [exact K|exact R].
Qed.

Lemma azure_nothing_sent (w : Azure.World) (content : jsstring)
    (m : M Azure.State AnalysisResult) (s s' : Azure.State)
    (r : AnalysisResult) :
  azure_analysis w content m ->
  m s = (Ok r, s') -> Azure.sent s' = Azure.sent s ->
  exists e, r = failure e.
Proof.
  intros Hm H L.
  destruct (@azure_run _ _ _ _ _ _ Hm H)
    as (o & R & [[_ (e & ->)]|(req' & cut & s0 & E0 & P & K)]).
  - exists e. exact R.
  - exfalso. rewrite P, E0 in L. symmetry in L. exact (@not_longer _ _ _ L).
Qed.

Lemma read_response_no_content (reply : option json) (cut content : jsstring)
    (s : Azure.State) :
  truthy_opt (Azure.probe_content reply) = false ->
  Azure.read_response reply cut content s
  = (Throw {| message := lit "Invalid API response structure" |}, s).
Proof.
  unfold Azure.read_response, Azure.probe_content. intros ->. reflexivity.
Qed.

(** What [_callOllamaAPI] makes of the data of the reply. *)
Lemma call_bind (w : Ollama.World) (p systemPrompt : jsstring) (numCtx : Z)
    (schema : Ollama.Schema) {B} (k : json -> M Ollama.State B)
    (s : Ollama.State) :
  bind (Ollama._callOllamaAPI w p systemPrompt numCtx schema) k s
  = bind (bind (await (Ollama.client_post w
                         (Ollama.generate_request w p systemPrompt numCtx schema)))
            (fun data =>
               match data with
               | Some d => if truthy d then ret d
                           else throw (lit "Invalid response from Ollama API")
               | None => throw (lit "Invalid response from Ollama API")
               end)) k
      (Ollama.log_request
         (Ollama.generate_request w p systemPrompt numCtx schema) s).
Proof. reflexivity. Qed.

Ltac ollama_step P :=
  match goal with
  | H : bind _ _ _ = (_, _) |- _ =>
      eapply bind_run with (tr := Ollama.sent) in H; [|apply P];
      destruct H as [[?E ?X]|(?a & ?s1 & ?E & H)];
      [left; split; [congruence|assumption]|]
  end.

Lemma ollama_document_anatomy (w : Ollama.World) (content : jsstring)
    (tags : list jsstring) (corr types : list Ollama.Entry) (id : option json)
    (cp ext : option jsstring) (s s' : Ollama.State)
    (o : Outcome AnalysisResult) :
  Ollama.analyzeDocument_try w content tags corr types id cp ext s = (o, s') ->
  (Ollama.sent s' = Ollama.sent s /\ exists e, o = Throw e)
  \/ (exists req s0,
         Ollama.sent s0 = Ollama.sent s ++ [req]
         /\ bind (bind (await (Ollama.client_post w req))
                    (fun data =>
                       match data with
                       | Some d => if truthy d then ret d
                                   else throw (lit "Invalid response from Ollama API")
                       | None => throw (lit "Invalid response from Ollama API")
                       end))
              (fun d =>
                 bind (Ollama._processOllamaResponse d)
                   (fun parsed =>
                      bind (await (Ollama.writePromptToFile w (Ollama.prompt req)
                                     parsed))
                        (fun _ => ret (Ollama.success parsed)))) s0
            = (o, s')).
Proof.
  unfold Ollama.analyzeDocument_try. cbv zeta. intros H.
  ollama_step (OllamaProps.thumbnail_preserves w id).
  eapply bind_run with (tr := Ollama.sent) in H;
    [|destruct (negb (nonempty cp));
      [apply OllamaProps.buildPrompt_preserves|preserves_tac]].
  destruct H as [[E0 X0]|(p & s2 & E2 & H)];
    [left; split; [congruence|assumption]|].
  match goal with
  | H : bind ?c _ _ = _ |- _ =>
      eapply bind_run with (tr := Ollama.sent) in H;
        [|unfold Ollama._generateCustomFieldsTemplate; apply preserves_await]
  end.
  destruct H as [[E0 X0]|(cf & s3 & E3 & H)];
    [left; split; [congruence|assumption]|].
  rewrite call_bind in H. right.
  eexists _, _. split; [|exact H].
  cbn [Ollama.log_request Ollama.sent]. congruence.
Qed.

Lemma ollama_playground_anatomy (w : Ollama.World) (content p : jsstring)
    (s s' : Ollama.State) (o : Outcome AnalysisResult) :
  Ollama.analyzePlayground_try w content p s = (o, s') ->
  (Ollama.sent s' = Ollama.sent s /\ exists e, o = Throw e)
  \/ (exists req s0,
         Ollama.sent s0 = Ollama.sent s ++ [req]
         /\ bind (bind (await (Ollama.client_post w req))
                    (fun data =>
                       match data with
                       | Some d => if truthy d then ret d
                                   else throw (lit "Invalid response from Ollama API")
                       | None => throw (lit "Invalid response from Ollama API")
                       end))
              (fun d =>
                 bind (Ollama._processOllamaResponse d)
                   (fun parsed => ret (Ollama.success parsed))) s0
            = (o, s')).
Proof.
  unfold Ollama.analyzePlayground_try. intros H.
  match goal with
  | H : bind (await ?c) _ _ = _ |- _ =>
      ollama_step (preserves_await Ollama.sent c)
  end.
  cbv zeta in H. rewrite call_bind in H. right.
  eexists _, _. split; [|exact H].
  cbn [Ollama.log_request Ollama.sent]. congruence.
Qed.

Lemma ollama_run (w : Ollama.World) (content : jsstring)
    (m : M Ollama.State AnalysisResult) (s s' : Ollama.State)
    (r : AnalysisResult) :
  ollama_analysis w content m ->
  m s = (Ok r, s') ->
  exists o,
    r = match o with Ok a => a | Throw e => failure e end
    /\ ((Ollama.sent s' = Ollama.sent s /\ exists e, o = Throw e)
        \/ (exists req s0 k,
               Ollama.sent s0 = Ollama.sent s ++ [req]
               /\ Ollama.sent s' = Ollama.sent s0
               /\ tail_ok w req k
               /\ bind (bind (await (Ollama.client_post w req))
                          (fun data =>
                             match data with
                             | Some d =>
                                 if truthy d then ret d
                                 else throw (lit "Invalid response from Ollama API")
                             | None => throw (lit "Invalid response from Ollama API")
                             end))
                    (fun d => bind (Ollama._processOllamaResponse d) k) s0
                  = (o, s'))).
Proof.
  intros Hm H.
  assert (T : exists o,
             r = match o with Ok a => a | Throw e => failure e end
             /\ ((Ollama.sent s' = Ollama.sent s /\ exists e, o = Throw e)
                 \/ (exists req s0 k,
                        Ollama.sent s0 = Ollama.sent s ++ [req]
                        /\ tail_ok w req k
                        /\ bind (bind (await (Ollama.client_post w req))
                                   (fun data =>
                                      match data with
                                      | Some d =>
                                          if truthy d then ret d
                                          else throw (lit "Invalid response from Ollama API")
                                      | None => throw (lit "Invalid response from Ollama API")
                                      end))
                             (fun d => bind (Ollama._processOllamaResponse d) k) s0
                           = (o, s')))).
  { destruct Hm as [(tags & corr & types & id & cp & ext & ->)|(p & ->)].
    - unfold Ollama.analyzeDocument in H. apply caught in H.
      destruct H as (o & T & ->). exists o. split; [reflexivity|].
      apply ollama_document_anatomy in T.
      destruct T as [T|(req' & s0 & E0 & K)]; [left; exact T|right].
      eexists req', s0, _. split; [exact E0|]. split; [|exact K].
      intros doc s1 o2 s2. unfold_monad.
      destruct (Ollama.writePromptToFile w (Ollama.prompt req') doc) as [u|e];
        intros Q; injection Q as <- <-; (split; [reflexivity|]);
        [left; reflexivity|right; eauto].
    - unfold Ollama.analyzePlayground in H. apply caught in H.
      destruct H as (o & T & ->). exists o. split; [reflexivity|].
      apply ollama_playground_anatomy in T.
      destruct T as [T|(req' & s0 & E0 & K)]; [left; exact T|right].
      eexists req', s0, _. split; [exact E0|]. split; [|exact K].
      intros doc s1 o2 s2. unfold_monad.
      intros Q; injection Q as <- <-. split; [reflexivity|left; reflexivity]. }
  destruct T as (o & R & [T|(req & s0 & k & E0 & Tk & K)]).
  - exists o. split; [exact R|left; exact T].
  - exists o. split; [exact R|right]. exists req, s0, k.
    split; [exact E0|]. split; [|split; [exact Tk|exact K]].
    revert K. unfold_monad.
    destruct (Ollama.client_post w req) as [[d|]|e];
      try (intros Q; injection Q as _ <-; reflexivity).
    destruct (truthy d); [|intros Q; injection Q as _ <-; reflexivity].
    pose proof (OllamaProps.processOllamaResponse_preserves d s0) as Pp.
    destruct (Ollama._processOllamaResponse d s0) as [[doc|e] s1];
      simpl in Pp; [|intros Q; injection Q as _ <-; exact Pp].
    intros Q. apply Tk in Q. destruct Q as [Q _]. congruence.
Qed.

Lemma ollama_after_request (w : Ollama.World) (content : jsstring)
    (m : M Ollama.State AnalysisResult) (s s' : Ollama.State)
    (r : AnalysisResult) (req : Ollama.Request) :
  ollama_analysis w content m ->
  m s = (Ok r, s') -> Ollama.sent s' = Ollama.sent s ++ [req] ->
  exists k s0 o,
    tail_ok w req k
    /\ bind (bind (await (Ollama.client_post w req))
               (fun data =>
                  match data with
                  | Some d => if truthy d then ret d
                              else throw (lit "Invalid response from Ollama API")
                  | None => throw (lit "Invalid response from Ollama API")
                  end))
         (fun d => bind (Ollama._processOllamaResponse d) k) s0 = (o, s')
    /\ r = match o with Ok a => a | Throw e => failure e end.
Proof.
  intros Hm H L.
  destruct (@ollama_run _ _ _ _ _ _ Hm H)
    as (o & R & [[E _]|(req' & s0 & k & E0 & P & Tk & K)]).
  - exfalso. rewrite E in L. exact (@not_longer _ _ _ L).
  - rewrite P, E0 in L. apply (@last_request _ _ _ _) in L. subst req'.
    exists k, s0, o. auto.
Qed.

Lemma ollama_nothing_sent (w : Ollama.World) (content : jsstring)
    (m : M Ollama.State AnalysisResult) (s s' : Ollama.State)
    (r : AnalysisResult) :
  ollama_analysis w content m ->
  m s = (Ok r, s') -> Ollama.sent s' = Ollama.sent s ->
  exists e, r = failure e.
Proof.
  intros Hm H L.
  destruct (@ollama_run _ _ _ _ _ _ Hm H)
    as (o & R & [[_ (e & ->)]|(req' & s0 & k & E0 & P & _ & _)]).
  - exists e. exact R.
  - exfalso. rewrite P, E0 in L. symmetry in L. exact (@not_longer _ _ _ L).
Qed.

(** Without a client and without the configuration to build one. *)
Lemma azure_no_client (w : Azure.World) (content prompt : jsstring)
    (tags corr types : list jsstring) (id : option json)
    (cp ext : option jsstring) (s : Azure.State) :
  Azure.client s = false ->
  str_eqb (Azure.aiProvider w) (lit "azure") = false ->
  Azure.analyzeDocument w content tags corr types id cp ext s
  = (Ok (failure {| message := lit "AzureOpenAI client not initialized" |}), s)
  /\ Azure.analyzePlayground w content prompt s
     = (Ok (failure {| message := lit "AzureOpenAI client not initialized - missing API key" |}),
        s).
Proof.
  intros Hc Hp. split.
  - unfold Azure.analyzeDocument, Azure.analyzeDocument_try, Azure.initialize.
    unfold_monad. rewrite Hc, Hp. cbn [negb andb]. rewrite Hc. reflexivity.
  - apply AzureProps.azure_missing_client; assumption.
Qed.

(** The client cannot be built. *)
Lemma azure_client_fails (w : Azure.World) (content prompt : jsstring)
    (tags corr types : list jsstring) (id : option json)
    (cp ext : option jsstring) (s : Azure.State) (e : Error) :
  Azure.client s = false ->
  str_eqb (Azure.aiProvider w) (lit "azure") = true ->
  Azure.new_AzureOpenAI w = Throw e ->
  Azure.analyzeDocument w content tags corr types id cp ext s
  = (Ok (failure e), s)
  /\ Azure.analyzePlayground w content prompt s = (Ok (failure e), s).
Proof.
  intros Hc Hp He. split.
  - unfold Azure.analyzeDocument, Azure.analyzeDocument_try, Azure.initialize.
    unfold_monad. rewrite Hc, Hp. cbn [negb andb]. rewrite He. reflexivity.
  - unfold Azure.analyzePlayground, Azure.analyzePlayground_try,
      Azure.initialize.
    unfold_monad. rewrite Hc, Hp. cbn [negb andb]. rewrite He. reflexivity.
Qed.

(** The prompt and the reserved answer leave no token for the content. *)
Lemma azure_budget_error (w : Azure.World) (content : jsstring)
    (tags corr types : list jsstring) (id : option json)
    (cp ext : option jsstring) (s s1 : Azure.State) (sp : jsstring)
    (pt : option jsstring) (t : Z) :
  Azure.client s = true ->
  fst (Azure.cache_thumbnail w id s) = Ok tt ->
  Azure.build_system_prompt w tags corr types cp ext s = (Ok (sp, pt), s1) ->
  Azure.calculateTotalPromptTokens w sp
    (Some (if env_is_yes (Azure.USE_PROMPT_TAGS w) then [pt] else []))
    (Azure.AZURE_DEPLOYMENT_NAME w) = Ok t ->
  (Azure.tokenLimit w - (t + Azure.responseTokens w) <= 0)%Z ->
  Azure.analyzeDocument w content tags corr types id cp ext s
  = (Ok (failure {| message := lit "Token limit exceeded: prompt too large for available token limit" |}),
     s1).
Proof.
  intros Hc Ht Hb Hn Hl.
  pose proof (SideStepProps.azure_thumbnail_state w id s) as Hs.
  unfold Azure.analyzeDocument, Azure.analyzeDocument_try, Azure.initialize.
  rewrite try_catch_ret. unfold bind at 1. unfold bind at 1. unfold get at 1.
  rewrite Hc. cbn [negb andb]. unfold ret at 1. unfold bind at 1.
  unfold get at 1. rewrite Hc. cbn [negb]. unfold bind at 1.
  destruct (Azure.cache_thumbnail w id s) as [[[]|e'] s0]; simpl in Ht, Hs;
    [|discriminate].
  subst s0. unfold bind at 1. rewrite Hb. cbv zeta. cbn [fst snd].
  unfold bind at 1. unfold await at 1. rewrite Hn.
  apply Z.leb_le in Hl. rewrite Hl. reflexivity.
Qed.

Lemma process_unparseable (d : json) (t : jsstring) (s : Ollama.State) :
  prop d (lit "response") = Some (JStr t) -> truthy (JStr t) = true ->
  unparseable t ->
  Ollama._processOllamaResponse d s = (Ok empty_document, s).
Proof.
  intros Hr Ht Hu. unfold Ollama._processOllamaResponse. rewrite Hr, Ht.
  cbn [typeof_object andb Ollama._parseResponse].
  rewrite (OllamaProps.unparseable_empty _ Hu). reflexivity.
Qed.

Lemma process_no_response (d : json) (s : Ollama.State) :
  truthy_opt (prop d (lit "response")) = false ->
  Ollama._processOllamaResponse d s
  = (Throw {| message := lit "No response data from Ollama API" |}, s).
Proof.
  unfold Ollama._processOllamaResponse.
  destruct (prop d (lit "response")) as [r|]; [|reflexivity].
  cbn [truthy_opt]. intros ->. reflexivity.
Qed.

(** C4, amended. [analyzeDocument] and [analyzePlayground] of both adapters
    never throw: each returns a result, and whenever its [try] block throws
    an error the result is the empty document with null metrics and the
    message of that error. Each failure gives that error record. On the
    structured-output adapter: a call that sends nothing; a missing client
    that cannot be configured or cannot be built; in [analyzeDocument] a
    prompt that with the reserved answer leaves no token; and, the request
    being sent, a wire call that throws, a reply without content, a content
    that does not parse and a parsed value without tags array or
    correspondent string. On the free-text adapter: a call that sends
    nothing; and, the request being sent, a post that throws, a reply
    without data and a reply without [response]. On the free-text adapter
    a reply text from which no JSON can be read is not a failure: the
    analysis returns the empty document with zero metrics,
    [truncated: false] and no error, unless in [analyzeDocument] the
    transcript cannot be written. *)
Theorem analysis_never_throws :
  (forall w content tags corr types id cp ext s,
      exists r s',
        Azure.analyzeDocument w content tags corr types id cp ext s = (Ok r, s')
        /\ forall e s1,
             Azure.analyzeDocument_try w content tags corr types id cp ext s
             = (Throw e, s1) -> r = failure e)
  /\ (forall w content prompt s,
         exists r s',
           Azure.analyzePlayground w content prompt s = (Ok r, s')
           /\ forall e s1,
                Azure.analyzePlayground_try w content prompt s = (Throw e, s1) ->
                r = failure e)
  /\ (forall w content tags corr types id cp ext s,
         exists r s',
           Ollama.analyzeDocument w content tags corr types id cp ext s = (Ok r, s')
           /\ forall e s1,
                Ollama.analyzeDocument_try w content tags corr types id cp ext s
                = (Throw e, s1) -> r = failure e)
  /\ (forall w content p s,
         exists r s',
           Ollama.analyzePlayground w content p s = (Ok r, s')
           /\ forall e s1,
                Ollama.analyzePlayground_try w content p s = (Throw e, s1) ->
                r = failure e)
  /\ (forall e,
         document (failure e) = empty_document
         /\ metrics (failure e) = None
         /\ error (failure e) = Some (message e))
  /\ (forall w content p s n d t,
         Ollama.calculateTokens w p = Ok n ->
         Ollama.client_post w
           (Ollama.generate_request w
              (p ++ LF ++ LF ++ Json.stringify_string content)
              Ollama.playgroundSystemPrompt
              (Ollama._calculateNumCtx w n 1024) Ollama.playgroundSchema)
         = Ok (Some d) ->
         truthy d = true ->
         prop d (lit "response") = Some (JStr t) ->
         truthy (JStr t) = true ->
         unparseable t ->
         fst (Ollama.analyzePlayground w content p s)
         = Ok (Ollama.success empty_document))
  /\ (forall w content m s r s',
         azure_analysis w content m ->
         m s = (Ok r, s') -> Azure.sent s' = Azure.sent s ->
         exists e, r = failure e)
  /\ (forall w content prompt tags corr types id cp ext s,
         Azure.client s = false ->
         str_eqb (Azure.aiProvider w) (lit "azure") = false ->
         Azure.analyzeDocument w content tags corr types id cp ext s
         = (Ok (failure {| message := lit "AzureOpenAI client not initialized" |}),
            s)
         /\ Azure.analyzePlayground w content prompt s
            = (Ok (failure {| message := lit "AzureOpenAI client not initialized - missing API key" |}),
               s))
  /\ (forall w content prompt tags corr types id cp ext s e,
         Azure.client s = false ->
         str_eqb (Azure.aiProvider w) (lit "azure") = true ->
         Azure.new_AzureOpenAI w = Throw e ->
         Azure.analyzeDocument w content tags corr types id cp ext s
         = (Ok (failure e), s)
         /\ Azure.analyzePlayground w content prompt s = (Ok (failure e), s))
  /\ (forall w content tags corr types id cp ext s s1 sp pt t,
         Azure.client s = true ->
         fst (Azure.cache_thumbnail w id s) = Ok tt ->
         Azure.build_system_prompt w tags corr types cp ext s
         = (Ok (sp, pt), s1) ->
         Azure.calculateTotalPromptTokens w sp
           (Some (if env_is_yes (Azure.USE_PROMPT_TAGS w) then [pt] else []))
           (Azure.AZURE_DEPLOYMENT_NAME w) = Ok t ->
         (Azure.tokenLimit w - (t + Azure.responseTokens w) <= 0)%Z ->
         Azure.analyzeDocument w content tags corr types id cp ext s
         = (Ok (failure {| message := lit "Token limit exceeded: prompt too large for available token limit" |}),
            s1))
  /\ (forall w content m s r s' req,
         azure_analysis w content m ->
         m s = (Ok r, s') -> Azure.sent s' = Azure.sent s ++ [req] ->
         (forall e,
             Azure.chat_completions_create w req = Throw e -> r = failure e)
         /\ (forall reply,
                Azure.chat_completions_create w req = Ok reply ->
                truthy_opt (Azure.probe_content reply) = false ->
                r = failure {| message := lit "Invalid API response structure" |})
         /\ (forall reply c usage,
                Azure.chat_completions_create w req = Ok reply ->
                Azure.probe_content reply = Some (JStr c) ->
                truthy (JStr c) = true ->
                opt_prop reply (lit "usage") = Some usage -> usage <> JNull ->
                (Json.parse (strip_code_fences c) = None ->
                 r = failure {| message := lit "Invalid JSON response from API" |})
                /\ (forall v,
                       Json.parse (strip_code_fences c) = Some v ->
                       is_array (prop v (lit "tags")) = false
                       \/ typeof_string (prop v (lit "correspondent")) = false ->
                       r = failure {| message := lit "Invalid response structure: missing tags array or correspondent string" |})))
  /\ (forall w content m s r s',
         ollama_analysis w content m ->
         m s = (Ok r, s') -> Ollama.sent s' = Ollama.sent s ->
         exists e, r = failure e)
  /\ (forall w content m s r s' req,
         ollama_analysis w content m ->
         m s = (Ok r, s') -> Ollama.sent s' = Ollama.sent s ++ [req] ->
         (forall e, Ollama.client_post w req = Throw e -> r = failure e)
         /\ (forall data,
                Ollama.client_post w req = Ok data ->
                truthy_opt data = false ->
                r = failure {| message := lit "Invalid response from Ollama API" |})
         /\ (forall d,
                Ollama.client_post w req = Ok (Some d) -> truthy d = true ->
                truthy_opt (prop d (lit "response")) = false ->
                r = failure {| message := lit "No response data from Ollama API" |})
         /\ (forall d t,
                Ollama.client_post w req = Ok (Some d) -> truthy d = true ->
                prop d (lit "response") = Some (JStr t) ->
                truthy (JStr t) = true ->
                unparseable t ->
                r = Ollama.success empty_document
                \/ exists e,
                     Ollama.writePromptToFile w (Ollama.prompt req)
                       empty_document = Throw e
                     /\ r = failure e))
  /\ (forall e,
         failure e
         = {| document := JObj [(lit "tags", JArr []);
                                (lit "correspondent", JNull)];
              metrics := None; truncated := None;
              error := Some (message e) |})
  /\ Ollama.success empty_document
     = {| document := JObj [(lit "tags", JArr []);
                            (lit "correspondent", JNull)];
          metrics :=
            Some {| promptTokens := Some (JNum {| mant := 0; exp10 := 0 |});
                    completionTokens := Some (JNum {| mant := 0; exp10 := 0 |});
                    totalTokens := Some (JNum {| mant := 0; exp10 := 0 |}) |};
          truncated := Some false; error := None |}.
Proof.
  split.
  { intros w content tags corr types id cp ext s.
    unfold Azure.analyzeDocument. rewrite try_catch_ret.
    destruct (Azure.analyzeDocument_try _ _ _ _ _ _ _ _ s) as [[r|e] s1];
      eexists; eexists; (split; [reflexivity|]); intros e' s2 H;
      [discriminate|injection H as <- _; reflexivity]. }
  split.
  { intros w content prompt s.
    unfold Azure.analyzePlayground. rewrite try_catch_ret.
    destruct (Azure.analyzePlayground_try _ _ _ s) as [[r|e] s1];
      eexists; eexists; (split; [reflexivity|]); intros e' s2 H;
      [discriminate|injection H as <- _; reflexivity]. }
  split.
  { intros w content tags corr types id cp ext s.
    unfold Ollama.analyzeDocument. rewrite try_catch_ret.
    destruct (Ollama.analyzeDocument_try _ _ _ _ _ _ _ _ s) as [[r|e] s1];
      eexists; eexists; (split; [reflexivity|]); intros e' s2 H;
      [discriminate|injection H as <- _; reflexivity]. }
  split.
  { intros w content p s.
    unfold Ollama.analyzePlayground. rewrite try_catch_ret.
    destruct (Ollama.analyzePlayground_try _ _ _ s) as [[r|e] s1];
      eexists; eexists; (split; [reflexivity|]); intros e' s2 H;
      [discriminate|injection H as <- _; reflexivity]. }
  split; [intros e; repeat split|].
  split.
  { intros w content p s n d t Hn Hpost Hd Hr Ht Hu.
    unfold Ollama.analyzePlayground, Ollama.analyzePlayground_try,
      Ollama._callOllamaAPI, Ollama._processOllamaResponse.
    unfold_monad. rewrite Hn. cbv zeta. rewrite Hpost, Hd, Hr, Ht.
    cbn [typeof_object andb fst Ollama._parseResponse].
    rewrite (OllamaProps.unparseable_empty _ Hu). reflexivity. }
  split; [intros w content m s r s'; apply azure_nothing_sent|].
  split; [intros; apply azure_no_client; assumption|].
  split; [intros; apply azure_client_fails; assumption|].
  split; [intros; eapply azure_budget_error; eassumption|].
  split.
  { intros w content m s r s' req Hm H L.
    destruct (@azure_after_request w content m s s' r req Hm H L)
      as (cut & s0 & o & K & ->).
    unfold bind at 1 in K. unfold await at 1 in K.
    split; [|split].
    - intros e He. rewrite He in K. injection K as <- _. reflexivity.
    - intros reply Hr Hc. rewrite Hr in K.
      rewrite (read_response_no_content _ _ _ _ Hc) in K.
      injection K as <- _. reflexivity.
    - intros reply c usage Hr Hc Ht Hu Hn. rewrite Hr in K. split.
      + intros Hp.
        rewrite (AzureProps.read_response_unparseable _ _ _ _ Hc Ht Hu Hn Hp)
          in K.
        injection K as <- _. reflexivity.
      + intros v Hp Hv.
        rewrite (AzureProps.read_response_invalid_shape _ _ _ _ Hc Ht Hu Hn Hp Hv)
          in K.
        injection K as <- _. reflexivity. }
  split; [intros w content m s r s'; apply ollama_nothing_sent|].
  split; [|split; reflexivity].
  intros w content m s r s' req Hm H L.
  destruct (@ollama_after_request w content m s s' r req Hm H L)
    as (k & s0 & o & Tk & K & ->).
  revert K. unfold bind at 1. unfold bind at 1. unfold await at 1. intros K.
  split; [|split; [|split]].
  - intros e He. rewrite He in K. injection K as <- _. reflexivity.
  - intros data Hd Hf. rewrite Hd in K.
    destruct data as [d|]; [cbn [truthy_opt] in Hf; rewrite Hf in K|];
      unfold throw in K; injection K as <- _; reflexivity.
  - intros d Hd Ht Hr. rewrite Hd, Ht in K. unfold ret at 1 in K.
    unfold bind at 1 in K. rewrite (process_no_response _ _ Hr) in K.
    injection K as <- _. reflexivity.
  - intros d t Hd Ht Hr Htt Hu. rewrite Hd, Ht in K. unfold ret at 1 in K.
    unfold bind at 1 in K. rewrite (process_unparseable _ _ Hr Htt Hu) in K.
    apply Tk in K. destruct K as [_ [-> |(e & He & ->)]].
    + left. reflexivity.
    + right. exists e. auto.
Qed.

(** The reply in prose on the free-text adapter. *)
Lemma analysis_never_throws_witness :
  fst (Ollama.analyzePlayground
         (Examples.ollama_world 4096 None Examples.prose_reply)
         (lit "Invoice 7") (lit "Summarize.") Examples.ollama_state)
  = Ok (Ollama.success empty_document).
Proof.
  apply (proj1 (proj2 (proj2 (proj2 (proj2 (proj2 analysis_never_throws)))))
           (Examples.ollama_world 4096 None Examples.prose_reply)
           (lit "Invoice 7") (lit "Summarize.") Examples.ollama_state
           3%Z (Examples.text_reply (lit "I could not read this document."))
           (lit "I could not read this document.")).
  - vm_compute. reflexivity.
  - reflexivity.
  - reflexivity.
  - vm_compute. reflexivity.
  - vm_compute. reflexivity.
  - exact I.
Defined.

End FailureProps.
